(** * Tenant provisioning backend: a shallow embedding and its properties

    The development follows the Python sources
    - [app/models.py]        (rows and enumerations),
    - [app/config.py]        (settings),
    - [app/k8s.py]           (KubernetesManager, HelmManager),
    - [app/provisioning.py]  (TenantProvisioner),
    - [app/main.py]          (the lifecycle endpoints).

    Python code that talks to the outside (cluster API, MySQL server, helm,
    kubectl, the PostgreSQL session) is written in a state-and-exception monad
    over a record [Sys] that holds a small simulation of each collaborator
    together with its injected faults. *)

From Stdlib Require Import ZArith Ascii String.
From stdpp Require Import base option list strings gmap pretty.

Local Open Scope Z_scope.

(** ** Python strings

    [str] values are modelled as [string]; the functions below follow the
    Python methods on the ASCII range (a character above 127 is neither
    whitespace, a line boundary, nor cased). *)
Module PyStr.

Definition code (c : ascii) : nat := nat_of_ascii c.

(** [str.isspace] on one ASCII character: TAB, LF, VT, FF, CR, FS, GS, RS,
    US and space. *)
Definition is_space (c : ascii) : bool :=
  let n := code c in
  ((9 <=? n)%nat && (n <=? 13)%nat) || ((28 <=? n)%nat && (n <=? 32)%nat).

(** Line boundaries of [str.splitlines]: LF, VT, FF, CR, FS, GS, RS. *)
Definition is_linebreak (c : ascii) : bool :=
  let n := code c in
  ((10 <=? n)%nat && (n <=? 13)%nat) || ((28 <=? n)%nat && (n <=? 30)%nat).

Definition lower_char (c : ascii) : ascii :=
  let n := code c in
  if (65 <=? n)%nat && (n <=? 90)%nat then ascii_of_nat (n + 32) else c.

Definition chars (s : string) : list ascii := list_ascii_of_string s.
Definition str (l : list ascii) : string := string_of_list_ascii l.

Fixpoint starts_with (p l : list ascii) : bool :=
  match p, l with
  | [], _ => true
  | _ :: _, [] => false
  | a :: p', b :: l' => Ascii.eqb a b && starts_with p' l'
  end.

(** [p in l] on strings: [p] occurs as a contiguous substring of [l]. *)
Fixpoint occurs (p l : list ascii) : bool :=
  starts_with p l ||
  match l with
  | [] => false
  | _ :: l' => occurs p l'
  end.

(** [str.split()] with no argument: maximal runs of non-whitespace. *)
Fixpoint split_go (cur : list ascii) (l : list ascii) : list (list ascii) :=
  match l with
  | [] => match cur with [] => [] | _ => [rev cur] end
  | c :: l' =>
      if is_space c
      then match cur with
           | [] => split_go [] l'
           | _ => rev cur :: split_go [] l'
           end
      else split_go (c :: cur) l'
  end.

(** [str.splitlines()]: a CR LF pair is one boundary; no empty last line. *)
Fixpoint splitlines_go (cur : list ascii) (l : list ascii)
  : list (list ascii) :=
  match l with
  | [] => match cur with [] => [] | _ => [rev cur] end
  | c :: l' =>
      if is_linebreak c
      then match l' with
           | d :: l'' =>
               if (code c =? 13)%nat && (code d =? 10)%nat
               then rev cur :: splitlines_go [] l''
               else rev cur :: splitlines_go [] l'
           | [] => rev cur :: splitlines_go [] l'
           end
      else splitlines_go (c :: cur) l'
  end.

Fixpoint lstrip_go (l : list ascii) : list ascii :=
  match l with
  | c :: l' => if is_space c then lstrip_go l' else l
  | [] => []
  end.

Definition lower (s : string) : string := str (map lower_char (chars s)).
Definition contains (needle s : string) : bool :=
  occurs (chars needle) (chars s).
Definition split (s : string) : list string := map str (split_go [] (chars s)).
Definition splitlines (s : string) : list string :=
  map str (splitlines_go [] (chars s)).
Definition strip (s : string) : string :=
  str (rev (lstrip_go (rev (lstrip_go (chars s))))).

(** [s[:n]] *)
Definition prefix (n : nat) (s : string) : string := str (take n (chars s)).

(** [repr] of a [str] without quotes, backslashes or control characters,
    and of a list of such strings. *)
Definition repr (s : string) : string := "'" +:+ s +:+ "'".
Fixpoint join (sep : string) (l : list string) : string :=
  match l with
  | [] => ""
  | [x] => x
  | x :: l' => x +:+ sep +:+ join sep l'
  end.
Definition repr_list (l : list string) : string :=
  "[" +:+ join ", " (map repr l) +:+ "]".

End PyStr.

(** ** Exceptions and results *)

(** The exception classes the code raises, catches or lets through.
    [LibraryError cls msg] stands for an exception of a library class the code
    never names ([FileNotFoundError], [subprocess.TimeoutExpired],
    [pymysql.err.OperationalError], [urllib3] transport errors, ...). *)
Inductive exn : Type :=
| Exception (msg : string)
| TypeError (msg : string)
| AttributeError (msg : string)
| IndexError (msg : string)
| IntegrityError (msg : string)
| ApiException (status : Z) (reason : string)
| CalledProcessError (cmd : list string) (returncode : Z) (stderr : string)
| HTTPException (status_code : Z) (detail : string)
| LibraryError (cls : string) (msg : string).

Definition newline : string := String (ascii_of_nat 10) "".

(** [str(e)] *)
Definition py_str (e : exn) : string :=
  match e with
  | Exception msg | TypeError msg | AttributeError msg | IndexError msg
  | IntegrityError msg | LibraryError _ msg => msg
  | ApiException status reason =>
      "(" +:+ pretty status +:+ ")" +:+ newline +:+ "Reason: " +:+ reason +:+ newline
  | CalledProcessError cmd rc _ =>
      "Command '" +:+ PyStr.repr_list cmd +:+ "' returned non-zero exit status "
      +:+ pretty rc +:+ "."
  | HTTPException code detail => pretty code +:+ ": " +:+ detail
  end.

Inductive result (A : Type) : Type :=
| Ok (a : A)
| Raise (e : exn).
Arguments Ok {A} a.
Arguments Raise {A} e.

(** ** Rows and enumerations ([models.py]) *)

Inductive TenantStatus :=
| PENDING | PROVISIONING | ACTIVE | FAILED | SUSPENDED | DELETED.

Inductive ProvisioningAction := CREATE | UPDATE | SUSPEND | RESUME | DELETE.

Global Instance TenantStatus_eq_dec : EqDecision TenantStatus.
Proof. solve_decision. Defined.

Record User := {
  u_id : nat;
  u_email : string;
  u_password_hash : string;
}.

(** [created_at] and [updated_at] are filled by column defaults and never read
    by the code; they are left out. *)
Record Tenant := {
  t_id : nat;
  t_user_id : nat;
  t_namespace : string;
  t_helm_release_name : string;
  t_domain : string;
  t_plan : string;
  t_status : TenantStatus;
  t_db_name : string;
  t_db_user : string;
  t_db_password : string;
  t_ca_admin_username : string;
  t_ca_admin_password : option string;
  t_deployed_at : option nat;
}.

Record Subscription := {
  s_id : nat;
  s_tenant_id : nat;
  s_stripe_subscription_id : string;
  s_stripe_customer_id : string;
  s_stripe_price_id : string;
  s_status : string;
  s_current_period_start : nat;
  s_current_period_end : nat;
}.

Record ProvisioningLog := {
  l_id : nat;
  l_tenant_id : nat;
  l_action : ProvisioningAction;
  l_status : string;
  l_message : option string;
  l_error_details : option string;
  l_stripe_event_id : option string;
  l_completed_at : option nat;
}.

(** Attribute assignments on a mapped object. *)
Definition set_t_id (i : nat) (t : Tenant) : Tenant :=
  {| t_id := i; t_user_id := t_user_id t; t_namespace := t_namespace t;
     t_helm_release_name := t_helm_release_name t; t_domain := t_domain t;
     t_plan := t_plan t; t_status := t_status t; t_db_name := t_db_name t;
     t_db_user := t_db_user t; t_db_password := t_db_password t;
     t_ca_admin_username := t_ca_admin_username t;
     t_ca_admin_password := t_ca_admin_password t;
     t_deployed_at := t_deployed_at t |}.

Definition set_t_status (st : TenantStatus) (t : Tenant) : Tenant :=
  {| t_id := t_id t; t_user_id := t_user_id t; t_namespace := t_namespace t;
     t_helm_release_name := t_helm_release_name t; t_domain := t_domain t;
     t_plan := t_plan t; t_status := st; t_db_name := t_db_name t;
     t_db_user := t_db_user t; t_db_password := t_db_password t;
     t_ca_admin_username := t_ca_admin_username t;
     t_ca_admin_password := t_ca_admin_password t;
     t_deployed_at := t_deployed_at t |}.

Definition set_t_deployed_at (d : option nat) (t : Tenant) : Tenant :=
  {| t_id := t_id t; t_user_id := t_user_id t; t_namespace := t_namespace t;
     t_helm_release_name := t_helm_release_name t; t_domain := t_domain t;
     t_plan := t_plan t; t_status := t_status t; t_db_name := t_db_name t;
     t_db_user := t_db_user t; t_db_password := t_db_password t;
     t_ca_admin_username := t_ca_admin_username t;
     t_ca_admin_password := t_ca_admin_password t;
     t_deployed_at := d |}.

Definition set_t_ca_admin_password (p : option string) (t : Tenant) : Tenant :=
  {| t_id := t_id t; t_user_id := t_user_id t; t_namespace := t_namespace t;
     t_helm_release_name := t_helm_release_name t; t_domain := t_domain t;
     t_plan := t_plan t; t_status := t_status t; t_db_name := t_db_name t;
     t_db_user := t_db_user t; t_db_password := t_db_password t;
     t_ca_admin_username := t_ca_admin_username t;
     t_ca_admin_password := p;
     t_deployed_at := t_deployed_at t |}.

Definition set_s_id (i : nat) (x : Subscription) : Subscription :=
  {| s_id := i; s_tenant_id := s_tenant_id x;
     s_stripe_subscription_id := s_stripe_subscription_id x;
     s_stripe_customer_id := s_stripe_customer_id x;
     s_stripe_price_id := s_stripe_price_id x; s_status := s_status x;
     s_current_period_start := s_current_period_start x;
     s_current_period_end := s_current_period_end x |}.

Definition set_l_id (i : nat) (l : ProvisioningLog) : ProvisioningLog :=
  {| l_id := i; l_tenant_id := l_tenant_id l; l_action := l_action l;
     l_status := l_status l; l_message := l_message l;
     l_error_details := l_error_details l;
     l_stripe_event_id := l_stripe_event_id l;
     l_completed_at := l_completed_at l |}.

(** Closing a log row: [log.status], [log.message], [log.error_details] and
    [log.completed_at] assigned together. *)
Definition close_log (st : string) (msg : option string) (err : option string)
    (at_ : nat) (l : ProvisioningLog) : ProvisioningLog :=
  {| l_id := l_id l; l_tenant_id := l_tenant_id l; l_action := l_action l;
     l_status := st; l_message := msg; l_error_details := err;
     l_stripe_event_id := l_stripe_event_id l;
     l_completed_at := Some at_ |}.

(** ** The backend metadata store (PostgreSQL behind the SQLAlchemy session)

    Tables are lists of rows in insertion order.  The constraints are the ones
    [models.py] declares: primary keys, [unique=True] columns and foreign
    keys. *)
Record Store := {
  users : list User;
  tenants : list Tenant;
  subscriptions : list Subscription;
  logs : list ProvisioningLog;
}.

Definition set_tenants (ts : list Tenant) (st : Store) : Store :=
  {| users := users st; tenants := ts;
     subscriptions := subscriptions st; logs := logs st |}.
Definition set_subscriptions (ss : list Subscription) (st : Store) : Store :=
  {| users := users st; tenants := tenants st;
     subscriptions := ss; logs := logs st |}.
Definition set_logs (ls : list ProvisioningLog) (st : Store) : Store :=
  {| users := users st; tenants := tenants st;
     subscriptions := subscriptions st; logs := ls |}.

(** A serial primary key: one more than the largest key in the table. *)
Definition next_id (ids : list nat) : nat := S (foldr Nat.max 0%nat ids).

(** [db.query(Tenant).join(Subscription)
       .filter(Subscription.stripe_subscription_id == sid).first()] *)
Definition tenant_has_subscription (st : Store) (sid : string) (t : Tenant) : bool :=
  existsb (λ x, Nat.eqb (s_tenant_id x) (t_id t)
                && String.eqb (s_stripe_subscription_id x) sid)
          (subscriptions st).

Definition query_tenant_by_subscription (sid : string) (st : Store)
  : option Tenant :=
  find (tenant_has_subscription st sid) (tenants st).

(** INSERT of a tenant row (at [flush]). *)
Definition insert_tenant (t : Tenant) (st : Store) : result (Tenant * Store) :=
  if negb (existsb (λ u, Nat.eqb (u_id u) (t_user_id t)) (users st)) then
    Raise (IntegrityError "insert or update on table tenants violates foreign key constraint tenants_user_id_fkey")
  else if existsb (λ x, String.eqb (t_namespace x) (t_namespace t)) (tenants st) then
    Raise (IntegrityError "duplicate key value violates unique constraint ix_tenants_namespace")
  else if existsb (λ x, String.eqb (t_domain x) (t_domain t)) (tenants st) then
    Raise (IntegrityError "duplicate key value violates unique constraint tenants_domain_key")
  else
    let t' := set_t_id (next_id (map t_id (tenants st))) t in
    Ok (t', set_tenants (tenants st ++ [t']) st).

(** INSERT of a subscription row. *)
Definition insert_subscription (x : Subscription) (st : Store)
  : result (Subscription * Store) :=
  if negb (existsb (λ t, Nat.eqb (t_id t) (s_tenant_id x)) (tenants st)) then
    Raise (IntegrityError "insert or update on table subscriptions violates foreign key constraint subscriptions_tenant_id_fkey")
  else if existsb (λ y, Nat.eqb (s_tenant_id y) (s_tenant_id x)) (subscriptions st) then
    Raise (IntegrityError "duplicate key value violates unique constraint subscriptions_tenant_id_key")
  else if existsb (λ y, String.eqb (s_stripe_subscription_id y)
                                   (s_stripe_subscription_id x))
                  (subscriptions st) then
    Raise (IntegrityError "duplicate key value violates unique constraint ix_subscriptions_stripe_subscription_id")
  else
    let x' := set_s_id (next_id (map s_id (subscriptions st))) x in
    Ok (x', set_subscriptions (subscriptions st ++ [x']) st).

(** INSERT of a provisioning log row. *)
Definition insert_log (l : ProvisioningLog) (st : Store)
  : result (ProvisioningLog * Store) :=
  if negb (existsb (λ t, Nat.eqb (t_id t) (l_tenant_id l)) (tenants st)) then
    Raise (IntegrityError "insert or update on table provisioning_logs violates foreign key constraint provisioning_logs_tenant_id_fkey")
  else
    let l' := set_l_id (next_id (map l_id (logs st))) l in
    Ok (l', set_logs (logs st ++ [l']) st).

(** UPDATE ... WHERE id = i, for the two tables the code updates. *)
Definition update_tenant (i : nat) (f : Tenant → Tenant) (st : Store) : Store :=
  set_tenants (map (λ t, if Nat.eqb (t_id t) i then f t else t) (tenants st)) st.

Definition update_log (i : nat) (f : ProvisioningLog → ProvisioningLog)
    (st : Store) : Store :=
  set_logs (map (λ l, if Nat.eqb (l_id l) i then f l else l) (logs st)) st.

(** ** Settings ([config.py]) *)
Record Settings := {
  MYSQL_ROOT_PASSWORD : string;
  KUBERNETES_NAMESPACE_PREFIX : string;
  HELM_CHART_PATH : string;
  BASE_DOMAIN : string;
  DB_HOST : string;
  DB_PORT : Z;
  CA_ADMIN_EMAIL : string;
  CA_TIMEZONE : string;
  CA_DOCKER_IMAGE : string;
  CA_CERT_ISSUER : string;
  CA_STORAGE_SIZE : string;
}.

(** The defaults of the [Field]s. *)
Definition default_settings : Settings := {|
  MYSQL_ROOT_PASSWORD := "";
  KUBERNETES_NAMESPACE_PREFIX := "tenant";
  HELM_CHART_PATH := "/app/k8s/helm/collectiveaccess";
  BASE_DOMAIN := "yoursaas.com";
  DB_HOST := "mysql.ca-system.svc.cluster.local";
  DB_PORT := 3306;
  CA_ADMIN_EMAIL := "admin@yoursaas.com";
  CA_TIMEZONE := "UTC";
  CA_DOCKER_IMAGE := "julijaand/collectiveaccess:latest";
  CA_CERT_ISSUER := "letsencrypt";
  CA_STORAGE_SIZE := "20Gi";
|}.

(** ** The collaborators *)

(** What a faulty API server answers: an HTTP status (an [ApiException]) or
    no answer at all (a transport error of another class). *)
Inductive ApiFault :=
| HttpStatus (status : Z) (reason : string)
| Transport (cls msg : string).

Definition api_fault_exn (f : ApiFault) : exn :=
  match f with
  | HttpStatus st r => ApiException st r
  | Transport cls msg => LibraryError cls msg
  end.

(** The cluster API server. *)
Record Cluster := {
  namespaces : gset string;
  k8s_read_fault : option ApiFault;
  k8s_create_fault : option ApiFault;
}.

(** The shared MySQL server.  [sql_connect_fault] is the text of the error
    [pymysql.connect] raises; [sql_create_fault] the text of the error a
    [CREATE DATABASE] statement raises (for instance a missing privilege). *)
Record MySQL := {
  schemata : gset string;
  principals : gmap string string;
  grants : gset (string * string);
  sql_connect_fault : option string;
  sql_create_fault : option string;
}.

(** One helm release: its latest revision number and whether its latest
    revision is stuck in a [pending-*] status (an operation in progress). *)
Record Release := {
  revision : nat;
  pending : bool;
}.

(** The release manager, keyed by (namespace, release name).  The faults are
    (exit status, stderr) pairs of the matching helm subcommand; the exit
    status of a failing command is not zero. *)
Record Helm := {
  releases : gmap (string * string) Release;
  helm_missing : bool;
  upgrade_fault : option (positive * string);
  history_fault : option (positive * string);
  rollback_fault : option (positive * string);
  uninstall_fault : option (positive * string);
}.

(** [subprocess.CompletedProcess] with [capture_output=True, text=True]. *)
Record CompletedProcess := {
  returncode : Z;
  stdout : string;
  stderr : string;
}.

(** Calls that leave the process, in the order they are made. *)
Inductive Call :=
| ReadNamespace (name : string)
| CreateNamespace (name : string)
| SqlConnect
| SqlExecute (statement : string) (params : list string)
| Subprocess (cmd : list string)
| Sleep (seconds : Z).

(** The state the code runs against.
    - [kubectl_run] answers a kubectl command line;
    - [db] is the committed content of the metadata store;
    - [others] is what other sessions commit between this session's lookup
      and its first INSERT (the identity when nobody else writes);
    - [uuid_stream] and [uuid_pos] give the successive [uuid.uuid4().hex];
    - [now] is [datetime.utcnow()];
    - [trace] accumulates the outside calls, latest last. *)
Record Sys := {
  k8s : Cluster;
  mysql : MySQL;
  helm : Helm;
  kubectl_run : list string → result CompletedProcess;
  db : Store;
  others : Store → Store;
  uuid_stream : nat → string;
  uuid_pos : nat;
  now : nat;
  trace : list Call;
}.

Definition set_k8s (c : Cluster) (s : Sys) : Sys :=
  {| k8s := c; mysql := mysql s; helm := helm s; kubectl_run := kubectl_run s;
     db := db s; others := others s; uuid_stream := uuid_stream s;
     uuid_pos := uuid_pos s; now := now s; trace := trace s |}.
Definition set_mysql (m : MySQL) (s : Sys) : Sys :=
  {| k8s := k8s s; mysql := m; helm := helm s; kubectl_run := kubectl_run s;
     db := db s; others := others s; uuid_stream := uuid_stream s;
     uuid_pos := uuid_pos s; now := now s; trace := trace s |}.
Definition set_helm (h : Helm) (s : Sys) : Sys :=
  {| k8s := k8s s; mysql := mysql s; helm := h; kubectl_run := kubectl_run s;
     db := db s; others := others s; uuid_stream := uuid_stream s;
     uuid_pos := uuid_pos s; now := now s; trace := trace s |}.
Definition set_kubectl_run (k : list string → result CompletedProcess)
    (s : Sys) : Sys :=
  {| k8s := k8s s; mysql := mysql s; helm := helm s; kubectl_run := k;
     db := db s; others := others s; uuid_stream := uuid_stream s;
     uuid_pos := uuid_pos s; now := now s; trace := trace s |}.
Definition set_others (o : Store → Store) (s : Sys) : Sys :=
  {| k8s := k8s s; mysql := mysql s; helm := helm s; kubectl_run := kubectl_run s;
     db := db s; others := o; uuid_stream := uuid_stream s;
     uuid_pos := uuid_pos s; now := now s; trace := trace s |}.
Definition set_db (d : Store) (s : Sys) : Sys :=
  {| k8s := k8s s; mysql := mysql s; helm := helm s; kubectl_run := kubectl_run s;
     db := d; others := others s; uuid_stream := uuid_stream s;
     uuid_pos := uuid_pos s; now := now s; trace := trace s |}.
Definition set_uuid_pos (n : nat) (s : Sys) : Sys :=
  {| k8s := k8s s; mysql := mysql s; helm := helm s; kubectl_run := kubectl_run s;
     db := db s; others := others s; uuid_stream := uuid_stream s;
     uuid_pos := n; now := now s; trace := trace s |}.
Definition set_trace (t : list Call) (s : Sys) : Sys :=
  {| k8s := k8s s; mysql := mysql s; helm := helm s; kubectl_run := kubectl_run s;
     db := db s; others := others s; uuid_stream := uuid_stream s;
     uuid_pos := uuid_pos s; now := now s; trace := t |}.

(** Changes of the collaborators' resources. *)
Definition add_namespace (name : string) (s : Sys) : Sys :=
  set_k8s {| namespaces := {[name]} ∪ namespaces (k8s s);
             k8s_read_fault := k8s_read_fault (k8s s);
             k8s_create_fault := k8s_create_fault (k8s s) |} s.

Definition add_schema (db_name : string) (s : Sys) : Sys :=
  set_mysql {| schemata := {[db_name]} ∪ schemata (mysql s);
               principals := principals (mysql s);
               grants := grants (mysql s);
               sql_connect_fault := sql_connect_fault (mysql s);
               sql_create_fault := sql_create_fault (mysql s) |} s.

(** [CREATE USER IF NOT EXISTS]: an existing principal keeps its credential. *)
Definition create_principal (db_user db_password : string)
    (m : gmap string string) : gmap string string :=
  match m !! db_user with
  | Some _ => m
  | None => <[db_user := db_password]> m
  end.
Global Arguments create_principal : simpl never.

Definition add_principal (db_user db_password : string) (s : Sys) : Sys :=
  set_mysql {| schemata := schemata (mysql s);
               principals := create_principal db_user db_password
                               (principals (mysql s));
               grants := grants (mysql s);
               sql_connect_fault := sql_connect_fault (mysql s);
               sql_create_fault := sql_create_fault (mysql s) |} s.

Definition add_grant (db_name db_user : string) (s : Sys) : Sys :=
  set_mysql {| schemata := schemata (mysql s);
               principals := principals (mysql s);
               grants := {[(db_name, db_user)]} ∪ grants (mysql s);
               sql_connect_fault := sql_connect_fault (mysql s);
               sql_create_fault := sql_create_fault (mysql s) |} s.

Definition set_releases (r : gmap (string * string) Release) (h : Helm) : Helm :=
  {| releases := r; helm_missing := helm_missing h;
     upgrade_fault := upgrade_fault h; history_fault := history_fault h;
     rollback_fault := rollback_fault h; uninstall_fault := uninstall_fault h |}.

(** A new deployed revision of a release (the first one when it is new). *)
Definition next_revision (ns name : string)
    (rs : gmap (string * string) Release) : gmap (string * string) Release :=
  let rev := match rs !! (ns, name) with
             | Some r => S (revision r)
             | None => 1%nat
             end in
  <[(ns, name) := {| revision := rev; pending := false |}]> rs.
Global Arguments next_revision : simpl never.

Definition deploy_release (ns name : string) (s : Sys) : Sys :=
  set_helm (set_releases (next_revision ns name (releases (helm s))) (helm s)) s.

Definition forget_release (ns name : string)
    (rs : gmap (string * string) Release) : gmap (string * string) Release :=
  delete (ns, name) rs.
Global Arguments forget_release : simpl never.

Definition remove_release (ns name : string) (s : Sys) : Sys :=
  set_helm (set_releases (forget_release ns name (releases (helm s))) (helm s)) s.

(** ** The monad of Python code: state plus exceptions

    A raised exception keeps the state reached so far: nothing outside the
    process is undone by unwinding. *)
Definition M (A : Type) : Type := Sys → result A * Sys.

Global Instance M_ret : MRet M := λ A a s, (Ok a, s).
Global Instance M_bind : MBind M := λ A B f m s,
  match m s with
  | (Ok a, s') => f a s'
  | (Raise e, s') => (Raise e, s')
  end.

Definition raise {A} (e : exn) : M A := λ s, (Raise e, s).
Definition gets {A} (f : Sys → A) : M A := λ s, (Ok (f s), s).
Definition modify (f : Sys → Sys) : M unit := λ s, (Ok (), f s).
Definition lift_result {A} (r : result A) : M A := λ s, (r, s).
Definition call (c : Call) : M unit := modify (λ s, set_trace (trace s ++ [c]) s).

(** [try: body except <classes> as e: handler].  The handler function
    answers [None] for an exception its [except] clause does not name, which
    then propagates. *)
Definition try_except {A} (body : M A) (handler : exn → option (M A)) : M A :=
  λ s, match body s with
       | (Ok a, s') => (Ok a, s')
       | (Raise e, s') =>
           match handler e with
           | Some h => h s'
           | None => (Raise e, s')
           end
       end.

(** [except Exception as e] catches every class modelled here. *)
Definition except_Exception {A} (h : exn → M A) : exn → option (M A) :=
  λ e, Some (h e).

Definition except_ApiException {A} (h : Z → M A) : exn → option (M A) :=
  λ e, match e with ApiException st _ => Some (h st) | _ => None end.

Definition except_CalledProcessError {A} (h : exn → string → M A)
  : exn → option (M A) :=
  λ e, match e with
       | CalledProcessError _ _ err => Some (h e err)
       | _ => None
       end.

(** *** Cluster API ([kubernetes.client.CoreV1Api]) *)

Definition core_v1_read_namespace (name : string) : M unit :=
  call (ReadNamespace name);;
  c ← gets k8s;
  match k8s_read_fault c with
  | Some f => raise (api_fault_exn f)
  | None =>
      if decide (name ∈ namespaces c) then mret ()
      else raise (ApiException 404 "Not Found")
  end.

Definition core_v1_create_namespace (name : string) : M unit :=
  call (CreateNamespace name);;
  c ← gets k8s;
  match k8s_create_fault c with
  | Some f => raise (api_fault_exn f)
  | None =>
      if decide (name ∈ namespaces c) then raise (ApiException 409 "Conflict")
      else modify (add_namespace name)
  end.

(** *** MySQL server ([pymysql]) *)

Definition pymysql_connect : M unit :=
  call SqlConnect;;
  m ← gets mysql;
  match sql_connect_fault m with
  | Some msg => raise (LibraryError "OperationalError" msg)
  | None => mret ()
  end.

(** [c.execute("SELECT SCHEMA_NAME ...", (db_name,)); c.fetchone()] *)
Definition sql_select_schema (db_name : string) : M (option string) :=
  call (SqlExecute "SELECT SCHEMA_NAME FROM INFORMATION_SCHEMA.SCHEMATA WHERE SCHEMA_NAME=%s"
                   [db_name]);;
  m ← gets mysql;
  mret (if decide (db_name ∈ schemata m) then Some db_name else None).

Definition sql_create_database (db_name : string) : M unit :=
  call (SqlExecute ("CREATE DATABASE IF NOT EXISTS `" +:+ db_name +:+ "`;") []);;
  m ← gets mysql;
  match sql_create_fault m with
  | Some msg => raise (LibraryError "OperationalError" msg)
  | None => modify (add_schema db_name)
  end.

Definition sql_create_user (db_user db_password : string) : M unit :=
  call (SqlExecute "CREATE USER IF NOT EXISTS %s@'%%' IDENTIFIED BY %s;"
                   [db_user; db_password]);;
  modify (add_principal db_user db_password).

Definition sql_grant_all (db_name db_user : string) : M unit :=
  call (SqlExecute ("GRANT ALL PRIVILEGES ON `" +:+ db_name +:+ "`.* TO %s@'%%';")
                   [db_user]);;
  modify (add_grant db_name db_user).

Definition sql_flush_privileges : M unit :=
  call (SqlExecute "FLUSH PRIVILEGES;" []).

(** *** helm and kubectl behind [subprocess.run] *)

Definition completed (rc : Z) (out err : string) : CompletedProcess :=
  {| returncode := rc; stdout := out; stderr := err |}.

Definition lock_signature : string :=
  "another operation (install/upgrade/rollback) is in progress".

Fixpoint drop_last (s : string) : string :=
  match s with
  | EmptyString => EmptyString
  | String c EmptyString => EmptyString
  | String c s' => String c (drop_last s')
  end.

(** The release name an anchored filter [^name$] selects. *)
Definition name_of_filter (f : string) : string :=
  match f with
  | String _ rest => drop_last rest
  | EmptyString => EmptyString
  end.

(** [helm list --namespace ns --filter f --short]: the deployed or failed
    releases of the namespace that match; pending ones are not listed. *)
Definition helm_list (ns f : string) (h : Helm) : CompletedProcess :=
  match releases h !! (ns, name_of_filter f) with
  | Some r =>
      if pending r then completed 0 "" ""
      else completed 0 (name_of_filter f +:+ newline) ""
  | None => completed 0 "" ""
  end.

(** [helm upgrade --install name chart --namespace ns --create-namespace
    --atomic ...]: refused while the release is pending; a failing operation
    is reverted by [--atomic]; otherwise a new revision is deployed. *)
Definition helm_upgrade (name ns : string) : M CompletedProcess :=
  h ← gets helm;
  match releases h !! (ns, name) with
  | Some r =>
      if pending r then
        mret (completed 1 "" ("Error: UPGRADE FAILED: " +:+ lock_signature))
      else
        match upgrade_fault h with
        | Some (rc, err) => mret (completed (Z.pos rc) "" err)
        | None =>
            modify (deploy_release ns name);;
            mret (completed 0 ("Release " +:+ name +:+ " has been upgraded. Happy Helming!") "")
        end
  | None =>
      match upgrade_fault h with
      | Some (rc, err) => mret (completed (Z.pos rc) "" err)
      | None =>
          modify (add_namespace ns);;
          modify (deploy_release ns name);;
          mret (completed 0 ("Release " +:+ name +:+ " does not exist. Installing it now.") "")
      end
  end.

Definition dquote : string := String (ascii_of_nat 34) "".

(** The one-entry JSON document [helm history --max=1 --output=json] prints
    (fields other than the revision are left out). *)
Definition history_json (rev : nat) : string :=
  "[{" +:+ dquote +:+ "revision" +:+ dquote +:+ ":" +:+ pretty rev +:+ "}]".

Definition helm_history (name ns : string) (h : Helm) : CompletedProcess :=
  match history_fault h with
  | Some (rc, err) => completed (Z.pos rc) "" err
  | None =>
      match releases h !! (ns, name) with
      | Some r => completed 0 (history_json (revision r)) ""
      | None => completed 1 "" "Error: release: not found"
      end
  end.

Fixpoint parse_digits (acc : nat) (l : list ascii) : option (nat * list ascii) :=
  match l with
  | c :: l' =>
      let n := PyStr.code c in
      if (48 <=? n)%nat && (n <=? 57)%nat
      then match parse_digits (acc * 10 + (n - 48)) l' with
           | Some r => Some r
           | None => Some ((acc * 10 + (n - 48))%nat, l')
           end
      else None
  | [] => None
  end.

Definition parse_nat (s : string) : option nat :=
  match parse_digits 0 (PyStr.chars s) with
  | Some (n, []) => Some n
  | _ => None
  end.

(** [json.loads(text)[-1]["revision"]] on a document of the shape
    [history_json] prints; any other text raises. *)
Definition json_last_revision (text : string) : M nat :=
  let pre := PyStr.chars ("[{" +:+ dquote +:+ "revision" +:+ dquote +:+ ":") in
  if PyStr.starts_with pre (PyStr.chars text) then
    match parse_digits 0 (drop (length pre) (PyStr.chars text)) with
    | Some (n, rest) =>
        if String.eqb (PyStr.str rest) "}]" then mret n
        else raise (LibraryError "JSONDecodeError" "Expecting value")
    | None => raise (LibraryError "JSONDecodeError" "Expecting value")
    end
  else if String.eqb text "[]" then raise (IndexError "list index out of range")
  else raise (LibraryError "JSONDecodeError" "Expecting value").

(** [helm rollback name rev -n ns]: redeploys an existing revision as a new
    one, which ends the pending state. *)
Definition helm_rollback (name rev ns : string) : M CompletedProcess :=
  h ← gets helm;
  match rollback_fault h with
  | Some (rc, err) => mret (completed (Z.pos rc) "" err)
  | None =>
      match releases h !! (ns, name), parse_nat rev with
      | Some r, Some n =>
          if (1 <=? n)%nat && (n <=? revision r)%nat then
            modify (deploy_release ns name);;
            mret (completed 0 "Rollback was a success! Happy Helming!" "")
          else mret (completed 1 "" "Error: release has no such version")
      | _, _ => mret (completed 1 "" "Error: release: not found")
      end
  end.

Definition helm_uninstall (name ns : string) : M CompletedProcess :=
  h ← gets helm;
  match uninstall_fault h with
  | Some (rc, err) => mret (completed (Z.pos rc) "" err)
  | None =>
      match releases h !! (ns, name) with
      | Some _ =>
          modify (remove_release ns name);;
          mret (completed 0 ("release " +:+ name +:+ " uninstalled") "")
      | None => mret (completed 1 "" ("Error: uninstall: Release not loaded: "
                                       +:+ name +:+ ": release: not found"))
      end
  end.

Definition helm_usage : CompletedProcess := completed 1 "" "Error: unknown command".

(** The helm binary on an argument vector. *)
Definition helm_exec (args : list string) : M CompletedProcess :=
  h ← gets helm;
  if helm_missing h then
    raise (LibraryError "FileNotFoundError" "[Errno 2] No such file or directory: 'helm'")
  else
    match args with
    | sub :: rest =>
        if String.eqb sub "list" then
          match rest with
          | [_; ns; _; f; _] => mret (helm_list ns f h)
          | _ => mret helm_usage
          end
        else if String.eqb sub "upgrade" then
          match rest with
          | _ :: name :: _ :: _ :: ns :: _ => helm_upgrade name ns
          | _ => mret helm_usage
          end
        else if String.eqb sub "history" then
          match rest with
          | name :: _ :: ns :: _ => mret (helm_history name ns h)
          | _ => mret helm_usage
          end
        else if String.eqb sub "rollback" then
          match rest with
          | [name; rev; _; ns] => helm_rollback name rev ns
          | _ => mret helm_usage
          end
        else if String.eqb sub "uninstall" then
          match rest with
          | [name; _; ns] => helm_uninstall name ns
          | _ => mret helm_usage
          end
        else mret helm_usage
    | [] => mret helm_usage
    end.

(** [subprocess.run(cmd, capture_output=True, text=True, check=check)] *)
Definition subprocess_run (cmd : list string) (check : bool) : M CompletedProcess :=
  call (Subprocess cmd);;
  r ← match cmd with
      | prog :: args =>
          if String.eqb prog "helm" then helm_exec args
          else if String.eqb prog "kubectl" then
            k ← gets kubectl_run; lift_result (k cmd)
          else raise (LibraryError "FileNotFoundError"
                        "[Errno 2] No such file or directory")
      | [] => raise (IndexError "list index out of range")
      end;
  if check && negb (returncode r =? 0)
  then raise (CalledProcessError cmd (returncode r) (stderr r))
  else mret r.

Definition time_sleep (seconds : Z) : M unit := call (Sleep seconds).

(** [uuid.uuid4().hex] and [datetime.utcnow()] *)
Definition uuid4_hex : M string :=
  s ← gets (λ s, uuid_stream s (uuid_pos s));
  modify (λ st, set_uuid_pos (S (uuid_pos st)) st);;
  mret s.

Definition utcnow : M nat := gets now.

(** A branch that does nothing. *)
Definition pass : M unit := mret ().

(** ** [k8s.py] and [provisioning.py] *)

Section Backend.

(** [settings = Settings()], read by every component. *)
Variable settings : Settings.

(** *** [KubernetesManager] *)

Definition create_namespace (namespace : string) : M bool :=
  try_except
    (core_v1_create_namespace namespace;;
     mret true)
    (except_ApiException (λ status,
       if status =? 409 then mret true
       else mret false)).

Definition namespace_exists (namespace : string) : M bool :=
  try_except
    (core_v1_read_namespace namespace;;
     mret true)
    (except_ApiException (λ status,
       if status =? 404 then mret false
       else mret false)).

(** *** [HelmManager] *)

Definition list_cmd (release namespace : string) : list string :=
  ["helm"; "list";
   "--namespace"; namespace;
   "--filter"; "^" +:+ release +:+ "$";
   "--short"].

Definition release_exists (release namespace : string) : M bool :=
  try_except
    (let cmd := list_cmd release namespace in
     result ← subprocess_run cmd false;
     mret (bool_decide (release ∈ PyStr.splitlines (stdout result))))
    (except_Exception (λ _, mret false)).

(** [storage_map.get(plan, settings.CA_STORAGE_SIZE)] *)
Definition storage_size (plan : string) : string :=
  if String.eqb plan "starter" then "10Gi"
  else if String.eqb plan "basic" then "20Gi"
  else if String.eqb plan "pro" then "100Gi"
  else if String.eqb plan "museum" then "1Ti"
  else CA_STORAGE_SIZE settings.

Definition install_cmd (tenant_name namespace domain plan db_name db_user
    db_password ca_app_name : string) : list string :=
  ["helm"; "upgrade"; "--install"; tenant_name;
   HELM_CHART_PATH settings;
   "--namespace"; namespace;
   "--create-namespace";
   "--atomic";
   "--timeout"; "300s";
   "--set"; "tenantName=" +:+ tenant_name;
   "--set"; "domain=" +:+ domain;
   "--set"; "database.name=" +:+ db_name;
   "--set"; "database.user=" +:+ db_user;
   "--set"; "database.password=" +:+ db_password;
   "--set"; "database.host=" +:+ DB_HOST settings;
   "--set"; "database.port=" +:+ pretty (DB_PORT settings);
   "--set"; "image=" +:+ CA_DOCKER_IMAGE settings;
   "--set"; "storageSize=" +:+ storage_size plan;
   "--set"; "certIssuer=" +:+ CA_CERT_ISSUER settings;
   "--set"; "app.timezone=" +:+ CA_TIMEZONE settings;
   "--set"; "app.adminEmail=" +:+ CA_ADMIN_EMAIL settings;
   "--set"; "app.instanceId=" +:+ tenant_name;
   "--set"; "app.tenantDisplayName=" +:+ tenant_name;
   "--set"; "app.caAppName=" +:+ ca_app_name].

Definition install_tenant (tenant_name namespace domain plan db_name db_user
    db_password ca_app_name : string) : M (bool * string) :=
  let cmd := install_cmd tenant_name namespace domain plan db_name db_user
                         db_password ca_app_name in
  try_except
    (result ← subprocess_run cmd true;
     mret (true, stdout result))
    (except_CalledProcessError (λ e e_stderr,
       if PyStr.contains lock_signature e_stderr then
         rev_result ← subprocess_run
           ["helm"; "history"; tenant_name; "-n"; namespace;
            "--max=1"; "--output=json"] true;
         last_rev ← json_last_revision (stdout rev_result);
         subprocess_run
           ["helm"; "rollback"; tenant_name; pretty last_rev; "-n"; namespace]
           true;;
         result_retry ← subprocess_run cmd true;
         mret (true, stdout result_retry)
       else
         mret (false, e_stderr))).

Definition uninstall_tenant (tenant_name namespace : string) : M (bool * string) :=
  try_except
    (let cmd := ["helm"; "uninstall"; tenant_name; "--namespace"; namespace] in
     result ← subprocess_run cmd false;
     if negb (returncode result =? 0) then mret (false, stderr result)
     else mret (true, stdout result))
    (except_Exception (λ e, mret (false, py_str e))).

(** *** [TenantProvisioner]: helpers *)

Definition _ensure_namespace (namespace : string) : M unit :=
  ex ← namespace_exists namespace;
  if negb ex then
    ok ← create_namespace namespace;
    if negb ok then raise (Exception "Failed to create namespace")
    else pass
  else pass.

Definition _database_exists (db_name : string) : M bool :=
  pymysql_connect;;
  row ← sql_select_schema db_name;
  mret (bool_decide (is_Some row)).

Definition _create_database (db_name db_user db_password : string) : M bool :=
  try_except
    (pymysql_connect;;
     sql_create_database db_name;;
     sql_create_user db_user db_password;;
     sql_grant_all db_name db_user;;
     sql_flush_privileges;;
     mret true)
    (except_Exception (λ _, mret false)).

Definition _ensure_database (db_name db_user db_password : string) : M unit :=
  ex ← _database_exists db_name;
  if (ex : bool) then pass
  else
    ok ← _create_database db_name db_user db_password;
    if negb ok then
      raise (Exception ("Failed to create tenant database " +:+ db_name))
    else pass.

(** Python binds a call's arguments before the body runs.  [ca_app_name]
    has no default value, so a call that does not pass it raises
    [TypeError]; the [option] says whether the call site passes it. *)
Definition _ensure_helm_release (release namespace domain plan db_name db_user
    db_password : string) (ca_app_name : option string) : M unit :=
  match ca_app_name with
  | None =>
      raise (TypeError "TenantProvisioner._ensure_helm_release() missing 1 required positional argument: 'ca_app_name'")
  | Some ca_app_name =>
      ex ← release_exists release namespace;
      if (ex : bool) then pass
      else
        '(success, msg) ← install_tenant release namespace domain plan
                            db_name db_user db_password ca_app_name;
        if negb success then raise (Exception ("Helm install failed: " +:+ msg))
        else pass
  end.

(** [for line in lines: if "password" in line.lower(): return line.split()[-1]]
    followed by [return None]. *)
Fixpoint scan_password (lines : list string) : M (option string) :=
  match lines with
  | [] => mret None
  | line :: rest =>
      if PyStr.contains "password" (PyStr.lower line) then
        match last (PyStr.split line) with
        | Some tok => mret (Some tok)
        | None => raise (IndexError "list index out of range")
        end
      else scan_password rest
  end.

Definition get_pod_cmd (namespace tenant_name : string) : list string :=
  ["kubectl"; "get"; "pod"; "-n"; namespace;
   "-l"; "app=" +:+ tenant_name;
   "-o"; "jsonpath={.items[0].metadata.name}"].

Definition installer_cmd (namespace pod_name ca_app_name : string)
  : list string :=
  ["kubectl"; "exec"; "-n"; namespace; pod_name;
   "--"; "php"; "/var/www/html/ca/support/bin/caUtils";
   "install";
   "--profile-name=default";
   "--admin-email=" +:+ CA_ADMIN_EMAIL settings;
   "--app-name=" +:+ ca_app_name;
   "--overwrite"].

Definition _run_ca_installer (namespace tenant_name ca_app_name : string)
  : M (option string) :=
  try_except
    (time_sleep 30;;
     result ← subprocess_run (get_pod_cmd namespace tenant_name) false;
     let pod_name := PyStr.strip (stdout result) in
     if String.eqb pod_name "" then mret None
     else
       result ← subprocess_run
                  (installer_cmd namespace pod_name ca_app_name) false;
       if negb (returncode result =? 0) then mret None
       else scan_password (PyStr.splitlines (stdout result)))
    (except_Exception (λ _, mret None)).

(** [db.query(ProvisioningLog)
       .filter(ProvisioningLog.stripe_event_id == e).first()] *)
Definition query_log_by_event (e : string) (st : Store)
  : option ProvisioningLog :=
  find (λ l, bool_decide (l_stripe_event_id l = Some e)) (logs st).

Definition _event_processed (stripe_event_id : string) : M bool :=
  st ← gets db;
  mret (bool_decide (is_Some (query_log_by_event stripe_event_id st))).

(** [db.commit()] after attribute assignments on a tenant: the assignments
    reach the row with the tenant's key. *)
Definition commit_tenant (i : nat) (f : Tenant → Tenant) : M unit :=
  modify (λ s, set_db (update_tenant i f (db s)) s).

Definition commit_log (i : nat) (f : ProvisioningLog → ProvisioningLog)
  : M unit :=
  modify (λ s, set_db (update_log i f (db s)) s).

(** *** Resume logic *)

Definition _resume_provisioning (tenant : Tenant) (plan : string)
  : M (option Tenant * option string) :=
  try_except
    (_ensure_namespace (t_namespace tenant);;
     _ensure_database (t_db_name tenant) (t_db_user tenant) (t_db_password tenant);;
     (* seven positional arguments: [ca_app_name] is not passed *)
     _ensure_helm_release
       (t_helm_release_name tenant) (t_namespace tenant) (t_domain tenant) plan
       (t_db_name tenant) (t_db_user tenant) (t_db_password tenant) None;;
     t ← utcnow;
     let assign := λ r, set_t_deployed_at (Some t) (set_t_status ACTIVE r) in
     commit_tenant (t_id tenant) assign;;
     mret (Some (assign tenant), None))
    (except_Exception (λ e,
       commit_tenant (t_id tenant) (set_t_status FAILED);;
       mret (Some (set_t_status FAILED tenant), Some (py_str e)))).

(** *** [provision_tenant] *)

(** The attempt proper: the [try] block and its [except] clause, for a
    tenant and a log row already stored. *)
Definition realize_resources (tenant : Tenant) (log : ProvisioningLog)
    (plan ca_app_name : string) : M (option Tenant * option string) :=
  let k8s_namespace := t_namespace tenant in
  let helm_release_name := t_helm_release_name tenant in
  try_except
    (_ensure_namespace k8s_namespace;;
     _ensure_database (t_db_name tenant) (t_db_user tenant) (t_db_password tenant);;
     _ensure_helm_release helm_release_name k8s_namespace (t_domain tenant) plan
       (t_db_name tenant) (t_db_user tenant) (t_db_password tenant)
       (Some ca_app_name);;
     ca_password ← _run_ca_installer k8s_namespace helm_release_name ca_app_name;
     t ← utcnow;
     let credential := match ca_password with
                       | Some p => if String.eqb p "" then "Installer not completed" else p
                       | None => "Installer not completed"
                       end in
     let assign := λ r, set_t_ca_admin_password (Some credential)
                          (set_t_deployed_at (Some t) (set_t_status ACTIVE r)) in
     commit_tenant (t_id tenant) assign;;
     commit_log (l_id log)
       (λ l, close_log "completed"
               (Some ("Successfully provisioned " +:+ helm_release_name))
               (l_error_details l) t l);;
     mret (Some (assign tenant), None))
    (except_Exception (λ e,
       t ← utcnow;
       commit_tenant (t_id tenant) (set_t_status FAILED);;
       commit_log (l_id log)
         (λ l, close_log "failed" (l_message l) (Some (py_str e)) t l);;
       mret (Some (set_t_status FAILED tenant), Some (py_str e)))).

(** The records of a new tenant: identity generation, the three INSERTs,
    the first commit, and the commit of the [PROVISIONING] status. *)
Definition create_records (user_id : nat) (plan stripe_subscription_id
    stripe_customer_id : string) (stripe_event_id : option string)
  : M (Tenant * ProvisioningLog * string) :=
  hex ← uuid4_hex;
  let tenant_suffix := PyStr.prefix 8 hex in
  let k8s_namespace :=
    KUBERNETES_NAMESPACE_PREFIX settings +:+ "-" +:+ tenant_suffix in
  let helm_release_name := k8s_namespace in
  let ca_app_name := "tenant_" +:+ tenant_suffix in
  let domain := k8s_namespace +:+ "." +:+ BASE_DOMAIN settings in
  let db_name := "ca_" +:+ tenant_suffix in
  let db_user := "ca_" +:+ tenant_suffix in
  db_password ← uuid4_hex;
  let tenant := {|
    t_id := 0; t_user_id := user_id; t_namespace := k8s_namespace;
    t_helm_release_name := helm_release_name; t_domain := domain;
    t_plan := plan; t_status := PENDING; t_db_name := db_name;
    t_db_user := db_user; t_db_password := db_password;
    t_ca_admin_username := "administrator"; t_ca_admin_password := None;
    t_deployed_at := None |} in
  (* what other sessions committed since the lookup is visible to the
     constraint checks of the INSERTs *)
  modify (λ s, set_db (others s (db s)) s);;
  st ← gets db;
  (* db.add(tenant); db.flush() *)
  '(tenant, st) ← lift_result (insert_tenant tenant st);
  t ← utcnow;
  let subscription := {|
    s_id := 0; s_tenant_id := t_id tenant;
    s_stripe_subscription_id := stripe_subscription_id;
    s_stripe_customer_id := stripe_customer_id;
    s_stripe_price_id := ""; s_status := "active";
    s_current_period_start := t; s_current_period_end := t |} in
  let log := {|
    l_id := 0; l_tenant_id := t_id tenant; l_action := CREATE;
    l_status := "started";
    l_message := Some ("Starting provisioning for " +:+ helm_release_name);
    l_error_details := None; l_stripe_event_id := stripe_event_id;
    l_completed_at := None |} in
  (* db.add(subscription); db.add(log); db.commit() *)
  '(_, st) ← lift_result (insert_subscription subscription st);
  '(log, st) ← lift_result (insert_log log st);
  modify (set_db st);;
  (* tenant.status = PROVISIONING; db.commit() *)
  commit_tenant (t_id tenant) (set_t_status PROVISIONING);;
  mret (set_t_status PROVISIONING tenant, log, ca_app_name).

(** The truth value of an optional string: [None] and the empty string are
    false. *)
Definition truthy (o : option string) : bool :=
  match o with
  | Some s => negb (String.eqb s "")
  | None => false
  end.

Definition provision_tenant (user_id : nat) (email plan stripe_subscription_id
    stripe_customer_id : string) (stripe_event_id : option string)
  : M (option Tenant * option string) :=
  processed ← match stripe_event_id with
              | Some e => if truthy (Some e) then _event_processed e
                          else mret false
              | None => mret false
              end;
  if (processed : bool) then
    st ← gets db;
    mret (query_tenant_by_subscription stripe_subscription_id st, None)
  else
    st ← gets db;
    match query_tenant_by_subscription stripe_subscription_id st with
    | Some existing =>
        if decide (t_status existing = ACTIVE) then mret (Some existing, None)
        else _resume_provisioning existing plan
    | None =>
        '(tenant, log, ca_app_name) ←
          create_records user_id plan stripe_subscription_id
                         stripe_customer_id stripe_event_id;
        realize_resources tenant log plan ca_app_name
    end.

(** *** [main.py]: the lifecycle endpoints

    An endpoint builds a [TenantProvisioner] and calls a method on it by
    name.  [TenantProvisioner_lifecycle] lists the methods of the class that
    take a tenant id and answer a [bool]: the class body defines
    [provision_tenant], [_resume_provisioning], the [_ensure_*] helpers,
    the MySQL helpers, [_run_ca_installer] and [_event_processed], and no
    such method. *)
Definition TenantProvisioner_lifecycle : list (string * (nat → M bool)) := [].

Definition getattr_lifecycle (name : string) : M (nat → M bool) :=
  match find (λ p, String.eqb (fst p) name) TenantProvisioner_lifecycle with
  | Some (_, method) => mret method
  | None =>
      raise (AttributeError
               ("'TenantProvisioner' object has no attribute '" +:+ name +:+ "'"))
  end.

Definition delete_tenant_endpoint (tenant_id : nat) : M (string * string) :=
  delete_tenant ← getattr_lifecycle "delete_tenant";
  ok ← delete_tenant tenant_id;
  if negb ok then
    raise (HTTPException 404 "Tenant not found or deletion failed")
  else mret ("success", "Tenant " +:+ pretty tenant_id +:+ " deleted").

Definition suspend_tenant_endpoint (tenant_id : nat) : M (string * string) :=
  suspend_tenant ← getattr_lifecycle "suspend_tenant";
  ok ← suspend_tenant tenant_id;
  if negb ok then raise (HTTPException 404 "Tenant not found")
  else mret ("success", "Tenant " +:+ pretty tenant_id +:+ " suspended").

Definition resume_tenant_endpoint (tenant_id : nat) : M (string * string) :=
  resume_tenant ← getattr_lifecycle "resume_tenant";
  ok ← resume_tenant tenant_id;
  if negb ok then raise (HTTPException 404 "Tenant not found")
  else mret ("success", "Tenant " +:+ pretty tenant_id +:+ " resumed").

End Backend.

(** ** More of [k8s.py], [main.py], and [stripe_webhooks.py] *)

(** *** [KubernetesManager.get_pod_status]

    [core_v1.list_namespaced_pod] is the one API call of the method; it is
    given as the answer of the API server for a namespace: the [items] of
    the pod list, or the exception raised. *)
Record Pod := {
  pod_name : string;
  phase : option string;
}.

(** [sum(1 for p in items if p.status.phase == ph)] *)
Definition count_phase (ph : string) (items : list Pod) : nat :=
  length (filter (λ p, phase p = Some ph) items).

Definition get_pod_status (list_namespaced_pod : string → result (list Pod))
    (namespace : string) : result (gmap string nat) :=
  match list_namespaced_pod namespace with
  | Ok items =>
      Ok (<["total" := length items]>
          (<["running" := count_phase "Running" items]>
           (<["pending" := count_phase "Pending" items]>
            (<["failed" := count_phase "Failed" items]> ∅))))
  | Raise (ApiException _ _) => Ok ∅
  | Raise e => Raise e
  end.

(** *** Rows the web layer reads and writes *)

Definition set_users (us : list User) (st : Store) : Store :=
  {| users := us; tenants := tenants st;
     subscriptions := subscriptions st; logs := logs st |}.

Definition set_s_status (v : string) (x : Subscription) : Subscription :=
  {| s_id := s_id x; s_tenant_id := s_tenant_id x;
     s_stripe_subscription_id := s_stripe_subscription_id x;
     s_stripe_customer_id := s_stripe_customer_id x;
     s_stripe_price_id := s_stripe_price_id x; s_status := v;
     s_current_period_start := s_current_period_start x;
     s_current_period_end := s_current_period_end x |}.

(** [db.query(Tenant).filter(Tenant.id == i).first()] *)
Definition query_tenant_by_id (i : nat) (st : Store) : option Tenant :=
  find (λ t, Nat.eqb (t_id t) i) (tenants st).

(** [db.query(Tenant).filter(Tenant.namespace == ns).first()] *)
Definition query_tenant_by_namespace (ns : string) (st : Store) : option Tenant :=
  find (λ t, String.eqb (t_namespace t) ns) (tenants st).

(** [db.query(Subscription)
       .filter(Subscription.stripe_subscription_id == sid).first()] *)
Definition query_subscription (sid : string) (st : Store) : option Subscription :=
  find (λ x, String.eqb (s_stripe_subscription_id x) sid) (subscriptions st).

(** [db.query(User).filter(User.email == email).first()]; a comparison with
    [None] selects the rows whose e-mail is NULL, and the column is not
    nullable. *)
Definition query_user_by_email (email : option string) (st : Store)
  : option User :=
  match email with
  | Some e => find (λ u, String.eqb (u_email u) e) (users st)
  | None => None
  end.

(** INSERT of a user row. *)
Definition insert_user (email : option string) (password_hash : string)
    (st : Store) : result (User * Store) :=
  match email with
  | None =>
      Raise (IntegrityError "null value in column email of relation users violates not-null constraint")
  | Some e =>
      if existsb (λ u, String.eqb (u_email u) e) (users st) then
        Raise (IntegrityError "duplicate key value violates unique constraint ix_users_email")
      else
        let u := {| u_id := next_id (map u_id (users st)); u_email := e;
                    u_password_hash := password_hash |} in
        Ok (u, set_users (users st ++ [u]) st)
  end.

(** UPDATE subscriptions ... WHERE id = i *)
Definition update_subscription (i : nat) (f : Subscription → Subscription)
    (st : Store) : Store :=
  set_subscriptions
    (map (λ x, if Nat.eqb (s_id x) i then f x else x) (subscriptions st)) st.

(** The value of a member of [TenantStatus], a [str] enumeration. *)
Definition TenantStatus_value (st : TenantStatus) : string :=
  match st with
  | PENDING => "pending"
  | PROVISIONING => "provisioning"
  | ACTIVE => "active"
  | FAILED => "failed"
  | SUSPENDED => "suspended"
  | DELETED => "deleted"
  end.

(** [a or b] on optional strings. *)
Definition py_or (a b : option string) : option string :=
  if truthy a then a else b.

(** *** [schemas.py] *)

Record ProvisioningRequest := {
  req_user_id : nat;
  req_email : string;
  req_plan : string;
  req_stripe_subscription_id : string;
  req_stripe_customer_id : string;
}.

(** The dictionary the provisioning endpoint returns; the first three
    entries are [None] when there is no tenant to read them from. *)
Record ProvisioningResponse := {
  resp_tenant_id : option nat;
  resp_namespace : option string;
  resp_domain : option string;
  resp_status : string;
  resp_message : string;
}.

(** *** Stripe events

    An event as [stripe.Webhook.construct_event] returns it: its id, its
    type, and the fields of [event["data"]["object"]] that the handlers
    read.  [o_id] and [o_status] are read with [obj["..."]], which raises
    [KeyError] on a missing key; the others are read with [obj.get("...")],
    which answers [None].  [o_customer] is the customer id of the object,
    which Stripe sets on every checkout session of a subscription
    purchase, and which no handler tests. *)
Record EventObject := {
  o_id : option string;
  o_status : option string;
  o_subscription : option string;
  o_customer : string;
  o_customer_email : option string;
  o_customer_details_email : option string;
}.

Record Event := {
  e_id : string;
  e_type : string;
  e_object : EventObject;
}.

(** The part of a [fastapi.Request] the webhook reads. *)
Record Request := {
  r_body : string;
  r_stripe_signature : option string;
}.

(** [obj[key]] *)
Definition getitem (key : string) (field : option string) : M string :=
  match field with
  | Some v => mret v
  | None => raise (LibraryError "KeyError" ("'" +:+ key +:+ "'"))
  end.

(** Whether an exception is caught by [except ValueError]: the class and
    its subclasses among the library errors. *)
Definition isinstance_ValueError (e : exn) : bool :=
  match e with
  | LibraryError cls _ =>
      String.eqb cls "ValueError" || String.eqb cls "JSONDecodeError"
      || String.eqb cls "UnicodeDecodeError"
  | _ => false
  end.

Definition isinstance_SignatureVerificationError (e : exn) : bool :=
  match e with
  | LibraryError cls _ => String.eqb cls "SignatureVerificationError"
  | _ => false
  end.

(** [plan_mapping.get(plan_id, "starter")] *)
Definition plan_mapping (plan_id : string) : string :=
  if String.eqb plan_id "price_1SrGI3PcAaj5IlzyqjJ9kioz" then "starter"
  else if String.eqb plan_id "price_1SrGJJPcAaj5Ilzy0KOKspNI" then "pro"
  else if String.eqb plan_id "price_1SrGJsPcAaj5IlzyBbgP2Ys4" then "museum"
  else "starter".

Section Web.

Variable settings : Settings.

(** [stripe.Webhook.construct_event(payload, sig_header,
    settings.STRIPE_WEBHOOK_SECRET)]: the verified event, or the exception
    raised. *)
Variable construct_event : string → string → result Event.

(** [stripe.Subscription.retrieve(id)["items"]["data"][0]["price"]["id"]]
    for a subscription id: the price id, or the exception raised on the
    way. *)
Variable retrieve_price : string → result string.

(** *** [main.py]: reading tenants

    [skip] and [limit] are taken as non-negative; rows come in the order of
    the table. *)
Definition list_tenants (skip limit : nat) : M (list Tenant * nat) :=
  st ← gets db;
  let tenants_page := take limit (drop skip (tenants st)) in
  let total := length (tenants st) in
  mret (tenants_page, total).

Definition get_tenant (tenant_id : nat) : M Tenant :=
  st ← gets db;
  match query_tenant_by_id tenant_id st with
  | None => raise (HTTPException 404 "Tenant not found")
  | Some tenant => mret tenant
  end.

Definition get_tenant_by_namespace (namespace : string) : M Tenant :=
  st ← gets db;
  match query_tenant_by_namespace namespace st with
  | None => raise (HTTPException 404 "Tenant not found")
  | Some tenant => mret tenant
  end.

(** *** [main.py]: the provisioning endpoint *)
Definition provision_tenant_endpoint (request : ProvisioningRequest)
  : M ProvisioningResponse :=
  '(tenant, error) ← provision_tenant settings (req_user_id request)
                       (req_email request) (req_plan request)
                       (req_stripe_subscription_id request)
                       (req_stripe_customer_id request) None;
  if truthy error then
    mret {| resp_tenant_id := t_id <$> tenant;
            resp_namespace := t_namespace <$> tenant;
            resp_domain := t_domain <$> tenant;
            resp_status := "failed";
            resp_message := default "" error |}
  else
    match tenant with
    | None => raise (AttributeError "'NoneType' object has no attribute 'id'")
    | Some tenant =>
        mret {| resp_tenant_id := Some (t_id tenant);
                resp_namespace := Some (t_namespace tenant);
                resp_domain := Some (t_domain tenant);
                resp_status := TenantStatus_value (t_status tenant);
                resp_message := "Tenant provisioned successfully. Access at https://"
                                +:+ t_domain tenant |}
    end.

(** *** [StripeWebhookHandler] *)

(** [stripe.Subscription.retrieve(None)] raises before any request is made:
    the resource has no URL. *)
Definition invalid_id : string :=
  "Could not determine which URL to request: Subscription instance has invalid ID: None, <class 'NoneType'>. ID should be of type `str` (or `unicode`)".

Definition _handle_checkout_completed (event : Event) : M unit :=
  let session := e_object event in
  let customer_id := o_customer session in
  let customer_email :=
    py_or (o_customer_email session) (o_customer_details_email session) in
  match o_subscription session with
  | None => raise (LibraryError "InvalidRequestError" invalid_id)
  | Some subscription_id =>
      plan_id ← lift_result (retrieve_price subscription_id);
      let plan := plan_mapping plan_id in
      st ← gets db;
      user ← match query_user_by_email customer_email st with
             | Some user => mret user
             | None =>
                 (* db.add(user); db.commit(), against what the other
                    sessions have committed by then *)
                 modify (λ s, set_db (others s (db s)) s);;
                 st ← gets db;
                 '(user, st) ← lift_result
                   (insert_user customer_email "set_via_oauth_or_registration" st);
                 modify (set_db st);;
                 mret user
             end;
      '(tenant, error) ← provision_tenant settings (u_id user)
                           (default "" customer_email) plan subscription_id
                           customer_id (Some (e_id event));
      if truthy error then pass
      else
        match tenant with
        | Some _ => pass
        | None =>
            raise (AttributeError "'NoneType' object has no attribute 'namespace'")
        end
  end.

Definition commit_subscription (i : nat) (f : Subscription → Subscription)
  : M unit :=
  modify (λ s, set_db (update_subscription i f (db s)) s).

Definition _handle_subscription_updated (event : Event) : M unit :=
  let subscription_data := e_object event in
  subscription_id ← getitem "id" (o_id subscription_data);
  status ← getitem "status" (o_status subscription_data);
  st ← gets db;
  match query_subscription subscription_id st with
  | None => pass
  | Some subscription =>
      commit_subscription (s_id subscription) (set_s_status status);;
      if String.eqb status "past_due" || String.eqb status "unpaid" then
        suspend_tenant ← getattr_lifecycle "suspend_tenant";
        suspend_tenant (s_tenant_id subscription);;
        pass
      else if String.eqb status "active" then
        resume_tenant ← getattr_lifecycle "resume_tenant";
        resume_tenant (s_tenant_id subscription);;
        pass
      else pass
  end.

Definition _handle_subscription_deleted (event : Event) : M unit :=
  let subscription_data := e_object event in
  subscription_id ← getitem "id" (o_id subscription_data);
  st ← gets db;
  match query_subscription subscription_id st with
  | None => pass
  | Some subscription =>
      suspend_tenant ← getattr_lifecycle "suspend_tenant";
      suspend_tenant (s_tenant_id subscription);;
      commit_subscription (s_id subscription) (set_s_status "canceled")
  end.

Definition _handle_payment_failed (event : Event) : M unit :=
  let invoice := e_object event in
  match o_subscription invoice with
  | None => pass
  | Some subscription_id =>
      if String.eqb subscription_id "" then pass
      else
        st ← gets db;
        match query_subscription subscription_id st with
        | Some _ => pass
        | None => pass
        end
  end.

Definition _handle_payment_succeeded (event : Event) : M unit :=
  let invoice := e_object event in
  match o_subscription invoice with
  | None => pass
  | Some subscription_id =>
      if String.eqb subscription_id "" then pass
      else
        st ← gets db;
        match query_subscription subscription_id st with
        | None => pass
        | Some subscription =>
            (* [subscription.tenant]: the row the foreign key names *)
            match query_tenant_by_id (s_tenant_id subscription) st with
            | None =>
                raise (AttributeError "'NoneType' object has no attribute 'status'")
            | Some tenant =>
                if negb (String.eqb (TenantStatus_value (t_status tenant)) "active")
                then
                  resume_tenant ← getattr_lifecycle "resume_tenant";
                  resume_tenant (s_tenant_id subscription);;
                  pass
                else pass
            end
        end
  end.

(** [handlers.get(event_type)] *)
Definition handlers (event_type : string) : option (Event → M unit) :=
  if String.eqb event_type "checkout.session.completed"
  then Some _handle_checkout_completed
  else if String.eqb event_type "customer.subscription.updated"
  then Some _handle_subscription_updated
  else if String.eqb event_type "customer.subscription.deleted"
  then Some _handle_subscription_deleted
  else if String.eqb event_type "invoice.payment_failed"
  then Some _handle_payment_failed
  else if String.eqb event_type "invoice.payment_succeeded"
  then Some _handle_payment_succeeded
  else None.

Definition handle_webhook (request : Request) : M (gmap string string) :=
  let payload := r_body request in
  let sig_header := r_stripe_signature request in
  if negb (truthy sig_header) then
    raise (HTTPException 400 "Missing stripe-signature header")
  else
    event ← try_except
      (lift_result (construct_event payload (default "" sig_header)))
      (λ e, if isinstance_ValueError e
            then Some (raise (HTTPException 400 "Invalid payload"))
            else if isinstance_SignatureVerificationError e
            then Some (raise (HTTPException 400 "Invalid signature"))
            else None);
    let event_type := e_type event in
    match handlers event_type with
    | Some handler =>
        try_except
          (handler event)
          (except_Exception (λ e, raise (HTTPException 500 (py_str e))))
    | None => pass
    end;;
    mret {["status" := "success"]}.

End Web.

(** * Vocabulary of the statements *)

(** A computation is [stable] for a relation on states when every run,
    normal or exceptional, ends in a related state. *)
Definition stable {A} (R : Sys → Sys → Prop) (m : M A) : Prop :=
  ∀ s, R s (snd (m s)).

(** The metadata store and the clock are left alone. *)
Definition keeps_db (s s' : Sys) : Prop := db s' = db s ∧ now s' = now s.

(** Nothing that exists outside is taken away: namespaces, databases,
    principals with their credentials, grants and releases only grow; the
    clock is left alone. *)
Definition grows (s s' : Sys) : Prop :=
  namespaces (k8s s) ⊆ namespaces (k8s s')
  ∧ schemata (mysql s) ⊆ schemata (mysql s')
  ∧ principals (mysql s) ⊆ principals (mysql s')
  ∧ grants (mysql s) ⊆ grants (mysql s')
  ∧ dom (releases (helm s)) ⊆ dom (releases (helm s'))
  ∧ now s' = now s.

Definition has_marker (line : string) : bool :=
  PyStr.contains "password" (PyStr.lower line).

Definition traced (c : Call) (s : Sys) : Sys := set_trace (trace s ++ [c]) s.

(** The state in which the installer command runs: the sleep and the pod
    lookup are traced. *)
Definition after_pod_lookup (ns tn : string) (s : Sys) : Sys :=
  traced (Subprocess (get_pod_cmd ns tn)) (traced (Sleep 30) s).

(** The value of the guard
    [stripe_event_id and self._event_processed(stripe_event_id)]. *)
Definition already_handled (eid : option string) (st : Store) : bool :=
  match eid with
  | Some e => truthy eid && bool_decide (is_Some (query_log_by_event e st))
  | None => false
  end.

(** The three resource steps of the [try] block. *)
Definition resource_steps (cfg : Settings) (tenant : Tenant)
    (plan ca_app_name : string) : M unit :=
  _ensure_namespace (t_namespace tenant);;
  _ensure_database (t_db_name tenant) (t_db_user tenant) (t_db_password tenant);;
  _ensure_helm_release cfg (t_helm_release_name tenant) (t_namespace tenant)
    (t_domain tenant) plan (t_db_name tenant) (t_db_user tenant)
    (t_db_password tenant) (Some ca_app_name).

(** What [create_records] leaves behind when it returns: the tenant row in
    [PROVISIONING], the log row [started] carrying the event id; no outside
    call was made. *)
Definition records_created (eid : option string) (s s0 : Sys)
    (tenant : Tenant) (log : ProvisioningLog) : Prop :=
  In tenant (tenants (db s0)) ∧ In log (logs (db s0))
  ∧ t_status tenant = PROVISIONING
  ∧ l_tenant_id log = t_id tenant
  ∧ l_status log = "started"
  ∧ l_stripe_event_id log = eid
  ∧ trace s0 = trace s ∧ now s0 = now s.

(** The state [create_records] raises in: the INSERTs of the session are
    rolled back, so the store holds what the other sessions committed. *)
Definition rolled_back (s : Sys) : Sys :=
  set_db (others s (db s)) (set_uuid_pos (S (S (uuid_pos s))) s).

(** [ca_password or "Installer not completed"] *)
Definition credential_or_sentinel (ca_password : option string) : string :=
  match ca_password with
  | Some p => if String.eqb p "" then "Installer not completed" else p
  | None => "Installer not completed"
  end.

(** The assignments of the success branch. *)
Definition activate (ca_password : option string) (at_ : nat) (t : Tenant)
  : Tenant :=
  set_t_ca_admin_password (Some (credential_or_sentinel ca_password))
    (set_t_deployed_at (Some at_) (set_t_status ACTIVE t)).

Definition close_completed (release : string) (at_ : nat)
    (l : ProvisioningLog) : ProvisioningLog :=
  close_log "completed" (Some ("Successfully provisioned " +:+ release))
            (l_error_details l) at_ l.

Definition close_failed (err : string) (at_ : nat) (l : ProvisioningLog)
  : ProvisioningLog :=
  close_log "failed" (l_message l) (Some err) at_ l.

(** Every way a run of [provision_tenant] can go. *)
Inductive outcome (cfg : Settings) (plan sid : string) (eid : option string)
    (s : Sys) : result (option Tenant * option string) * Sys → Prop :=
| short_circuit :
    outcome cfg plan sid eid s
      (Ok (query_tenant_by_subscription sid (db s), None), s)
| resumed existing err s1 :
    query_tenant_by_subscription sid (db s) = Some existing →
    t_status existing ≠ ACTIVE →
    keeps_db s s1 →
    outcome cfg plan sid eid s
      (Ok (Some (set_t_status FAILED existing), Some err),
       set_db (update_tenant (t_id existing) (set_t_status FAILED) (db s1)) s1)
| insert_refused msg :
    query_tenant_by_subscription sid (db s) = None →
    outcome cfg plan sid eid s (Raise (IntegrityError msg), rolled_back s)
| attempt_failed tenant log app s0 e s3 :
    query_tenant_by_subscription sid (db s) = None →
    records_created eid s s0 tenant log →
    resource_steps cfg tenant plan app s0 = (Raise e, s3) →
    outcome cfg plan sid eid s
      (Ok (Some (set_t_status FAILED tenant), Some (py_str e)),
       set_db (update_log (l_id log) (close_failed (py_str e) (now s3))
                 (update_tenant (t_id tenant) (set_t_status FAILED) (db s3))) s3)
| attempt_completed tenant log app s0 s3 pw s4 :
    query_tenant_by_subscription sid (db s) = None →
    records_created eid s s0 tenant log →
    resource_steps cfg tenant plan app s0 = (Ok (), s3) →
    _run_ca_installer cfg (t_namespace tenant) (t_helm_release_name tenant) app s3
    = (Ok pw, s4) →
    outcome cfg plan sid eid s
      (Ok (Some (activate pw (now s4) tenant), None),
       set_db (update_log (l_id log)
                 (close_completed (t_helm_release_name tenant) (now s4))
                 (update_tenant (t_id tenant) (activate pw (now s4)) (db s4))) s4).

(** Some log row of the event is [completed]. *)
Definition completed_for (e : string) (st : Store) : Prop :=
  ∃ l, In l (logs st) ∧ l_stripe_event_id l = Some e ∧ l_status l = "completed".

(** The pod lookup fails or prints no pod name. *)
Definition workload_not_ready (ns tn : string) (s : Sys) : Prop :=
  (∃ e, kubectl_run s (get_pod_cmd ns tn) = Raise e)
  ∨ (∃ r, kubectl_run s (get_pod_cmd ns tn) = Ok r
          ∧ PyStr.strip (stdout r) = "").

(** A pod is found and the setup command in it raises or exits non-zero. *)
Definition setup_fails (cfg : Settings) (ns tn app : string) (s : Sys) : Prop :=
  ∃ r, kubectl_run s (get_pod_cmd ns tn) = Ok r
       ∧ PyStr.strip (stdout r) ≠ ""
       ∧ ((∃ e, kubectl_run s (installer_cmd cfg ns (PyStr.strip (stdout r)) app)
                = Raise e)
          ∨ (∃ r2, kubectl_run s (installer_cmd cfg ns (PyStr.strip (stdout r)) app)
                   = Ok r2 ∧ returncode r2 ≠ 0)).

(** A pod is found and the setup command exits with 0, printing [out]. *)
Definition setup_prints (cfg : Settings) (ns tn app : string) (s : Sys)
    (out : string) : Prop :=
  ∃ r r2, kubectl_run s (get_pod_cmd ns tn) = Ok r
          ∧ PyStr.strip (stdout r) ≠ ""
          ∧ kubectl_run s (installer_cmd cfg ns (PyStr.strip (stdout r)) app) = Ok r2
          ∧ returncode r2 = 0 ∧ stdout r2 = out.

(** A name that fits on one line of output. *)
Definition one_line (r : string) : Prop :=
  forallb (λ c, negb (PyStr.is_linebreak c)) (PyStr.chars r) = true.

(** Whether [helm list] shows the release. *)
Definition release_listed (r ns : string) (h : Helm) : bool :=
  negb (helm_missing h)
  && match releases h !! (ns, r) with
     | Some rel => negb (pending rel)
     | None => false
     end.

(** [subprocess.run(cmd, check=True)] on the install command line. *)
Definition run_upgrade (cmd : list string) (name ns : string) (s : Sys)
  : result CompletedProcess * Sys :=
  let s0 := traced (Subprocess cmd) s in
  if helm_missing (helm s) then
    (Raise (LibraryError "FileNotFoundError"
              "[Errno 2] No such file or directory: 'helm'"), s0)
  else
    match releases (helm s) !! (ns, name) with
    | Some rel =>
        if pending rel then
          (Raise (CalledProcessError cmd 1
                    ("Error: UPGRADE FAILED: " +:+ lock_signature)), s0)
        else
          match upgrade_fault (helm s) with
          | Some (rc, err) => (Raise (CalledProcessError cmd (Z.pos rc) err), s0)
          | None =>
              (Ok (completed 0 ("Release " +:+ name
                                +:+ " has been upgraded. Happy Helming!") ""),
               deploy_release ns name s0)
          end
    | None =>
        match upgrade_fault (helm s) with
        | Some (rc, err) => (Raise (CalledProcessError cmd (Z.pos rc) err), s0)
        | None =>
            (Ok (completed 0 ("Release " +:+ name
                              +:+ " does not exist. Installing it now.") ""),
             deploy_release ns name (add_namespace ns s0))
        end
    end.

(** The release is deployed and helm can be run. *)
Definition deployed (name ns : string) (s : Sys) : Prop :=
  helm_missing (helm s) = false
  ∧ ∃ rel, releases (helm s) !! (ns, name) = Some rel ∧ pending rel = false.

(** The recovery of the [except] clause: history, rollback, one retry. *)
Definition lock_recovery (cfg : Settings) (name ns dom plan d u p app : string)
  : M (bool * string) :=
  rev_result ← subprocess_run
    ["helm"; "history"; name; "-n"; ns; "--max=1"; "--output=json"] true;
  last_rev ← json_last_revision (stdout rev_result);
  subprocess_run ["helm"; "rollback"; name; pretty last_rev; "-n"; ns] true;;
  result_retry ← subprocess_run (install_cmd cfg name ns dom plan d u p app) true;
  mret (true, stdout result_retry).

(** What exists outside and in the store, without the trace of calls. *)
Definition resources (s : Sys) : Cluster * MySQL * Helm * Store :=
  (k8s s, mysql s, helm s, db s).

(** [_ensure_namespace], case by case. *)
Definition ensure_namespace_run (ns : string) (s : Sys) : result unit * Sys :=
  let s0 := traced (ReadNamespace ns) s in
  let s1 := traced (CreateNamespace ns) s0 in
  let create :=
    match k8s_create_fault (k8s s) with
    | Some (HttpStatus st _) =>
        if st =? 409 then (Ok (), s1)
        else (Raise (Exception "Failed to create namespace"), s1)
    | Some (Transport cls msg) => (Raise (LibraryError cls msg), s1)
    | None =>
        if decide (ns ∈ namespaces (k8s s)) then (Ok (), s1)
        else (Ok (), add_namespace ns s1)
    end in
  match k8s_read_fault (k8s s) with
  | Some (HttpStatus _ _) => create
  | Some (Transport cls msg) => (Raise (LibraryError cls msg), s0)
  | None => if decide (ns ∈ namespaces (k8s s)) then (Ok (), s0) else create
  end.

Definition select_schema_call (d : string) : Call :=
  SqlExecute "SELECT SCHEMA_NAME FROM INFORMATION_SCHEMA.SCHEMATA WHERE SCHEMA_NAME=%s" [d].

(** The state after the four statements of [_create_database]. *)
Definition database_created (d u p : string) (s : Sys) : Sys :=
  traced (SqlExecute "FLUSH PRIVILEGES;" [])
    (add_grant d u
       (traced (SqlExecute ("GRANT ALL PRIVILEGES ON `" +:+ d +:+ "`.* TO %s@'%%';") [u])
          (add_principal u p
             (traced (SqlExecute "CREATE USER IF NOT EXISTS %s@'%%' IDENTIFIED BY %s;" [u; p])
                (add_schema d s))))).

(** [_ensure_database], case by case. *)
Definition ensure_database_run (d u p : string) (s : Sys) : result unit * Sys :=
  let s0 := traced SqlConnect s in
  let s1 := traced (select_schema_call d) s0 in
  let s3 := traced (SqlExecute ("CREATE DATABASE IF NOT EXISTS `" +:+ d +:+ "`;") [])
                   (traced SqlConnect s1) in
  match sql_connect_fault (mysql s) with
  | Some msg => (Raise (LibraryError "OperationalError" msg), s0)
  | None =>
      if decide (d ∈ schemata (mysql s)) then (Ok (), s1)
      else match sql_create_fault (mysql s) with
           | Some _ =>
               (Raise (Exception ("Failed to create tenant database " +:+ d)), s3)
           | None => (Ok (), database_created d u p s3)
           end
  end.

(** What a new-path run appends to the store [st] the INSERTs see. *)
Definition stored_by (st : Store) (t : Tenant) (x : Subscription)
    (l : ProvisioningLog) : Store :=
  {| users := users st; tenants := tenants st ++ [t];
     subscriptions := subscriptions st ++ [x]; logs := logs st ++ [l] |}.

(** The keys and references of the three rows, and the constraint checks
    they passed against [st]. *)
Definition new_rows (st : Store) (sid cid : string) (eid : option string)
    (t : Tenant) (x : Subscription) (l : ProvisioningLog) : Prop :=
  t_id t = next_id (map t_id (tenants st))
  ∧ s_id x = next_id (map s_id (subscriptions st))
  ∧ l_id l = next_id (map l_id (logs st))
  ∧ s_tenant_id x = t_id t ∧ l_tenant_id l = t_id t
  ∧ s_stripe_subscription_id x = sid ∧ s_stripe_customer_id x = cid
  ∧ s_status x = "active"
  ∧ l_stripe_event_id l = eid ∧ l_action l = CREATE
  ∧ existsb (λ u, Nat.eqb (u_id u) (t_user_id t)) (users st) = true
  ∧ existsb (λ y, String.eqb (t_namespace y) (t_namespace t)) (tenants st) = false
  ∧ existsb (λ y, String.eqb (t_domain y) (t_domain t)) (tenants st) = false
  ∧ existsb (λ y, Nat.eqb (s_tenant_id y) (t_id t)) (subscriptions st) = false
  ∧ existsb (λ y, String.eqb (s_stripe_subscription_id y) sid) (subscriptions st)
    = false.

(** The constraints [models.py] puts on the tables: primary keys, the
    [unique=True] columns and the foreign keys. *)
Definition store_ok (st : Store) : Prop :=
  NoDup (map t_id (tenants st))
  ∧ NoDup (map t_namespace (tenants st))
  ∧ NoDup (map t_domain (tenants st))
  ∧ NoDup (map s_id (subscriptions st))
  ∧ NoDup (map s_tenant_id (subscriptions st))
  ∧ NoDup (map s_stripe_subscription_id (subscriptions st))
  ∧ NoDup (map l_id (logs st))
  ∧ (∀ t, In t (tenants st) → In (t_user_id t) (map u_id (users st)))
  ∧ (∀ x, In x (subscriptions st) → In (s_tenant_id x) (map t_id (tenants st)))
  ∧ (∀ l, In l (logs st) → In (l_tenant_id l) (map t_id (tenants st))).

(** Every collaborator answers, and no release is stuck in an operation. *)
Definition healthy (s : Sys) : Prop :=
  k8s_read_fault (k8s s) = None ∧ k8s_create_fault (k8s s) = None
  ∧ sql_connect_fault (mysql s) = None ∧ sql_create_fault (mysql s) = None
  ∧ helm_missing (helm s) = false ∧ upgrade_fault (helm s) = None
  ∧ ∀ k rel, releases (helm s) !! k = Some rel → pending rel = false.

(** The command line of [uninstall_tenant]. *)
Definition uninstall_cmd (name ns : string) : list string :=
  ["helm"; "uninstall"; name; "--namespace"; ns].

(** A pod in one of the three phases [get_pod_status] counts. *)
Definition known_phase (p : Pod) : Prop :=
  phase p = Some "Running" ∨ phase p = Some "Pending" ∨ phase p = Some "Failed".

(** The error of a call to a method [TenantProvisioner] does not have. *)
Definition no_attribute (name : string) : exn :=
  AttributeError ("'TenantProvisioner' object has no attribute '" +:+ name +:+ "'").

(** A decimal digit, and the value read so far extended by one. *)
Definition is_digit (c : ascii) : bool :=
  (48 <=? PyStr.code c)%nat && (PyStr.code c <=? 57)%nat.

Definition digit_step (a : nat) (c : ascii) : nat :=
  (a * 10 + (PyStr.code c - 48))%nat.

(** The command lines of the lock recovery. *)
Definition history_cmd (name ns : string) : list string :=
  ["helm"; "history"; name; "-n"; ns; "--max=1"; "--output=json"].

Definition rollback_cmd (name ns : string) (rev : nat) : list string :=
  ["helm"; "rollback"; name; pretty rev; "-n"; ns].

(** * Example worlds *)

Definition alice : User :=
  {| u_id := 1; u_email := "alice@example.org"; u_password_hash := "x" |}.

Definition hex_a : string := "0123456789abcdef0123456789abcdef".
Definition hex_b : string := "fedcba9876543210fedcba9876543210".

(** kubectl finds the pod and the installer prints a credential. *)
Definition kubectl_ready (cmd : list string) : result CompletedProcess :=
  match cmd with
  | _ :: sub :: _ =>
      if String.eqb sub "get" then Ok (completed 0 "tenant-01234567-7d9f" "")
      else Ok (completed 0 ("Installing CollectiveAccess" +:+ newline
                            +:+ "Admin password: s3cr3t" +:+ newline) "")
  | _ => Ok (completed 1 "" "")
  end.

(** kubectl finds no pod yet. *)
Definition kubectl_no_pod (cmd : list string) : result CompletedProcess :=
  Ok (completed 0 "" "").

(** Every collaborator healthy and empty; one registered user. *)
Definition fresh_world : Sys :=
  {| k8s := {| namespaces := ∅; k8s_read_fault := None; k8s_create_fault := None |};
     mysql := {| schemata := ∅; principals := ∅; grants := ∅;
                 sql_connect_fault := None; sql_create_fault := None |};
     helm := {| releases := ∅; helm_missing := false; upgrade_fault := None;
                history_fault := None; rollback_fault := None;
                uninstall_fault := None |};
     kubectl_run := kubectl_ready;
     db := {| users := [alice]; tenants := []; subscriptions := []; logs := [] |};
     others := λ st, st;
     uuid_stream := λ n, if Nat.eqb n 0 then hex_a else hex_b;
     uuid_pos := 0; now := 1000; trace := [] |}.

(** The row [provision_tenant] stores for [alice] in [fresh_world]. *)
Definition tenant_row (st : TenantStatus) (pw : option string)
    (at_ : option nat) : Tenant :=
  {| t_id := 1; t_user_id := 1; t_namespace := "tenant-01234567";
     t_helm_release_name := "tenant-01234567";
     t_domain := "tenant-01234567.yoursaas.com"; t_plan := "pro";
     t_status := st; t_db_name := "ca_01234567"; t_db_user := "ca_01234567";
     t_db_password := hex_b; t_ca_admin_username := "administrator";
     t_ca_admin_password := pw; t_deployed_at := at_ |}.

Definition subscription_row : Subscription :=
  {| s_id := 1; s_tenant_id := 1; s_stripe_subscription_id := "sub_1";
     s_stripe_customer_id := "cus_1"; s_stripe_price_id := "";
     s_status := "active"; s_current_period_start := 1000;
     s_current_period_end := 1000 |}.

Definition log_row (st : string) (msg : string) (err : option string)
    (at_ : option nat) : ProvisioningLog :=
  {| l_id := 1; l_tenant_id := 1; l_action := CREATE; l_status := st;
     l_message := Some msg; l_error_details := err;
     l_stripe_event_id := Some "evt_1"; l_completed_at := at_ |}.

(** A store holding one tenant in the given status, its subscription and the
    log row of the attempt that created it. *)
Definition store_with (t : Tenant) (l : ProvisioningLog) : Store :=
  {| users := [alice]; tenants := [t]; subscriptions := [subscription_row];
     logs := [l] |}.

(** The namespace and the tenant database exist; no release is installed. *)
Definition half_built (st : Store) : Sys :=
  set_db st (add_schema "ca_01234567" (add_namespace "tenant-01234567" fresh_world)).

(** A failed tenant whose namespace and database were built by the first
    attempt; every collaborator is healthy. *)
Definition world_failed_tenant : Sys :=
  half_built (store_with (tenant_row FAILED None None)
                (log_row "failed" "Starting provisioning for tenant-01234567"
                         (Some "Helm install failed: timed out") (Some 900%nat))).

(** The store of a provisioned tenant. *)
Definition world_active_tenant : Sys :=
  set_db (store_with (tenant_row ACTIVE (Some "s3cr3t") (Some 1000%nat))
            (log_row "completed" "Successfully provisioned tenant-01234567"
                     None (Some 1000%nat)))
         fresh_world.

(** The cluster API answers 500 to every create. *)
Definition world_api_down : Sys :=
  set_k8s {| namespaces := ∅; k8s_read_fault := None;
             k8s_create_fault := Some (HttpStatus 500 "Internal Server Error") |}
          fresh_world.

Definition rival_tenant : Tenant :=
  {| t_id := 1; t_user_id := 1; t_namespace := "tenant-89abcdef";
     t_helm_release_name := "tenant-89abcdef";
     t_domain := "tenant-89abcdef.yoursaas.com"; t_plan := "pro";
     t_status := PROVISIONING; t_db_name := "ca_89abcdef";
     t_db_user := "ca_89abcdef"; t_db_password := hex_a;
     t_ca_admin_username := "administrator"; t_ca_admin_password := None;
     t_deployed_at := None |}.

(** Another worker commits a tenant for the same subscription after this
    session's lookup. *)
Definition rival_commit (st : Store) : Store :=
  {| users := users st;
     tenants := tenants st ++ [rival_tenant];
     subscriptions := subscriptions st ++ [subscription_row];
     logs := logs st ++ [log_row "started" "Starting provisioning for tenant-89abcdef"
                                 None None] |}.

Definition world_racing : Sys := set_others rival_commit fresh_world.

(** A tenant that was provisioned and then marked deleted; its namespace and
    database are still there. *)
Definition world_deleted_tenant : Sys :=
  half_built (store_with (tenant_row DELETED (Some "s3cr3t") (Some 900%nat))
                (log_row "completed" "Successfully provisioned tenant-01234567"
                         None (Some 900%nat))).

(** The same tenant when its namespace is gone and the cluster API refuses to
    create one. *)
Definition world_deleted_tenant_api_down : Sys :=
  set_db (db world_deleted_tenant) world_api_down.

(** The pod is not scheduled yet. *)
Definition world_no_pod : Sys := set_kubectl_run kubectl_no_pod fresh_world.

(** A release whose last operation never finished: revision 3 is pending. *)
Definition world_stale_lock (fault : option (positive * string)) : Sys :=
  set_helm {| releases := {[ ("tenant-01234567", "tenant-01234567")
                             := {| revision := 3; pending := true |} ]};
              helm_missing := false; upgrade_fault := fault;
              history_fault := None; rollback_fault := None;
              uninstall_fault := None |}
           (add_namespace "tenant-01234567" fresh_world).

Definition example_install : M (bool * string) :=
  install_tenant default_settings "tenant-01234567" "tenant-01234567"
    "tenant-01234567.yoursaas.com" "pro" "ca_01234567" "ca_01234567" hex_b
    "tenant_01234567".

Definition example_install_cmd : list string :=
  install_cmd default_settings "tenant-01234567" "tenant-01234567"
    "tenant-01234567.yoursaas.com" "pro" "ca_01234567" "ca_01234567" hex_b
    "tenant_01234567".

Definition timed_out : string :=
  "Error: UPGRADE FAILED: timed out waiting for the condition".

(** helm refuses every install: the chart cannot be deployed in time. *)
Definition world_chart_fails : Sys :=
  set_helm {| releases := ∅; helm_missing := false;
              upgrade_fault := Some (1%positive, timed_out);
              history_fault := None; rollback_fault := None;
              uninstall_fault := None |} fresh_world.

(** A request that carries a signature header. *)
Definition signed_request : Request :=
  {| r_body := "{}"; r_stripe_signature := Some "t=1,v1=0a" |}.

(** Alice has paid for the subscription [sub_1]. *)
Definition checkout_event : Event :=
  {| e_id := "evt_1"; e_type := "checkout.session.completed";
     e_object := {| o_id := Some "cs_1"; o_status := Some "complete";
                    o_subscription := Some "sub_1"; o_customer := "cus_1";
                    o_customer_email := Some "alice@example.org";
                    o_customer_details_email := None |} |}.

(** The subscription [sub_1] changes its status. *)
Definition subscription_event (type status : string) : Event :=
  {| e_id := "evt_2"; e_type := type;
     e_object := {| o_id := Some "sub_1"; o_status := Some status;
                    o_subscription := None; o_customer := "cus_1";
                    o_customer_email := None;
                    o_customer_details_email := None |} |}.

(** The verification accepts the request as the given event. *)
Definition delivers (event : Event) : string → string → result Event :=
  λ _ _, Ok event.

(** Every subscription is on the price of the [pro] plan. *)
Definition pro_price : string → result string :=
  λ _, Ok "price_1SrGJJPcAaj5Ilzy0KOKspNI".

(** * Properties *)

(** ** Python strings *)

Example splitlines_ex :
  PyStr.splitlines ("a" +:+ String (ascii_of_nat 13) (String (ascii_of_nat 10) "b c")
                    +:+ String (ascii_of_nat 10) "")
  = ["a"; "b c"].
Proof. reflexivity. Qed.

Example split_ex : PyStr.split "  Admin password:   s3cr3t  " = ["Admin"; "password:"; "s3cr3t"].
Proof. reflexivity. Qed.

(** ** Reasoning in the monad *)

Lemma bind_unfold {A B} (m : M A) (f : A → M B) (s : Sys) :
  (m ≫= f) s = match m s with
               | (Ok a, s') => f a s'
               | (Raise e, s') => (Raise e, s')
               end.
Proof. reflexivity. Qed.

Lemma bind_Ok {A B} (m : M A) (f : A → M B) s a s' :
  m s = (Ok a, s') → (m ≫= f) s = f a s'.
Proof. intros H. rewrite bind_unfold, H. reflexivity. Qed.

Lemma bind_gets {A B} (f : Sys → A) (k : A → M B) s :
  (gets f ≫= k) s = k (f s) s.
Proof. reflexivity. Qed.

(** A run is its result paired with its final state. *)
Lemma run_eq {A} (m : M A) (s : Sys) (r : result A) :
  fst (m s) = r → m s = (r, snd (m s)).
Proof. destruct (m s); simpl; congruence. Qed.

Lemma bind_inv {A B} (m : M A) (f : A → M B) s r s2 :
  (m ≫= f) s = (r, s2) →
  (∃ a s1, m s = (Ok a, s1) ∧ f a s1 = (r, s2))
  ∨ (∃ e, m s = (Raise e, s2) ∧ r = Raise e).
Proof.
  rewrite bind_unfold. destruct (m s) as [[a|e] s1]; intros H.
  - left. eauto.
  - right. inversion H; subst. eauto.
Qed.

Section Stable.
Context (R : Sys → Sys → Prop) `{!PreOrder R}.

Lemma stable_ret {A} (a : A) : stable R (mret a).
Proof. intros s. simpl. reflexivity. Qed.

Lemma stable_pass : stable R pass.
Proof. apply stable_ret. Qed.

Lemma stable_raise {A} e : stable R (@raise A e).
Proof. intros s. simpl. reflexivity. Qed.

Lemma stable_gets {A} (f : Sys → A) : stable R (gets f).
Proof. intros s. simpl. reflexivity. Qed.

Lemma stable_lift {A} (r : result A) : stable R (lift_result r).
Proof. intros s. simpl. reflexivity. Qed.

Lemma stable_modify f : (∀ s, R s (f s)) → stable R (modify f).
Proof. intros H s. apply H. Qed.

Lemma stable_bind {A B} (m : M A) (f : A → M B) :
  stable R m → (∀ a, stable R (f a)) → stable R (m ≫= f).
Proof.
  intros Hm Hf s. rewrite bind_unfold.
  specialize (Hm s). destruct (m s) as [[a|e] s1]; simpl in *.
  - etrans; [exact Hm | apply Hf].
  - exact Hm.
Qed.

Lemma stable_try {A} (m : M A) (h : exn → option (M A)) :
  stable R m → (∀ e k, h e = Some k → stable R k) → stable R (try_except m h).
Proof.
  intros Hm Hh s. unfold try_except.
  specialize (Hm s). destruct (m s) as [[a|e] s1]; simpl in *; [exact Hm|].
  destruct (h e) as [k|] eqn:E; simpl; [|exact Hm].
  etrans; [exact Hm | eapply Hh; eauto].
Qed.
End Stable.

(** Decomposes a [stable] goal along the structure of the code. *)
Ltac stable_step :=
  match goal with
  | |- stable _ (_ ≫= _) => apply stable_bind; [typeclasses eauto | | intros ]
  | |- stable _ (mret _) => apply stable_ret; typeclasses eauto
  | |- stable _ pass => apply stable_pass; typeclasses eauto
  | |- stable _ (raise _) => apply stable_raise; typeclasses eauto
  | |- stable _ (gets _) => apply stable_gets; typeclasses eauto
  | |- stable _ (lift_result _) => apply stable_lift; typeclasses eauto
  | |- stable _ (try_except _ _) =>
      apply stable_try; [typeclasses eauto | | intros ? ? ?]
  | |- stable _ (if ?b then _ else _) => destruct b
  | |- stable _ (match ?x with _ => _ end) => destruct x
  | |- stable _ (let '(_, _) := ?x in _) => destruct x
  | H : except_Exception _ _ = Some _ |- _ =>
      unfold except_Exception in H; inversion H; subst; clear H
  | H : except_ApiException _ ?e = Some _ |- _ =>
      unfold except_ApiException in H; destruct e; inversion H; subst; clear H
  | H : except_CalledProcessError _ ?e = Some _ |- _ =>
      unfold except_CalledProcessError in H; destruct e; inversion H; subst; clear H
  end.

(** Runs the monadic plumbing of a goal. *)
Ltac run_monad :=
  repeat (progress (unfold mbind, M_bind, mret, M_ret, call, modify, gets,
                      raise, lift_result, pass, try_except); simpl).

(** ** What a run may change *)

Global Instance keeps_db_preorder : PreOrder keeps_db.
Proof.
  split.
  - intros s. split; reflexivity.
  - intros a b c [H1 H2] [H3 H4]. split; congruence.
Qed.

Global Instance grows_preorder : PreOrder grows.
Proof.
  split.
  - intros s. repeat split; reflexivity.
  - intros a b c (A1 & A2 & A3 & A4 & A5 & A6) (B1 & B2 & B3 & B4 & B5 & B6).
    repeat split; first [etrans; eassumption | congruence].
Qed.

Create HintDb stable.

Lemma keeps_db_call c : stable keeps_db (call c).
Proof. intros s. split; reflexivity. Qed.

Lemma grows_call c : stable grows (call c).
Proof. intros s. repeat split; reflexivity. Qed.

Lemma grows_add_namespace n s : grows s (add_namespace n s).
Proof. repeat split; simpl; try reflexivity. set_solver. Qed.

Lemma grows_add_schema n s : grows s (add_schema n s).
Proof. repeat split; simpl; try reflexivity. set_solver. Qed.

Lemma grows_add_principal u p s : grows s (add_principal u p s).
Proof.
  repeat split; simpl; try reflexivity. unfold create_principal.
  destruct (principals (mysql s) !! u) eqn:E; [reflexivity|].
  by apply insert_subseteq.
Qed.

Lemma grows_add_grant d u s : grows s (add_grant d u s).
Proof. repeat split; simpl; try reflexivity. set_solver. Qed.

Lemma grows_deploy_release ns n s : grows s (deploy_release ns n s).
Proof.
  repeat split; simpl; try reflexivity. unfold next_revision.
  rewrite dom_insert_L. set_solver.
Qed.

Lemma grows_set_db d s : grows s (set_db d s).
Proof. repeat split; reflexivity. Qed.

Lemma grows_set_uuid_pos n s : grows s (set_uuid_pos n s).
Proof. repeat split; reflexivity. Qed.

Global Hint Resolve keeps_db_call grows_call : stable.

(** The generic steps, then the lemmas already proved. *)
Ltac stable_tac :=
  repeat first
    [ stable_step
    | solve [eauto with stable]
    | apply stable_modify; intros ?;
      first [ apply grows_add_namespace | apply grows_add_schema
            | apply grows_add_principal | apply grows_add_grant
            | apply grows_deploy_release | apply grows_set_db
            | apply grows_set_uuid_pos
            | split; reflexivity ] ].

Lemma keeps_db_read_namespace n : stable keeps_db (core_v1_read_namespace n).
Proof. unfold core_v1_read_namespace. stable_tac. Qed.
Lemma grows_read_namespace n : stable grows (core_v1_read_namespace n).
Proof. unfold core_v1_read_namespace. stable_tac. Qed.

Lemma keeps_db_create_namespace_api n : stable keeps_db (core_v1_create_namespace n).
Proof. unfold core_v1_create_namespace. stable_tac. Qed.
Lemma grows_create_namespace_api n : stable grows (core_v1_create_namespace n).
Proof. unfold core_v1_create_namespace. stable_tac. Qed.

Global Hint Resolve keeps_db_read_namespace grows_read_namespace
  keeps_db_create_namespace_api grows_create_namespace_api : stable.

Lemma keeps_db_connect : stable keeps_db pymysql_connect.
Proof. unfold pymysql_connect. stable_tac. Qed.
Lemma grows_connect : stable grows pymysql_connect.
Proof. unfold pymysql_connect. stable_tac. Qed.

Lemma keeps_db_select d : stable keeps_db (sql_select_schema d).
Proof. unfold sql_select_schema. stable_tac. Qed.
Lemma grows_select d : stable grows (sql_select_schema d).
Proof. unfold sql_select_schema. stable_tac. Qed.

Lemma keeps_db_create_database d : stable keeps_db (sql_create_database d).
Proof. unfold sql_create_database. stable_tac. Qed.
Lemma grows_create_database d : stable grows (sql_create_database d).
Proof. unfold sql_create_database. stable_tac. Qed.

Lemma keeps_db_create_user u p : stable keeps_db (sql_create_user u p).
Proof. unfold sql_create_user. stable_tac. Qed.
Lemma grows_create_user u p : stable grows (sql_create_user u p).
Proof. unfold sql_create_user. stable_tac. Qed.

Lemma keeps_db_grant d u : stable keeps_db (sql_grant_all d u).
Proof. unfold sql_grant_all. stable_tac. Qed.
Lemma grows_grant d u : stable grows (sql_grant_all d u).
Proof. unfold sql_grant_all. stable_tac. Qed.

Lemma keeps_db_flush : stable keeps_db sql_flush_privileges.
Proof. unfold sql_flush_privileges. stable_tac. Qed.
Lemma grows_flush : stable grows sql_flush_privileges.
Proof. unfold sql_flush_privileges. stable_tac. Qed.

Global Hint Resolve keeps_db_connect grows_connect keeps_db_select grows_select
  keeps_db_create_database grows_create_database keeps_db_create_user
  grows_create_user keeps_db_grant grows_grant keeps_db_flush grows_flush
  : stable.

Lemma keeps_db_helm_upgrade n ns : stable keeps_db (helm_upgrade n ns).
Proof. unfold helm_upgrade. stable_tac. Qed.
Lemma grows_helm_upgrade n ns : stable grows (helm_upgrade n ns).
Proof. unfold helm_upgrade. stable_tac. Qed.

Lemma keeps_db_helm_rollback n r ns : stable keeps_db (helm_rollback n r ns).
Proof. unfold helm_rollback. stable_tac. Qed.
Lemma grows_helm_rollback n r ns : stable grows (helm_rollback n r ns).
Proof. unfold helm_rollback. stable_tac. Qed.

Lemma keeps_db_helm_uninstall n ns : stable keeps_db (helm_uninstall n ns).
Proof. unfold helm_uninstall. stable_tac. Qed.

Global Hint Resolve keeps_db_helm_upgrade grows_helm_upgrade
  keeps_db_helm_rollback grows_helm_rollback keeps_db_helm_uninstall : stable.

Lemma keeps_db_helm_exec args : stable keeps_db (helm_exec args).
Proof. unfold helm_exec. stable_tac. Qed.

(** Every helm subcommand but [uninstall] only adds. *)
Lemma grows_helm_exec sub rest :
  String.eqb sub "uninstall" = false → stable grows (helm_exec (sub :: rest)).
Proof.
  intros H. unfold helm_exec. rewrite H.
  apply stable_bind; [typeclasses eauto | stable_tac |].
  intros h. destruct (helm_missing h); [stable_tac|].
  destruct (String.eqb sub "list"); [stable_tac|].
  destruct (String.eqb sub "upgrade"); [stable_tac|].
  destruct (String.eqb sub "history"); [stable_tac|].
  destruct (String.eqb sub "rollback"); stable_tac.
Qed.

Global Hint Resolve keeps_db_helm_exec : stable.

Lemma keeps_db_subprocess_run cmd chk : stable keeps_db (subprocess_run cmd chk).
Proof. unfold subprocess_run. stable_tac. Qed.

Lemma grows_subprocess_run prog sub rest chk :
  String.eqb sub "uninstall" = false →
  stable grows (subprocess_run (prog :: sub :: rest) chk).
Proof.
  intros H. unfold subprocess_run.
  apply stable_bind; [typeclasses eauto | stable_tac |]. intros _.
  apply stable_bind; [typeclasses eauto | | intros; stable_tac].
  destruct (String.eqb prog "helm"); [by apply grows_helm_exec|].
  stable_tac.
Qed.

Lemma keeps_db_sleep n : stable keeps_db (time_sleep n).
Proof. unfold time_sleep. stable_tac. Qed.
Lemma grows_sleep n : stable grows (time_sleep n).
Proof. unfold time_sleep. stable_tac. Qed.

Lemma grows_uuid4 : stable grows uuid4_hex.
Proof. unfold uuid4_hex. stable_tac. Qed.

Lemma keeps_db_json t : stable keeps_db (json_last_revision t).
Proof. unfold json_last_revision. stable_tac. Qed.
Lemma grows_json t : stable grows (json_last_revision t).
Proof. unfold json_last_revision. stable_tac. Qed.

Global Hint Resolve keeps_db_subprocess_run keeps_db_sleep grows_sleep
  grows_uuid4 keeps_db_json grows_json : stable.
Global Hint Extern 1 (stable grows (subprocess_run (_ :: _ :: _) _)) =>
  apply grows_subprocess_run; reflexivity : stable.

(** ** The code only adds outside, and only commits touch the store *)

Lemma keeps_db_create_namespace n : stable keeps_db (create_namespace n).
Proof. unfold create_namespace. stable_tac. Qed.
Lemma grows_create_namespace n : stable grows (create_namespace n).
Proof. unfold create_namespace. stable_tac. Qed.

Lemma keeps_db_namespace_exists n : stable keeps_db (namespace_exists n).
Proof. unfold namespace_exists. stable_tac. Qed.
Lemma grows_namespace_exists n : stable grows (namespace_exists n).
Proof. unfold namespace_exists. stable_tac. Qed.

Lemma keeps_db_release_exists r ns : stable keeps_db (release_exists r ns).
Proof. unfold release_exists, list_cmd. stable_tac. Qed.
Lemma grows_release_exists r ns : stable grows (release_exists r ns).
Proof. unfold release_exists, list_cmd. stable_tac. Qed.

Lemma keeps_db_install_tenant cfg n ns dom pl d u p app :
  stable keeps_db (install_tenant cfg n ns dom pl d u p app).
Proof. unfold install_tenant. stable_tac. Qed.
Lemma grows_install_tenant cfg n ns dom pl d u p app :
  stable grows (install_tenant cfg n ns dom pl d u p app).
Proof. unfold install_tenant, install_cmd. stable_tac. Qed.

Global Hint Resolve keeps_db_create_namespace grows_create_namespace
  keeps_db_namespace_exists grows_namespace_exists keeps_db_release_exists
  grows_release_exists keeps_db_install_tenant grows_install_tenant : stable.

Lemma keeps_db_ensure_namespace n : stable keeps_db (_ensure_namespace n).
Proof. unfold _ensure_namespace. stable_tac. Qed.
Lemma grows_ensure_namespace n : stable grows (_ensure_namespace n).
Proof. unfold _ensure_namespace. stable_tac. Qed.

Lemma keeps_db_database_exists d : stable keeps_db (_database_exists d).
Proof. unfold _database_exists. stable_tac. Qed.
Lemma grows_database_exists d : stable grows (_database_exists d).
Proof. unfold _database_exists. stable_tac. Qed.

Lemma keeps_db_create_db d u p : stable keeps_db (_create_database d u p).
Proof. unfold _create_database. stable_tac. Qed.
Lemma grows_create_db d u p : stable grows (_create_database d u p).
Proof. unfold _create_database. stable_tac. Qed.

Global Hint Resolve keeps_db_ensure_namespace grows_ensure_namespace
  keeps_db_database_exists grows_database_exists keeps_db_create_db
  grows_create_db : stable.

Lemma keeps_db_ensure_database d u p : stable keeps_db (_ensure_database d u p).
Proof. unfold _ensure_database. stable_tac. Qed.
Lemma grows_ensure_database d u p : stable grows (_ensure_database d u p).
Proof. unfold _ensure_database. stable_tac. Qed.

Lemma keeps_db_ensure_helm_release cfg r ns dom pl d u p app :
  stable keeps_db (_ensure_helm_release cfg r ns dom pl d u p app).
Proof. unfold _ensure_helm_release. stable_tac. Qed.
Lemma grows_ensure_helm_release cfg r ns dom pl d u p app :
  stable grows (_ensure_helm_release cfg r ns dom pl d u p app).
Proof. unfold _ensure_helm_release. stable_tac. Qed.

Lemma keeps_db_scan_password lines : stable keeps_db (scan_password lines).
Proof. induction lines as [|l ls IH]; simpl; stable_tac. Qed.
Lemma grows_scan_password lines : stable grows (scan_password lines).
Proof. induction lines as [|l ls IH]; simpl; stable_tac. Qed.

Global Hint Resolve keeps_db_ensure_database grows_ensure_database
  keeps_db_ensure_helm_release grows_ensure_helm_release
  keeps_db_scan_password grows_scan_password : stable.

Lemma keeps_db_run_ca_installer cfg ns n app :
  stable keeps_db (_run_ca_installer cfg ns n app).
Proof. unfold _run_ca_installer, get_pod_cmd, installer_cmd. stable_tac. Qed.
Lemma grows_run_ca_installer cfg ns n app :
  stable grows (_run_ca_installer cfg ns n app).
Proof. unfold _run_ca_installer, get_pod_cmd, installer_cmd. stable_tac. Qed.

Lemma grows_commit_tenant i f : stable grows (commit_tenant i f).
Proof. unfold commit_tenant. stable_tac. Qed.
Lemma grows_commit_log i f : stable grows (commit_log i f).
Proof. unfold commit_log. stable_tac. Qed.

Global Hint Resolve keeps_db_run_ca_installer grows_run_ca_installer
  grows_commit_tenant grows_commit_log : stable.

Lemma grows_resume_provisioning cfg t pl :
  stable grows (_resume_provisioning cfg t pl).
Proof. unfold _resume_provisioning, utcnow. stable_tac. Qed.

Lemma grows_realize_resources cfg t l pl app :
  stable grows (realize_resources cfg t l pl app).
Proof. unfold realize_resources, utcnow. stable_tac. Qed.

Lemma grows_create_records cfg u pl sid cid eid :
  stable grows (create_records cfg u pl sid cid eid).
Proof. unfold create_records, utcnow. stable_tac. Qed.

Lemma grows_event_processed e : stable grows (_event_processed e).
Proof. unfold _event_processed. stable_tac. Qed.

Global Hint Resolve grows_resume_provisioning grows_realize_resources
  grows_create_records grows_event_processed : stable.

Lemma grows_provision_tenant cfg u em pl sid cid eid :
  stable grows (provision_tenant cfg u em pl sid cid eid).
Proof. unfold provision_tenant. stable_tac. Qed.

Example provision_fresh :
  fst (provision_tenant default_settings 1 "alice@example.org" "pro" "sub_1" "cus_1"
         (Some "evt_1") fresh_world)
  = Ok (Some (tenant_row ACTIVE (Some "s3cr3t") (Some 1000%nat)), None).
Proof. vm_compute. reflexivity. Qed.

Example provision_fresh_store :
  db (snd (provision_tenant default_settings 1 "alice@example.org" "pro" "sub_1" "cus_1"
             (Some "evt_1") fresh_world))
  = store_with (tenant_row ACTIVE (Some "s3cr3t") (Some 1000%nat))
               (log_row "completed" "Successfully provisioned tenant-01234567"
                        None (Some 1000%nat)).
Proof. vm_compute. reflexivity. Qed.

(** ** The lifecycle commands *)

(** C5. The API layer calls [delete_tenant], [suspend_tenant] and
    [resume_tenant] on a [TenantProvisioner], but the class defines none of
    them: each of the three endpoints raises [AttributeError] for every
    tenant id, in every state, and changes nothing. *)
Theorem lifecycle_endpoints_raise (tenant_id : nat) (s : Sys) :
  delete_tenant_endpoint tenant_id s
  = (Raise (AttributeError "'TenantProvisioner' object has no attribute 'delete_tenant'"), s)
  ∧ suspend_tenant_endpoint tenant_id s
    = (Raise (AttributeError "'TenantProvisioner' object has no attribute 'suspend_tenant'"), s)
  ∧ resume_tenant_endpoint tenant_id s
    = (Raise (AttributeError "'TenantProvisioner' object has no attribute 'resume_tenant'"), s).
Proof. repeat split. Qed.

(** ** The resume path *)

(** The body of the [try] block of [_resume_provisioning] never reaches the
    assignment of [ACTIVE]: the call of [_ensure_helm_release] raises. *)
Lemma resume_provisioning_caught cfg tenant plan s :
  ∃ err s1,
    _resume_provisioning cfg tenant plan s
    = (Ok (Some (set_t_status FAILED tenant), Some err),
       set_db (update_tenant (t_id tenant) (set_t_status FAILED) (db s1)) s1)
    ∧ keeps_db s s1.
Proof.
  unfold _resume_provisioning.
  set (steps := (_ensure_namespace (t_namespace tenant);;
                 _ensure_database (t_db_name tenant) (t_db_user tenant)
                                  (t_db_password tenant))).
  pose proof (keeps_db_ensure_namespace (t_namespace tenant)) as K1.
  pose proof (keeps_db_ensure_database (t_db_name tenant) (t_db_user tenant)
                (t_db_password tenant)) as K2.
  unfold try_except. rewrite bind_unfold.
  specialize (K1 s).
  destruct (_ensure_namespace (t_namespace tenant) s) as [[[]|e] s1]; simpl in K1.
  - rewrite bind_unfold. specialize (K2 s1).
    destruct (_ensure_database _ _ _ s1) as [[[]|e] s2]; simpl in K2.
    + simpl. eexists _, s2. split; [reflexivity|]. by etrans.
    + simpl. eexists _, s2. split; [reflexivity|]. by etrans.
  - simpl. eexists _, s1. split; [reflexivity | done].
Qed.

(** C3. [provision_tenant] sends a non-active tenant to the resume path, but
    the resume path cannot succeed: [_resume_provisioning] calls
    [_ensure_helm_release] without [ca_app_name], so whenever the namespace
    and database steps pass the call raises [TypeError], and every run ends
    with the tenant [FAILED] and an error returned.  With every collaborator
    healthy the tenant is not activated. *)
Theorem resume_path_never_activates :
  (∀ cfg tenant plan s,
     ∃ err s', _resume_provisioning cfg tenant plan s
               = (Ok (Some (set_t_status FAILED tenant), Some err), s'))
  ∧ provision_tenant default_settings 1 "alice@example.org" "pro" "sub_1" "cus_1" None
      world_failed_tenant
    = (Ok (Some (tenant_row FAILED None None),
           Some "TenantProvisioner._ensure_helm_release() missing 1 required positional argument: 'ca_app_name'"),
       set_trace [ReadNamespace "tenant-01234567"; SqlConnect;
                  SqlExecute "SELECT SCHEMA_NAME FROM INFORMATION_SCHEMA.SCHEMATA WHERE SCHEMA_NAME=%s"
                             ["ca_01234567"]]
                 world_failed_tenant).
Proof.
  split.
  - intros cfg tenant plan s.
    destruct (resume_provisioning_caught cfg tenant plan s) as (e & s1 & H & _).
    eauto.
  - vm_compute. reflexivity.
Qed.

(** ** The installer runner *)

Lemma chars_str l : PyStr.chars (PyStr.str l) = l.
Proof. apply list_ascii_of_string_of_list_ascii. Qed.

Lemma occurs_head a p l : PyStr.occurs (a :: p) l = true → In a l.
Proof.
  induction l as [|b l IH]; simpl; [discriminate|].
  intros H. apply orb_true_iff in H as [H|H].
  - apply andb_true_iff in H as [H _]. apply Ascii.eqb_eq in H. by left.
  - right. by apply IH.
Qed.

(** No whitespace character lowers to the letter p. *)
Lemma space_not_p c :
  PyStr.is_space c = true → PyStr.lower_char c ≠ "p"%char.
Proof.
  destruct c as [[] [] [] [] [] [] [] []]; vm_compute; congruence.
Qed.

Lemma split_go_nil cur l :
  PyStr.split_go cur l = [] → cur = [] ∧ forallb PyStr.is_space l = true.
Proof.
  revert cur. induction l as [|c l IH]; intros cur; simpl.
  - destruct cur; [done | discriminate].
  - destruct (PyStr.is_space c) eqn:E.
    + destruct cur; [|discriminate]. intros H. by apply IH in H as [_ ->].
    + intros H. apply IH in H as [[=] _].
Qed.

(** A line that contains the marker has a last token. *)
Lemma marker_line_has_token line :
  PyStr.contains "password" (PyStr.lower line) = true →
  ∃ tok, last (PyStr.split line) = Some tok.
Proof.
  unfold PyStr.contains, PyStr.lower. rewrite chars_str. intros H.
  apply occurs_head in H. apply in_map_iff in H as (c & Hc & Hin).
  assert (PyStr.split line ≠ []) as Hne.
  { unfold PyStr.split. intros Hnil. apply fmap_nil_inv in Hnil.
    apply split_go_nil in Hnil as [_ Hall].
    rewrite forallb_forall in Hall. specialize (Hall c Hin).
    by apply space_not_p in Hall. }
  apply last_is_Some in Hne as [tok Htok]; eauto.
Qed.

Lemma scan_password_find lines s :
  match find has_marker lines with
  | Some line =>
      ∃ tok, last (PyStr.split line) = Some tok
             ∧ scan_password lines s = (Ok (Some tok), s)
  | None => scan_password lines s = (Ok None, s)
  end.
Proof.
  induction lines as [|l ls IH]; simpl; [reflexivity|].
  unfold has_marker at 1.
  destruct (PyStr.contains "password" (PyStr.lower l)) eqn:E.
  - destruct (marker_line_has_token l E) as [tok Htok].
    exists tok. rewrite Htok. done.
  - exact IH.
Qed.

Lemma subprocess_run_kubectl args chk s :
  subprocess_run ("kubectl" :: args) chk s
  = match kubectl_run s ("kubectl" :: args) with
    | Ok r =>
        if chk && negb (returncode r =? 0)
        then (Raise (CalledProcessError ("kubectl" :: args) (returncode r) (stderr r)),
              traced (Subprocess ("kubectl" :: args)) s)
        else (Ok r, traced (Subprocess ("kubectl" :: args)) s)
    | Raise e => (Raise e, traced (Subprocess ("kubectl" :: args)) s)
    end.
Proof.
  unfold subprocess_run, traced.
  unfold mbind, M_bind, call, modify, gets, lift_result, raise; simpl.
  destruct (kubectl_run s ("kubectl" :: args)) as [r|e]; simpl; [|reflexivity].
  destruct (chk && negb (returncode r =? 0)); reflexivity.
Qed.

Lemma run_ca_installer_unfold cfg ns tn app s :
  _run_ca_installer cfg ns tn app s
  = match kubectl_run s (get_pod_cmd ns tn) with
    | Raise _ => (Ok None, after_pod_lookup ns tn s)
    | Ok r =>
        let pod := PyStr.strip (stdout r) in
        if String.eqb pod "" then (Ok None, after_pod_lookup ns tn s)
        else
          let s2 := traced (Subprocess (installer_cmd cfg ns pod app))
                           (after_pod_lookup ns tn s) in
          match kubectl_run s (installer_cmd cfg ns pod app) with
          | Raise _ => (Ok None, s2)
          | Ok r2 =>
              if negb (returncode r2 =? 0) then (Ok None, s2)
              else match find has_marker (PyStr.splitlines (stdout r2)) with
                   | Some line =>
                       (Ok (match last (PyStr.split line) with
                            | Some tok => Some tok
                            | None => None
                            end), s2)
                   | None => (Ok None, s2)
                   end
          end
    end.
Proof.
  unfold _run_ca_installer, try_except. rewrite bind_unfold.
  change (time_sleep 30 s) with (Ok (), traced (Sleep 30) s). cbv iota beta.
  rewrite bind_unfold. unfold get_pod_cmd at 1. rewrite subprocess_run_kubectl.
  fold (get_pod_cmd ns tn).
  change (kubectl_run (traced (Sleep 30) s)) with (kubectl_run s).
  destruct (kubectl_run s (get_pod_cmd ns tn)) as [r|e]; [|reflexivity].
  cbn [andb]. cbv iota beta zeta.
  destruct (String.eqb (PyStr.strip (stdout r)) ""); [reflexivity|].
  rewrite bind_unfold. unfold installer_cmd at 1. rewrite subprocess_run_kubectl.
  fold (installer_cmd cfg ns (PyStr.strip (stdout r)) app).
  change (kubectl_run (traced _ (traced (Sleep 30) s))) with (kubectl_run s).
  destruct (kubectl_run s (installer_cmd cfg ns _ app)) as [r2|e]; [|reflexivity].
  cbn [andb]. cbv iota beta.
  destruct (negb (returncode r2 =? 0)); [reflexivity|].
  pose proof (scan_password_find (PyStr.splitlines (stdout r2))
    (traced (Subprocess (installer_cmd cfg ns (PyStr.strip (stdout r)) app))
       (after_pod_lookup ns tn s))) as Hs.
  unfold after_pod_lookup in *.
  destruct (find has_marker _) as [line|].
  - destruct Hs as (tok & Ht & ->). rewrite Ht. reflexivity.
  - rewrite Hs. reflexivity.
Qed.

(** ** The new-tenant path, step by step *)

Lemma event_guard_eval (eid : option string) s :
  match eid with
  | Some e => if truthy (Some e) then _event_processed e else mret false
  | None => mret false
  end s = (Ok (already_handled eid (db s)), s).
Proof.
  destruct eid as [e|]; [|reflexivity].
  unfold already_handled. destruct (truthy (Some e)); reflexivity.
Qed.

Lemma keeps_db_resource_steps cfg t pl app :
  stable keeps_db (resource_steps cfg t pl app).
Proof. unfold resource_steps. stable_tac. Qed.

(** With no short circuit and no tenant for the subscription,
    [provision_tenant] stores the records and runs the attempt. *)
Lemma provision_tenant_new cfg user_id email plan sid cid eid s :
  already_handled eid (db s) = false →
  query_tenant_by_subscription sid (db s) = None →
  provision_tenant cfg user_id email plan sid cid eid s
  = match create_records cfg user_id plan sid cid eid s with
    | (Ok (tenant, log, app), s0) => realize_resources cfg tenant log plan app s0
    | (Raise e, s0) => (Raise e, s0)
    end.
Proof.
  intros Hg Hq. unfold provision_tenant.
  rewrite (bind_Ok _ _ _ _ _ (event_guard_eval eid s)), Hg. cbv iota.
  rewrite bind_gets, Hq, bind_unfold.
  destruct (create_records cfg user_id plan sid cid eid s) as [[[[t l] app]|e] s0];
    reflexivity.
Qed.

(** With no short circuit and a tenant that is not active, it resumes. *)
Lemma provision_tenant_resumes cfg user_id email plan sid cid eid s existing :
  already_handled eid (db s) = false →
  query_tenant_by_subscription sid (db s) = Some existing →
  t_status existing ≠ ACTIVE →
  provision_tenant cfg user_id email plan sid cid eid s
  = _resume_provisioning cfg existing plan s.
Proof.
  intros Hg Hq Hs. unfold provision_tenant.
  rewrite (bind_Ok _ _ _ _ _ (event_guard_eval eid s)), Hg. cbv iota.
  rewrite bind_gets, Hq.
  destruct (decide (t_status existing = ACTIVE)); [contradiction | reflexivity].
Qed.

Lemma insert_tenant_cases t st :
  (∃ msg, insert_tenant t st = Raise (IntegrityError msg))
  ∨ insert_tenant t st
    = Ok (set_t_id (next_id (map t_id (tenants st))) t,
          set_tenants (tenants st ++ [set_t_id (next_id (map t_id (tenants st))) t]) st).
Proof.
  unfold insert_tenant.
  repeat match goal with
         | |- context [if ?b then _ else _] => destruct b; [left; eauto|]
         end.
  by right.
Qed.

Lemma insert_subscription_cases x st :
  (∃ msg, insert_subscription x st = Raise (IntegrityError msg))
  ∨ insert_subscription x st
    = Ok (set_s_id (next_id (map s_id (subscriptions st))) x,
          set_subscriptions
            (subscriptions st ++ [set_s_id (next_id (map s_id (subscriptions st))) x])
            st).
Proof.
  unfold insert_subscription.
  repeat match goal with
         | |- context [if ?b then _ else _] => destruct b; [left; eauto|]
         end.
  by right.
Qed.

Lemma insert_log_cases l st :
  (∃ msg, insert_log l st = Raise (IntegrityError msg))
  ∨ insert_log l st
    = Ok (set_l_id (next_id (map l_id (logs st))) l,
          set_logs (logs st ++ [set_l_id (next_id (map l_id (logs st))) l]) st).
Proof.
  unfold insert_log.
  repeat match goal with
         | |- context [if ?b then _ else _] => destruct b; [left; eauto|]
         end.
  by right.
Qed.

Lemma In_update {A} (key : A → nat) (f : A → A) (x : A) (l : list A) :
  In x l → In (f x) (map (λ y, if Nat.eqb (key y) (key x) then f y else y) l).
Proof.
  intros H. apply in_map_iff. exists x. split; [|done].
  by rewrite Nat.eqb_refl.
Qed.

Lemma create_records_cases cfg user_id plan sid cid eid s :
  (∃ tenant log app s0,
     create_records cfg user_id plan sid cid eid s = (Ok (tenant, log, app), s0)
     ∧ records_created eid s s0 tenant log)
  ∨ (∃ msg, create_records cfg user_id plan sid cid eid s
            = (Raise (IntegrityError msg), rolled_back s)).
Proof.
  unfold create_records.
  unfold mbind, M_bind, uuid4_hex, utcnow, gets, modify, lift_result,
    commit_tenant, mret, M_ret; simpl.
  match goal with
  | |- context [insert_tenant ?t ?st] =>
      destruct (insert_tenant_cases t st) as [[msg ->] | ->]
  end; [right; eexists; reflexivity|].
  match goal with
  | |- context [insert_subscription ?t ?st] =>
      destruct (insert_subscription_cases t st) as [[msg ->] | ->]
  end; [right; eexists; reflexivity|].
  match goal with
  | |- context [insert_log ?t ?st] =>
      destruct (insert_log_cases t st) as [[msg ->] | ->]
  end; [right; eexists; reflexivity|].
  left. do 4 eexists. split; [reflexivity|].
  unfold records_created; simpl. repeat split; try reflexivity.
  - match goal with
    | |- In (set_t_status _ ?t) _ =>
        apply (In_update t_id (set_t_status PROVISIONING) t)
    end.
    apply in_app_iff. right. by left.
  - apply in_app_iff. right. by left.
Qed.

Lemma provision_tenant_handled cfg user_id email plan sid cid eid s :
  already_handled eid (db s) = true →
  provision_tenant cfg user_id email plan sid cid eid s
  = (Ok (query_tenant_by_subscription sid (db s), None), s).
Proof.
  intros Hg. unfold provision_tenant.
  rewrite (bind_Ok _ _ _ _ _ (event_guard_eval eid s)), Hg. reflexivity.
Qed.

Lemma provision_tenant_active cfg user_id email plan sid cid eid s existing :
  query_tenant_by_subscription sid (db s) = Some existing →
  t_status existing = ACTIVE →
  provision_tenant cfg user_id email plan sid cid eid s
  = (Ok (Some existing, None), s).
Proof.
  intros Hq Hs. unfold provision_tenant.
  rewrite (bind_Ok _ _ _ _ _ (event_guard_eval eid s)).
  destruct (already_handled eid (db s)); cbv iota; rewrite bind_gets, Hq.
  - reflexivity.
  - destruct (decide (t_status existing = ACTIVE)); [reflexivity | contradiction].
Qed.

Lemma run_ca_installer_total cfg ns tn app s :
  ∃ pw s4, _run_ca_installer cfg ns tn app s = (Ok pw, s4) ∧ keeps_db s s4.
Proof.
  pose proof (keeps_db_run_ca_installer cfg ns tn app s) as K.
  revert K. rewrite run_ca_installer_unfold.
  destruct (kubectl_run s (get_pod_cmd ns tn)) as [r|e]; [|simpl; eauto].
  cbv zeta. destruct (String.eqb (PyStr.strip (stdout r)) ""); [simpl; eauto|].
  destruct (kubectl_run s (installer_cmd cfg ns _ app)) as [r2|e];
    [|simpl; eauto].
  destruct (negb (returncode r2 =? 0)); [simpl; eauto|].
  destruct (find has_marker _); simpl; eauto.
Qed.

Lemma realize_resources_failure cfg tenant log plan app s e s3 :
  resource_steps cfg tenant plan app s = (Raise e, s3) →
  realize_resources cfg tenant log plan app s
  = (Ok (Some (set_t_status FAILED tenant), Some (py_str e)),
     set_db (update_log (l_id log) (close_failed (py_str e) (now s3))
               (update_tenant (t_id tenant) (set_t_status FAILED) (db s3))) s3).
Proof.
  intros H. unfold realize_resources, try_except.
  unfold resource_steps in H. rewrite bind_unfold in H. rewrite bind_unfold.
  destruct (_ensure_namespace (t_namespace tenant) s) as [[[]|e1] s1].
  - rewrite bind_unfold in H. rewrite bind_unfold.
    destruct (_ensure_database _ _ _ s1) as [[[]|e2] s2].
    + rewrite bind_unfold, H. reflexivity.
    + inversion H; subst. reflexivity.
  - inversion H; subst. reflexivity.
Qed.

Lemma realize_resources_success cfg tenant log plan app s s3 pw s4 :
  resource_steps cfg tenant plan app s = (Ok (), s3) →
  _run_ca_installer cfg (t_namespace tenant) (t_helm_release_name tenant) app s3
  = (Ok pw, s4) →
  realize_resources cfg tenant log plan app s
  = (Ok (Some (activate pw (now s4) tenant), None),
     set_db (update_log (l_id log)
               (close_completed (t_helm_release_name tenant) (now s4))
               (update_tenant (t_id tenant) (activate pw (now s4)) (db s4))) s4).
Proof.
  intros H Hi. unfold realize_resources, try_except.
  unfold resource_steps in H. rewrite bind_unfold in H. rewrite bind_unfold.
  destruct (_ensure_namespace (t_namespace tenant) s) as [[[]|e1] s1];
    [|discriminate].
  rewrite bind_unfold in H. rewrite bind_unfold.
  destruct (_ensure_database _ _ _ s1) as [[[]|e2] s2]; [|discriminate].
  rewrite bind_unfold, H. cbv iota beta.
  rewrite bind_unfold, Hi. reflexivity.
Qed.

(** The three ways the new-tenant path can go. *)
Lemma provision_tenant_new_cases cfg user_id email plan sid cid eid s :
  already_handled eid (db s) = false →
  query_tenant_by_subscription sid (db s) = None →
  let run := provision_tenant cfg user_id email plan sid cid eid s in
  (∃ msg, run = (Raise (IntegrityError msg), rolled_back s))
  ∨ (∃ tenant log app s0 e s3,
       create_records cfg user_id plan sid cid eid s = (Ok (tenant, log, app), s0)
       ∧ records_created eid s s0 tenant log
       ∧ resource_steps cfg tenant plan app s0 = (Raise e, s3)
       ∧ run = (Ok (Some (set_t_status FAILED tenant), Some (py_str e)),
                set_db (update_log (l_id log) (close_failed (py_str e) (now s3))
                          (update_tenant (t_id tenant) (set_t_status FAILED) (db s3)))
                       s3))
  ∨ (∃ tenant log app s0 s3 pw s4,
       create_records cfg user_id plan sid cid eid s = (Ok (tenant, log, app), s0)
       ∧ records_created eid s s0 tenant log
       ∧ resource_steps cfg tenant plan app s0 = (Ok (), s3)
       ∧ _run_ca_installer cfg (t_namespace tenant) (t_helm_release_name tenant)
           app s3 = (Ok pw, s4)
       ∧ run = (Ok (Some (activate pw (now s4) tenant), None),
                set_db (update_log (l_id log)
                          (close_completed (t_helm_release_name tenant) (now s4))
                          (update_tenant (t_id tenant) (activate pw (now s4)) (db s4)))
                       s4)).
Proof.
  intros Hg Hq run. subst run. rewrite provision_tenant_new by done.
  destruct (create_records_cases cfg user_id plan sid cid eid s)
    as [(tenant & log & app & s0 & Hc & Hrec) | (msg & Hc)]; rewrite Hc.
  2: { left. eauto. }
  right.
  destruct (resource_steps cfg tenant plan app s0) as [[[]|e] s3] eqn:Hsteps.
  - right.
    destruct (run_ca_installer_total cfg (t_namespace tenant)
                (t_helm_release_name tenant) app s3) as (pw & s4 & Hi & _).
    rewrite (realize_resources_success _ _ _ _ _ _ _ _ _ Hsteps Hi).
    do 7 eexists. eauto.
  - left. rewrite (realize_resources_failure _ _ _ _ _ _ _ _ Hsteps).
    do 6 eexists. eauto.
Qed.

Lemma provision_tenant_outcome cfg user_id email plan sid cid eid s :
  outcome cfg plan sid eid s
    (provision_tenant cfg user_id email plan sid cid eid s).
Proof.
  destruct (already_handled eid (db s)) eqn:Hg.
  { rewrite provision_tenant_handled by done. constructor. }
  destruct (query_tenant_by_subscription sid (db s)) as [existing|] eqn:Hq.
  { destruct (decide (t_status existing = ACTIVE)) as [Ha|Ha].
    - rewrite (provision_tenant_active _ _ _ _ _ _ _ _ existing) by done.
      rewrite <- Hq. constructor.
    - rewrite (provision_tenant_resumes _ _ _ _ _ _ _ _ existing) by done.
      destruct (resume_provisioning_caught cfg existing plan s)
        as (err & s1 & -> & K).
      by eapply resumed. }
  destruct (provision_tenant_new_cases cfg user_id email plan sid cid eid s Hg Hq)
    as [(msg & ->)
       | [(tenant & log & app & s0 & e & s3 & _ & Hrec & Hsteps & ->)
         | (tenant & log & app & s0 & s3 & pw & s4 & _ & Hrec & Hsteps & Hi & ->)]].
  - by apply insert_refused.
  - by eapply attempt_failed.
  - by eapply attempt_completed.
Qed.

(** ** The short circuits *)

(** C2. When the supplied event id (a non-empty one, which is what the
    guard [if stripe_event_id and ...] takes as supplied) is already recorded
    in a ProvisioningLog, or the subscription's tenant exists and is
    [ACTIVE], [provision_tenant] returns the tenant looked up for the
    subscription with no error, and the whole state is unchanged: no outside
    call is traced and no record is touched. *)
Theorem provision_tenant_short_circuit cfg user_id email plan sid cid eid s :
  (∃ e, eid = Some e ∧ truthy eid = true
        ∧ is_Some (query_log_by_event e (db s)))
  ∨ (∃ t, query_tenant_by_subscription sid (db s) = Some t
          ∧ t_status t = ACTIVE) →
  provision_tenant cfg user_id email plan sid cid eid s
  = (Ok (query_tenant_by_subscription sid (db s), None), s).
Proof.
  intros [(e & -> & Ht & Hl) | (t & Hq & Ha)].
  - apply provision_tenant_handled. unfold already_handled.
    rewrite Ht. by rewrite bool_decide_eq_true_2.
  - rewrite Hq. by apply provision_tenant_active.
Qed.

Lemma provision_tenant_short_circuit_witness :
  provision_tenant default_settings 1 "alice@example.org" "pro" "sub_1" "cus_1"
    (Some "evt_1") world_active_tenant
  = (Ok (Some (tenant_row ACTIVE (Some "s3cr3t") (Some 1000%nat)), None),
     world_active_tenant).
Proof.
  apply (provision_tenant_short_circuit default_settings 1 "alice@example.org"
           "pro" "sub_1" "cus_1" (Some "evt_1") world_active_tenant).
  left. exists "evt_1". split; [reflexivity|]. split; [reflexivity|].
  vm_compute. eexists. reflexivity.
Defined.

(** ** Failures of an attempt *)

(** C1, as the spec states it, fails: an intent whose owner is not a
    registered user makes the INSERT of the tenant row violate the foreign
    key at [flush], before the [try] block; the exception leaves
    [provision_tenant] and no Tenant is stored. *)
Lemma provision_tenant_raises_for_unknown_user :
  let run := provision_tenant default_settings 99 "mallory@example.org" "pro"
               "sub_9" "cus_9" None fresh_world in
  fst run = Raise (IntegrityError "insert or update on table tenants violates foreign key constraint tenants_user_id_fkey")
  ∧ tenants (db (snd run)) = [].
Proof. vm_compute. split; reflexivity. Qed.

(** C1 (amended). [provision_tenant] raises only when an INSERT of the new
    records is refused, before any outside call, with the session rolled
    back.  Every failure of a resource step is returned as an error value
    together with a stored Tenant whose status is [FAILED]; on the new-tenant
    path the ProvisioningLog of the attempt is closed [failed] with that
    error as its detail (the resume path writes no log).  Nothing that
    exists outside is taken away by a run. *)
Theorem provision_tenant_failure_contract cfg user_id email plan sid cid eid s :
  let run := provision_tenant cfg user_id email plan sid cid eid s in
  (∀ e, fst run = Raise e →
        ∃ msg, e = IntegrityError msg ∧ snd run = rolled_back s)
  ∧ (∀ ot err, fst run = Ok (ot, Some err) →
        ∃ t, ot = Some t ∧ t_status t = FAILED ∧ In t (tenants (db (snd run))))
  ∧ (∀ t err, query_tenant_by_subscription sid (db s) = None →
        fst run = Ok (Some t, Some err) →
        ∃ l, In l (logs (db (snd run)))
             ∧ l_tenant_id l = t_id t ∧ l_status l = "failed"
             ∧ l_error_details l = Some err
             ∧ l_completed_at l = Some (now s)
             ∧ l_stripe_event_id l = eid)
  ∧ grows s (snd run).
Proof.
  intros run. split; [|split; [|split]].
  - intros e He. subst run.
    destruct (provision_tenant_outcome cfg user_id email plan sid cid eid s);
      simpl in He; try discriminate.
    inversion He; subst. eauto.
  - intros ot err He. subst run.
    destruct (provision_tenant_outcome cfg user_id email plan sid cid eid s)
      as [|existing err' s1 Hq Hs [Hdb _]| | tenant log app s0 e s3 Hq Hrec Hst |];
      simpl in He; try discriminate; inversion He; subst; simpl.
    + eexists. split; [reflexivity|]. split; [reflexivity|].
      apply find_some in Hq as [Hin _]. rewrite Hdb.
      by apply (In_update t_id (set_t_status FAILED) existing).
    + eexists. split; [reflexivity|]. split; [reflexivity|].
      destruct Hrec as (Hin & _).
      destruct (keeps_db_resource_steps cfg tenant plan app s0) as [Hdb _].
      rewrite Hst in Hdb. simpl in Hdb. rewrite Hdb.
      by apply (In_update t_id (set_t_status FAILED) tenant).
  - intros t err Hnone He. subst run.
    destruct (provision_tenant_outcome cfg user_id email plan sid cid eid s)
      as [|existing err' s1 Hq| | tenant log app s0 e s3 Hq Hrec Hst |];
      simpl in He; try discriminate; inversion He; subst; simpl.
    + congruence.
    + destruct Hrec as (_ & Hin & _ & Htid & _ & Hev & _ & Hnow).
      destruct (keeps_db_resource_steps cfg tenant plan app s0) as [Hdb Hn].
      rewrite Hst in Hdb, Hn. simpl in Hdb, Hn.
      exists (close_failed (py_str e) (now s3) log).
      rewrite Hdb. split.
      { by apply (In_update l_id (close_failed (py_str e) (now s3)) log). }
      simpl. repeat split; try done. congruence.
  - apply grows_provision_tenant.
Qed.

Lemma provision_tenant_failure_contract_witness :
  let run := provision_tenant default_settings 1 "alice@example.org" "pro"
               "sub_1" "cus_1" (Some "evt_1") world_api_down in
  fst run = Ok (Some (tenant_row FAILED None None), Some "Failed to create namespace")
  ∧ (∃ t, Some (tenant_row FAILED None None) = Some t ∧ t_status t = FAILED
          ∧ In t (tenants (db (snd run))))
  ∧ (∃ l, In l (logs (db (snd run)))
          ∧ l_tenant_id l = 1%nat ∧ l_status l = "failed"
          ∧ l_error_details l = Some "Failed to create namespace"
          ∧ l_completed_at l = Some 1000%nat
          ∧ l_stripe_event_id l = Some "evt_1").
Proof.
  intros run.
  destruct (provision_tenant_failure_contract default_settings 1
              "alice@example.org" "pro" "sub_1" "cus_1" (Some "evt_1")
              world_api_down) as (_ & B & C & _).
  assert (fst run = Ok (Some (tenant_row FAILED None None),
                        Some "Failed to create namespace")) as Hrun
    by (vm_compute; reflexivity).
  split; [exact Hrun|]. split.
  - exact (B _ _ Hrun).
  - apply (C (tenant_row FAILED None None) "Failed to create namespace");
      [vm_compute; reflexivity | exact Hrun].
Defined.

(** ** A concurrent duplicate *)

Lemma create_records_conflict cfg user_id plan sid cid eid s :
  existsb (λ y, String.eqb (s_stripe_subscription_id y) sid)
          (subscriptions (others s (db s))) = true →
  ∃ msg, create_records cfg user_id plan sid cid eid s
         = (Raise (IntegrityError msg), rolled_back s).
Proof.
  intros Hdup. unfold create_records.
  unfold mbind, M_bind, uuid4_hex, utcnow, gets, modify, lift_result,
    commit_tenant, mret, M_ret; simpl.
  match goal with
  | |- context [insert_tenant ?t ?st] =>
      destruct (insert_tenant_cases t st) as [[msg ->] | ->]
  end; [eexists; reflexivity|].
  unfold insert_subscription; simpl.
  repeat match goal with
         | |- context [if negb ?b then _ else _] =>
             destruct (negb b); [eexists; reflexivity|]
         | |- context [if existsb ?f ?l then _ else _] =>
             destruct (existsb f l) eqn:?; [eexists; reflexivity|]
         end.
  congruence.
Qed.

(** C4, as the spec states it, fails: when another session has committed
    the subscription between the lookup and the INSERT, the unique index
    refuses the row and the [IntegrityError] leaves [provision_tenant]; the
    existing record is not read again, no tenant is returned, and the rows
    of this session are rolled back. *)
Lemma provision_tenant_raises_on_duplicate_subscription :
  let run := provision_tenant default_settings 1 "alice@example.org" "pro"
               "sub_1" "cus_1" (Some "evt_2") world_racing in
  fst run = Raise (IntegrityError "duplicate key value violates unique constraint ix_subscriptions_stripe_subscription_id")
  ∧ tenants (db (snd run)) = [rival_tenant].
Proof. vm_compute. split; reflexivity. Qed.

(** C4 (amended). When the new-tenant path finds, at INSERT time, a
    subscription row with the same subscription reference committed by
    another session, [provision_tenant] raises [IntegrityError] to its
    caller: nothing of this session is stored and no outside call is
    made. *)
Theorem duplicate_subscription_is_raised cfg user_id email plan sid cid eid s :
  already_handled eid (db s) = false →
  query_tenant_by_subscription sid (db s) = None →
  existsb (λ y, String.eqb (s_stripe_subscription_id y) sid)
          (subscriptions (others s (db s))) = true →
  ∃ msg, provision_tenant cfg user_id email plan sid cid eid s
         = (Raise (IntegrityError msg), rolled_back s).
Proof.
  intros Hg Hq Hdup. rewrite provision_tenant_new by done.
  destruct (create_records_conflict cfg user_id plan sid cid eid s Hdup)
    as [msg ->].
  eauto.
Qed.

Lemma duplicate_subscription_is_raised_witness :
  ∃ msg, provision_tenant default_settings 1 "alice@example.org" "pro"
           "sub_1" "cus_1" (Some "evt_2") world_racing
         = (Raise (IntegrityError msg), rolled_back world_racing).
Proof.
  apply duplicate_subscription_is_raised; vm_compute; reflexivity.
Defined.

(** ** Event deduplication *)

Lemma event_processed_iff e s :
  fst (_event_processed e s) = Ok true
  ↔ ∃ l, In l (logs (db s)) ∧ l_stripe_event_id l = Some e.
Proof.
  unfold _event_processed, query_log_by_event. simpl. split.
  - intros [= H]. apply bool_decide_eq_true_1 in H as [l Hl].
    apply find_some in Hl as [Hin Hl]. apply bool_decide_eq_true_1 in Hl. eauto.
  - intros (l & Hin & Hl). f_equal. apply bool_decide_eq_true_2.
    destruct (find _ _) as [l'|] eqn:F; [eauto|].
    eapply find_none in F; [|exact Hin].
    apply bool_decide_eq_false_1 in F. contradiction.
Qed.

(** C8, as the spec states it, fails.  After an attempt that failed at the
    first resource step the check answers true for its event although the
    only row with that id is [failed] and the tenant is [FAILED], and a second
    delivery of the event returns that tenant with no error and does nothing;
    and the row is committed, [started], before any resource step has run. *)
Lemma event_recorded_before_it_is_handled :
  (let s1 := snd (provision_tenant default_settings 1 "alice@example.org" "pro"
                    "sub_1" "cus_1" (Some "evt_1") world_api_down) in
   fst (_event_processed "evt_1" s1) = Ok true
   ∧ ¬ completed_for "evt_1" (db s1)
   ∧ logs (db s1) = [log_row "failed" "Starting provisioning for tenant-01234567"
                             (Some "Failed to create namespace") (Some 1000%nat)]
   ∧ tenants (db s1) = [tenant_row FAILED None None]
   ∧ provision_tenant default_settings 1 "alice@example.org" "pro" "sub_1" "cus_1"
       (Some "evt_1") s1
     = (Ok (Some (tenant_row FAILED None None), None), s1))
  ∧ (let s0 := snd (create_records default_settings 1 "pro" "sub_1" "cus_1"
                      (Some "evt_1") fresh_world) in
     fst (_event_processed "evt_1" s0) = Ok true
     ∧ ¬ completed_for "evt_1" (db s0)
     ∧ logs (db s0) = [log_row "started" "Starting provisioning for tenant-01234567"
                               None None]
     ∧ trace s0 = []).
Proof.
  split.
  - assert (logs (db (snd (provision_tenant default_settings 1 "alice@example.org"
                             "pro" "sub_1" "cus_1" (Some "evt_1") world_api_down)))
            = [log_row "failed" "Starting provisioning for tenant-01234567"
                       (Some "Failed to create namespace") (Some 1000%nat)]) as Hl
      by (vm_compute; reflexivity).
    cbv zeta. split; [vm_compute; reflexivity|]. split; [|split; [|split]].
    + intros (l & Hin & _ & Hst). rewrite Hl in Hin.
      destruct Hin as [<- | []]. discriminate.
    + exact Hl.
    + vm_compute; reflexivity.
    + vm_compute; reflexivity.
  - assert (logs (db (snd (create_records default_settings 1 "pro" "sub_1" "cus_1"
                             (Some "evt_1") fresh_world)))
            = [log_row "started" "Starting provisioning for tenant-01234567"
                       None None]) as Hl
      by (vm_compute; reflexivity).
    cbv zeta. split; [vm_compute; reflexivity|]. split; [|split].
    + intros (l & Hin & _ & Hst). rewrite Hl in Hin.
      destruct Hin as [<- | []]. discriminate.
    + exact Hl.
    + vm_compute; reflexivity.
Qed.

(** C8 (amended). A log row carrying an event id means that an attempt for
    that event was started, not that it was handled: the check answers true
    exactly when some row carries the id, whatever its status; the new-tenant
    path commits that row, [started], before any outside call; and the check
    answers true after every attempt that returns, completed or failed. *)
Theorem event_processed_means_started cfg user_id email plan sid cid e s :
  (fst (_event_processed e s) = Ok true
   ↔ ∃ l, In l (logs (db s)) ∧ l_stripe_event_id l = Some e)
  ∧ (∀ tenant log app s0,
       create_records cfg user_id plan sid cid (Some e) s
       = (Ok (tenant, log, app), s0) →
       fst (_event_processed e s0) = Ok true
       ∧ l_status log = "started" ∧ l_stripe_event_id log = Some e
       ∧ In log (logs (db s0)) ∧ trace s0 = trace s)
  ∧ (∀ r s1,
       already_handled (Some e) (db s) = false →
       query_tenant_by_subscription sid (db s) = None →
       provision_tenant cfg user_id email plan sid cid (Some e) s = (Ok r, s1) →
       fst (_event_processed e s1) = Ok true).
Proof.
  split; [apply event_processed_iff|]. split.
  - intros tenant log app s0 Hc.
    destruct (create_records_cases cfg user_id plan sid cid (Some e) s)
      as [(t' & l' & a' & s0' & Hc' & Hrec) | (msg & Hc')];
      rewrite Hc in Hc'; [|discriminate].
    inversion Hc'; subst.
    destruct Hrec as (_ & Hin & _ & _ & Hst & Hev & Htr & _).
    repeat split; try done. apply event_processed_iff. eauto.
  - intros r s1 Hg Hq Hrun. apply event_processed_iff.
    destruct (provision_tenant_new_cases cfg user_id email plan sid cid (Some e) s
                Hg Hq)
      as [(msg & Hr)
         | [(tenant & log & app & s0 & e' & s3 & _ & Hrec & Hst & Hr)
           | (tenant & log & app & s0 & s3 & pw & s4 & _ & Hrec & Hst & Hi & Hr)]];
      cbv zeta in Hr; rewrite Hrun in Hr; inversion Hr; subst; clear Hr.
    + destruct Hrec as (_ & Hin & _ & _ & _ & Hev & _).
      destruct (keeps_db_resource_steps cfg tenant plan app s0) as [Hdb _].
      rewrite Hst in Hdb. simpl in Hdb. simpl. rewrite Hdb.
      exists (close_failed (py_str e') (now s3) log). split; [|exact Hev].
      by apply (In_update l_id (close_failed (py_str e') (now s3)) log).
    + destruct Hrec as (_ & Hin & _ & _ & _ & Hev & _).
      destruct (keeps_db_resource_steps cfg tenant plan app s0) as [Hdb _].
      rewrite Hst in Hdb. simpl in Hdb.
      destruct (run_ca_installer_total cfg (t_namespace tenant)
                  (t_helm_release_name tenant) app s3) as (pw' & s4' & Hi' & [Hdb4 _]).
      rewrite Hi in Hi'. inversion Hi'; subst.
      simpl. rewrite Hdb4, Hdb.
      exists (close_completed (t_helm_release_name tenant) (now s4') log).
      split; [|exact Hev].
      by apply (In_update l_id (close_completed _ (now s4')) log).
Qed.

Lemma event_processed_means_started_witness :
  fst (_event_processed "evt_1"
         (snd (provision_tenant default_settings 1 "alice@example.org" "pro"
                 "sub_1" "cus_1" (Some "evt_1") world_api_down)))
  = Ok true.
Proof.
  destruct (event_processed_means_started default_settings 1 "alice@example.org"
              "pro" "sub_1" "cus_1" "evt_1" world_api_down) as (_ & _ & C).
  apply (C (Some (tenant_row FAILED None None), Some "Failed to create namespace")).
  - vm_compute; reflexivity.
  - vm_compute; reflexivity.
  - apply run_eq; vm_compute; reflexivity.
Defined.

(** ** A deleted tenant *)

(** C9, as the spec states it, fails: [provision_tenant] re-enters
    provisioning for a tenant whose status is [DELETED] and moves it out of
    that status.  In the second run the resume path fails at its first step,
    the creation of the namespace, and the [except] clause stores
    [FAILED]. *)
Lemma deleted_tenant_is_not_terminal :
  (let run := provision_tenant default_settings 1 "alice@example.org" "pro"
                "sub_1" "cus_1" None world_deleted_tenant in
   tenants (db world_deleted_tenant)
   = [tenant_row DELETED (Some "s3cr3t") (Some 900%nat)]
   ∧ tenants (db (snd run)) = [tenant_row FAILED (Some "s3cr3t") (Some 900%nat)]
   ∧ trace (snd run)
     = [ReadNamespace "tenant-01234567"; SqlConnect;
        SqlExecute "SELECT SCHEMA_NAME FROM INFORMATION_SCHEMA.SCHEMATA WHERE SCHEMA_NAME=%s"
                   ["ca_01234567"]])
  ∧ (let run := provision_tenant default_settings 1 "alice@example.org" "pro"
                  "sub_1" "cus_1" None world_deleted_tenant_api_down in
     tenants (db world_deleted_tenant_api_down)
     = [tenant_row DELETED (Some "s3cr3t") (Some 900%nat)]
     ∧ fst run = Ok (Some (tenant_row FAILED (Some "s3cr3t") (Some 900%nat)),
                     Some "Failed to create namespace")
     ∧ tenants (db (snd run))
       = [tenant_row FAILED (Some "s3cr3t") (Some 900%nat)]
     ∧ trace (snd run) = [ReadNamespace "tenant-01234567";
                          CreateNamespace "tenant-01234567"]).
Proof. vm_compute. repeat split; reflexivity. Qed.

(** C9 (amended). [provision_tenant] does not treat [DELETED] as terminal: a
    tenant found in that status is handled like any other tenant that is not
    active.  The resume path is taken, and the tenant that comes back, which
    is the stored one, is [ACTIVE] or [FAILED]. *)
Theorem deleted_tenant_takes_resume_path cfg user_id email plan sid cid eid s
    existing :
  already_handled eid (db s) = false →
  query_tenant_by_subscription sid (db s) = Some existing →
  t_status existing = DELETED →
  provision_tenant cfg user_id email plan sid cid eid s
  = _resume_provisioning cfg existing plan s
  ∧ ∃ t' err s',
      provision_tenant cfg user_id email plan sid cid eid s
      = (Ok (Some t', err), s')
      ∧ (t_status t' = ACTIVE ∨ t_status t' = FAILED)
      ∧ In t' (tenants (db s')).
Proof.
  intros Hg Hq Hs.
  assert (provision_tenant cfg user_id email plan sid cid eid s
          = _resume_provisioning cfg existing plan s) as Hr.
  { apply provision_tenant_resumes; [done | done | congruence]. }
  split; [exact Hr|]. rewrite Hr.
  destruct (resume_provisioning_caught cfg existing plan s)
    as (err & s1 & -> & [Hdb _]).
  do 3 eexists. split; [reflexivity|]. split; [by right|].
  simpl. rewrite Hdb. apply find_some in Hq as [Hin _].
  by apply (In_update t_id (set_t_status FAILED) existing).
Qed.

Lemma deleted_tenant_takes_resume_path_witness :
  provision_tenant default_settings 1 "alice@example.org" "pro" "sub_1" "cus_1"
    None world_deleted_tenant
  = _resume_provisioning default_settings
      (tenant_row DELETED (Some "s3cr3t") (Some 900%nat)) "pro"
      world_deleted_tenant.
Proof.
  apply (deleted_tenant_takes_resume_path default_settings 1 "alice@example.org"
           "pro" "sub_1" "cus_1" None world_deleted_tenant
           (tenant_row DELETED (Some "s3cr3t") (Some 900%nat)));
    vm_compute; reflexivity.
Defined.

(** ** The installer step *)



(** ** The release manager client *)

Lemma chars_app a b : PyStr.chars (a +:+ b) = PyStr.chars a ++ PyStr.chars b.
Proof. induction a as [|c a IH]; simpl; [reflexivity|]. by rewrite <- IH. Qed.

Lemma str_chars s : PyStr.str (PyStr.chars s) = s.
Proof. apply string_of_list_ascii_of_string. Qed.

Lemma drop_last_snoc r c : drop_last (r +:+ String c "") = r.
Proof.
  induction r as [|a r IH]; [reflexivity|].
  simpl. rewrite IH. destruct r; reflexivity.
Qed.

Lemma name_of_filter_anchored r : name_of_filter ("^" +:+ r +:+ "$") = r.
Proof. simpl. apply drop_last_snoc. Qed.

Lemma splitlines_go_line cur l :
  forallb (λ c, negb (PyStr.is_linebreak c)) l = true →
  PyStr.splitlines_go cur (l ++ [ascii_of_nat 10]) = [rev cur ++ l].
Proof.
  revert cur. induction l as [|c l IH]; intros cur H.
  - simpl. by rewrite app_nil_r.
  - simpl in H. apply andb_true_iff in H as [Hc Hl].
    apply negb_true_iff in Hc. simpl. rewrite Hc.
    rewrite IH by done. simpl. by rewrite <- app_assoc.
Qed.

Lemma splitlines_one_line r :
  one_line r → PyStr.splitlines (r +:+ newline) = [r].
Proof.
  intros H. unfold PyStr.splitlines. rewrite chars_app.
  change (PyStr.chars newline) with [ascii_of_nat 10].
  rewrite splitlines_go_line by done. simpl. by rewrite str_chars.
Qed.

Lemma release_exists_eval r ns s :
  one_line r →
  release_exists r ns s
  = (Ok (release_listed r ns (helm s)), traced (Subprocess (list_cmd r ns)) s).
Proof.
  intros Hr. unfold release_exists, list_cmd, release_listed, subprocess_run, helm_exec.
  run_monad.
  destruct (helm_missing (helm s)); [reflexivity|]. simpl.
  unfold helm_list. rewrite name_of_filter_anchored.
  destruct (releases (helm s) !! (ns, r)) as [rel|]; [|reflexivity].
  destruct (pending rel); simpl; [reflexivity|].
  rewrite splitlines_one_line by done.
  rewrite bool_decide_eq_true_2 by (apply list_elem_of_singleton; reflexivity).
  reflexivity.
Qed.

Lemma subprocess_run_helm_upgrade x name chart y ns rest s :
  subprocess_run ("helm" :: "upgrade" :: x :: name :: chart :: y :: ns :: rest)
                 true s
  = run_upgrade ("helm" :: "upgrade" :: x :: name :: chart :: y :: ns :: rest)
                name ns s.
Proof.
  unfold run_upgrade, subprocess_run, helm_exec, helm_upgrade. run_monad.
  destruct (helm_missing (helm s)); [reflexivity|]. simpl.
  destruct (releases (helm s) !! (ns, name)) as [rel|]; simpl.
  - destruct (pending rel); simpl; [reflexivity|].
    destruct (upgrade_fault (helm s)) as [[rc err]|]; reflexivity.
  - destruct (upgrade_fault (helm s)) as [[rc err]|]; reflexivity.
Qed.

Lemma subprocess_run_upgrade cfg name ns dom plan d u p app s :
  subprocess_run (install_cmd cfg name ns dom plan d u p app) true s
  = run_upgrade (install_cmd cfg name ns dom plan d u p app) name ns s.
Proof. apply subprocess_run_helm_upgrade. Qed.

Lemma run_upgrade_Ok cmd name ns s r s1 :
  run_upgrade cmd name ns s = (Ok r, s1) → deployed name ns s1.
Proof.
  unfold run_upgrade, deployed.
  destruct (helm_missing (helm s)) eqn:Hm; [discriminate|].
  destruct (releases (helm s) !! (ns, name)) as [rel|].
  - destruct (pending rel); [discriminate|].
    destruct (upgrade_fault (helm s)) as [[rc err]|]; [discriminate|].
    intros [= _ <-]. simpl. split; [done|].
    eexists. split; [unfold next_revision; apply lookup_insert_eq | reflexivity].
  - destruct (upgrade_fault (helm s)) as [[rc err]|]; [discriminate|].
    intros [= _ <-]. simpl. split; [done|].
    eexists. split; [unfold next_revision; apply lookup_insert_eq | reflexivity].
Qed.

Lemma install_tenant_unfold cfg name ns dom plan d u p app s :
  install_tenant cfg name ns dom plan d u p app s
  = match run_upgrade (install_cmd cfg name ns dom plan d u p app) name ns s with
    | (Ok r, s1) => (Ok (true, stdout r), s1)
    | (Raise (CalledProcessError c rc err), s1) =>
        if PyStr.contains lock_signature err
        then lock_recovery cfg name ns dom plan d u p app s1
        else (Ok (false, err), s1)
    | (Raise e, s1) => (Raise e, s1)
    end.
Proof.
  unfold install_tenant, try_except. rewrite bind_unfold, subprocess_run_upgrade.
  destruct (run_upgrade _ name ns s) as [[r|e] s1]; [reflexivity|].
  destruct e as [| | | | | |c rc err| |]; try reflexivity. simpl.
  destruct (PyStr.contains lock_signature err); reflexivity.
Qed.

(** Once the lock signature is seen, the recovery either succeeds or raises:
    it has no branch that returns [(False, error)]. *)
Lemma lock_recovery_true cfg name ns dom plan d u p app s b out s2 :
  lock_recovery cfg name ns dom plan d u p app s = (Ok (b, out), s2) →
  b = true ∧ deployed name ns s2.
Proof.
  unfold lock_recovery. intros H.
  apply bind_inv in H as [(r1 & s1 & _ & H) | (e & _ & [=])].
  apply bind_inv in H as [(n & s1' & _ & H) | (e & _ & [=])].
  apply bind_inv in H as [(r2 & s3 & _ & H) | (e & _ & [=])].
  apply bind_inv in H as [(r4 & s4 & Hretry & H) | (e & _ & [=])].
  inversion H; subst. split; [reflexivity|].
  rewrite subprocess_run_upgrade in Hretry. by eapply run_upgrade_Ok.
Qed.

Lemma install_tenant_true cfg name ns dom plan d u p app s out s2 :
  install_tenant cfg name ns dom plan d u p app s = (Ok (true, out), s2) →
  deployed name ns s2.
Proof.
  rewrite install_tenant_unfold.
  destruct (run_upgrade _ name ns s) as [[r|e] s1] eqn:Hu.
  - intros [= _ <-]. by eapply run_upgrade_Ok.
  - destruct e as [| | | | | |c rc err| |]; try discriminate.
    destruct (PyStr.contains lock_signature err); [|discriminate].
    intros H. by apply lock_recovery_true in H as [_ ?].
Qed.

(** C6. On the lock signature [install_tenant] asks for the history, rolls
    back to the latest revision and runs the install once more; when that
    retry succeeds it returns [(True, output of the retry)].  When the retry
    fails, however, the failure is not returned as [(False, error)]: the
    [CalledProcessError] of the retry leaves [install_tenant], and
    [_ensure_helm_release] lets it through.  In every state, an error that
    [install_tenant] returns as [(False, error)] is one without the lock
    signature: the recovery has no run that ends in [(False, error)]. *)
Theorem install_tenant_retry_failure_is_raised :
  let calls := [Subprocess example_install_cmd;
                Subprocess ["helm"; "history"; "tenant-01234567"; "-n";
                            "tenant-01234567"; "--max=1"; "--output=json"];
                Subprocess ["helm"; "rollback"; "tenant-01234567"; "3"; "-n";
                            "tenant-01234567"];
                Subprocess example_install_cmd] in
  (fst (example_install (world_stale_lock None))
   = Ok (true, "Release tenant-01234567 has been upgraded. Happy Helming!")
   ∧ trace (snd (example_install (world_stale_lock None))) = calls)
  ∧ (fst (example_install (world_stale_lock (Some (1%positive, timed_out))))
     = Raise (CalledProcessError example_install_cmd 1 timed_out)
     ∧ trace (snd (example_install (world_stale_lock (Some (1%positive, timed_out)))))
       = calls)
  ∧ fst (_ensure_helm_release default_settings "tenant-01234567" "tenant-01234567"
           "tenant-01234567.yoursaas.com" "pro" "ca_01234567" "ca_01234567" hex_b
           (Some "tenant_01234567")
           (world_stale_lock (Some (1%positive, timed_out))))
    = Raise (CalledProcessError example_install_cmd 1 timed_out)
  ∧ (∀ cfg name ns dom plan d u p app s msg s',
       install_tenant cfg name ns dom plan d u p app s = (Ok (false, msg), s') →
       PyStr.contains lock_signature msg = false).
Proof.
  cbv zeta. split; [|split; [|split]].
  - split; vm_compute; reflexivity.
  - split; vm_compute; reflexivity.
  - vm_compute; reflexivity.
  - intros cfg name ns dom plan d u p app s msg s'.
    rewrite install_tenant_unfold.
    destruct (run_upgrade _ name ns s) as [[r|e] s1]; [discriminate|].
    destruct e as [| | | | | |c rc err| |]; try discriminate.
    destruct (PyStr.contains lock_signature err) eqn:L.
    + intros H. by apply lock_recovery_true in H as [[=] _].
    + by intros [= <- _].
Qed.

(** ** Idempotence of the resource steps *)

Lemma resources_traced c s : resources (traced c s) = resources s.
Proof. reflexivity. Qed.

Lemma create_namespace_eval ns s :
  create_namespace ns s
  = match k8s_create_fault (k8s s) with
    | Some (HttpStatus st _) => (Ok (st =? 409), traced (CreateNamespace ns) s)
    | Some (Transport cls msg) =>
        (Raise (LibraryError cls msg), traced (CreateNamespace ns) s)
    | None =>
        if decide (ns ∈ namespaces (k8s s))
        then (Ok true, traced (CreateNamespace ns) s)
        else (Ok true, add_namespace ns (traced (CreateNamespace ns) s))
    end.
Proof.
  unfold create_namespace, core_v1_create_namespace. run_monad.
  destruct (k8s_create_fault (k8s s)) as [[st r|cls msg]|]; simpl.
  - destruct (st =? 409); reflexivity.
  - reflexivity.
  - destruct (decide (ns ∈ namespaces (k8s s))); reflexivity.
Qed.

Lemma namespace_exists_eval ns s :
  namespace_exists ns s
  = match k8s_read_fault (k8s s) with
    | Some (HttpStatus st _) => (Ok false, traced (ReadNamespace ns) s)
    | Some (Transport cls msg) =>
        (Raise (LibraryError cls msg), traced (ReadNamespace ns) s)
    | None =>
        (Ok (bool_decide (ns ∈ namespaces (k8s s))), traced (ReadNamespace ns) s)
    end.
Proof.
  unfold namespace_exists, core_v1_read_namespace. run_monad.
  destruct (k8s_read_fault (k8s s)) as [[st r|cls msg]|]; simpl.
  - destruct (st =? 404); reflexivity.
  - reflexivity.
  - destruct (decide (ns ∈ namespaces (k8s s))) as [H|H]; simpl.
    + by rewrite bool_decide_eq_true_2.
    + by rewrite bool_decide_eq_false_2.
Qed.

Lemma create_namespace_twice ns s s1 :
  create_namespace ns s = (Ok true, s1) →
  ∃ s2, create_namespace ns s1 = (Ok true, s2) ∧ resources s2 = resources s1.
Proof.
  rewrite !create_namespace_eval.
  destruct (k8s_create_fault (k8s s)) as [[st r|cls msg]|] eqn:F.
  - intros [= Hst <-]. simpl. rewrite F, Hst. eauto.
  - discriminate.
  - destruct (decide (ns ∈ namespaces (k8s s))) as [Hin|Hin];
      intros [= <-]; simpl; rewrite F.
    + destruct (decide (ns ∈ namespaces (k8s s))); [eauto | contradiction].
    + destruct (decide (ns ∈ {[ns]} ∪ namespaces (k8s s))) as [|Hn];
        [eauto | exfalso; apply Hn; set_solver].
Qed.

Lemma ensure_namespace_eval ns s :
  _ensure_namespace ns s = ensure_namespace_run ns s.
Proof.
  unfold _ensure_namespace, ensure_namespace_run.
  rewrite bind_unfold, namespace_exists_eval.
  assert ((ok ← create_namespace ns;
           if negb ok then raise (Exception "Failed to create namespace")
           else pass) (traced (ReadNamespace ns) s)
          = match k8s_create_fault (k8s s) with
            | Some (HttpStatus st _) =>
                if st =? 409
                then (Ok (), traced (CreateNamespace ns) (traced (ReadNamespace ns) s))
                else (Raise (Exception "Failed to create namespace"),
                      traced (CreateNamespace ns) (traced (ReadNamespace ns) s))
            | Some (Transport cls msg) =>
                (Raise (LibraryError cls msg),
                 traced (CreateNamespace ns) (traced (ReadNamespace ns) s))
            | None =>
                if decide (ns ∈ namespaces (k8s s))
                then (Ok (), traced (CreateNamespace ns) (traced (ReadNamespace ns) s))
                else (Ok (), add_namespace ns
                               (traced (CreateNamespace ns)
                                       (traced (ReadNamespace ns) s)))
            end) as Hc.
  { rewrite bind_unfold, create_namespace_eval. simpl.
    destruct (k8s_create_fault (k8s s)) as [[st r|cls msg]|]; [| reflexivity |].
    - destruct (st =? 409); reflexivity.
    - destruct (decide (ns ∈ namespaces (k8s s))); reflexivity. }
  destruct (k8s_read_fault (k8s s)) as [[st r|cls msg]|]; simpl.
  - exact Hc.
  - reflexivity.
  - destruct (decide (ns ∈ namespaces (k8s s))) as [H|H].
    + rewrite bool_decide_eq_true_2 by done. reflexivity.
    + rewrite bool_decide_eq_false_2 by done. exact Hc.
Qed.

(** Closes the goal of a second run that succeeds in the same resources. *)
Ltac same_again :=
  simpl;
  repeat match goal with
         | H : ?x = _ |- context [match ?x with _ => _ end] => rewrite H; simpl
         | |- context [decide ?P] => destruct (decide P); simpl
         end;
  first [ by eauto
        | exfalso; set_solver ].

Lemma ensure_namespace_twice ns s s1 :
  _ensure_namespace ns s = (Ok (), s1) →
  ∃ s2, _ensure_namespace ns s1 = (Ok (), s2) ∧ resources s2 = resources s1.
Proof.
  rewrite !ensure_namespace_eval. unfold ensure_namespace_run.
  destruct (k8s_read_fault (k8s s)) as [[rst rr|rcls rmsg]|] eqn:R;
    destruct (k8s_create_fault (k8s s)) as [[st r|cls msg]|] eqn:C;
    try destruct (st =? 409) eqn:E;
    try destruct (decide (ns ∈ namespaces (k8s s)));
    try discriminate; intros [= <-]; same_again.
Qed.

Lemma ensure_database_eval d u p s :
  _ensure_database d u p s = ensure_database_run d u p s.
Proof.
  unfold _ensure_database, ensure_database_run, _database_exists,
    _create_database, pymysql_connect, sql_select_schema, sql_create_database,
    sql_create_user, sql_grant_all, sql_flush_privileges, select_schema_call,
    database_created.
  run_monad.
  destruct (sql_connect_fault (mysql s)) as [msg|] eqn:C; simpl; [reflexivity|].
  destruct (decide (d ∈ schemata (mysql s))) as [H|H]; simpl; [reflexivity|].
  rewrite C. simpl.
  destruct (sql_create_fault (mysql s)) as [msg|]; [reflexivity|].
  unfold traced, add_grant, add_principal, add_schema. simpl. reflexivity.
Qed.

Lemma ensure_database_existing d u p s :
  sql_connect_fault (mysql s) = None → d ∈ schemata (mysql s) →
  _ensure_database d u p s
  = (Ok (), traced (select_schema_call d) (traced SqlConnect s)).
Proof.
  intros Hf Hin. rewrite ensure_database_eval. unfold ensure_database_run.
  rewrite Hf. destruct (decide (d ∈ schemata (mysql s))); [reflexivity | contradiction].
Qed.

Lemma mysql_database_created d u p s :
  schemata (mysql (database_created d u p s)) = {[d]} ∪ schemata (mysql s)
  ∧ sql_connect_fault (mysql (database_created d u p s))
    = sql_connect_fault (mysql s).
Proof.
  unfold database_created, traced, add_grant, add_principal, add_schema.
  simpl. split; reflexivity.
Qed.

Lemma ensure_database_twice d u p s s1 :
  _ensure_database d u p s = (Ok (), s1) →
  ∃ s2, _ensure_database d u p s1 = (Ok (), s2) ∧ resources s2 = resources s1.
Proof.
  rewrite ensure_database_eval. unfold ensure_database_run.
  destruct (sql_connect_fault (mysql s)) as [msg|] eqn:C; [discriminate|].
  destruct (decide (d ∈ schemata (mysql s))) as [Hin|Hin].
  - intros [= <-].
    rewrite ensure_database_existing; [| exact C | exact Hin].
    eexists. split; [reflexivity|]. by rewrite !resources_traced.
  - destruct (sql_create_fault (mysql s)) as [msg|] eqn:F; [discriminate|].
    intros [= <-].
    match goal with
    | |- context [database_created d u p ?s3] =>
        destruct (mysql_database_created d u p s3) as [Hs Hc]
    end.
    rewrite ensure_database_existing.
    + eexists. split; [reflexivity|]. by rewrite !resources_traced.
    + rewrite Hc. exact C.
    + rewrite Hs. set_solver.
Qed.

Lemma release_listed_deployed r ns s :
  deployed r ns s → release_listed r ns (helm s) = true.
Proof.
  intros (Hm & rel & Hl & Hp). unfold release_listed.
  by rewrite Hm, Hl, Hp.
Qed.

Lemma ensure_helm_release_listed cfg r ns dom plan d u p app s :
  one_line r →
  release_listed r ns (helm s) = true →
  _ensure_helm_release cfg r ns dom plan d u p (Some app) s
  = (Ok (), traced (Subprocess (list_cmd r ns)) s).
Proof.
  intros Hr Hl. unfold _ensure_helm_release.
  rewrite bind_unfold, release_exists_eval, Hl by done. reflexivity.
Qed.

Lemma ensure_helm_release_twice cfg r ns dom plan d u p app s s1 :
  one_line r →
  _ensure_helm_release cfg r ns dom plan d u p (Some app) s = (Ok (), s1) →
  ∃ s2, _ensure_helm_release cfg r ns dom plan d u p (Some app) s1 = (Ok (), s2)
        ∧ resources s2 = resources s1.
Proof.
  intros Hr H.
  assert (release_listed r ns (helm s1) = true) as Hl.
  { unfold _ensure_helm_release in H.
    rewrite bind_unfold, release_exists_eval in H by done.
    destruct (release_listed r ns (helm s)) eqn:L.
    - inversion H; subst. exact L.
    - cbv iota beta in H. rewrite bind_unfold in H.
      destruct (install_tenant cfg r ns dom plan d u p app _)
        as [[[[|] out]|e] s1'] eqn:I; simpl in H; try discriminate.
      inversion H; subst.
      apply release_listed_deployed. by eapply install_tenant_true. }
  rewrite ensure_helm_release_listed by done.
  eexists. split; [reflexivity|]. by rewrite resources_traced.
Qed.

(** C7. Namespace creation, database creation and release installation are
    idempotent: when a call has succeeded, the same call made again succeeds
    and leaves the same resources (the release name being one that helm
    prints on one line).  A namespace that already exists makes
    [create_namespace] answer success on the 409 response; an existing
    database makes [_ensure_database] stop after the existence query, with no
    creation statement; a release that is listed makes [_ensure_helm_release]
    stop after [helm list], with no install. *)
Theorem resource_steps_idempotent cfg :
  (∀ ns s s1,
     create_namespace ns s = (Ok true, s1) →
     ∃ s2, create_namespace ns s1 = (Ok true, s2) ∧ resources s2 = resources s1)
  ∧ (∀ ns s s1,
       _ensure_namespace ns s = (Ok (), s1) →
       ∃ s2, _ensure_namespace ns s1 = (Ok (), s2) ∧ resources s2 = resources s1)
  ∧ (∀ d u p s s1,
       _ensure_database d u p s = (Ok (), s1) →
       ∃ s2, _ensure_database d u p s1 = (Ok (), s2)
             ∧ resources s2 = resources s1)
  ∧ (∀ r ns dom plan d u p app s s1,
       one_line r →
       _ensure_helm_release cfg r ns dom plan d u p (Some app) s = (Ok (), s1) →
       ∃ s2, _ensure_helm_release cfg r ns dom plan d u p (Some app) s1 = (Ok (), s2)
             ∧ resources s2 = resources s1)
  ∧ (∀ ns s,
       k8s_create_fault (k8s s) = None → ns ∈ namespaces (k8s s) →
       create_namespace ns s = (Ok true, traced (CreateNamespace ns) s))
  ∧ (∀ d u p s,
       sql_connect_fault (mysql s) = None → d ∈ schemata (mysql s) →
       _ensure_database d u p s
       = (Ok (), traced (select_schema_call d) (traced SqlConnect s)))
  ∧ (∀ r ns dom plan d u p app s,
       one_line r → release_listed r ns (helm s) = true →
       _ensure_helm_release cfg r ns dom plan d u p (Some app) s
       = (Ok (), traced (Subprocess (list_cmd r ns)) s)).
Proof.
  repeat apply conj.
  - apply create_namespace_twice.
  - apply ensure_namespace_twice.
  - apply ensure_database_twice.
  - intros. by eapply ensure_helm_release_twice.
  - intros ns s Hf Hin. rewrite create_namespace_eval, Hf.
    destruct (decide (ns ∈ namespaces (k8s s))); [reflexivity | contradiction].
  - intros. by apply ensure_database_existing.
  - intros. by apply ensure_helm_release_listed.
Qed.

Lemma resource_steps_idempotent_witness :
  (∃ s2, _ensure_namespace "tenant-01234567"
           (snd (_ensure_namespace "tenant-01234567" fresh_world)) = (Ok (), s2)
         ∧ resources s2
           = resources (snd (_ensure_namespace "tenant-01234567" fresh_world)))
  ∧ (∃ s2, _ensure_database "ca_01234567" "ca_01234567" hex_b
             (snd (_ensure_database "ca_01234567" "ca_01234567" hex_b fresh_world))
           = (Ok (), s2)
           ∧ resources s2
             = resources (snd (_ensure_database "ca_01234567" "ca_01234567" hex_b
                                 fresh_world)))
  ∧ (∃ s2, _ensure_helm_release default_settings "tenant-01234567"
             "tenant-01234567" "tenant-01234567.yoursaas.com" "pro" "ca_01234567"
             "ca_01234567" hex_b (Some "tenant_01234567")
             (snd (_ensure_helm_release default_settings "tenant-01234567"
                     "tenant-01234567" "tenant-01234567.yoursaas.com" "pro"
                     "ca_01234567" "ca_01234567" hex_b (Some "tenant_01234567")
                     fresh_world))
           = (Ok (), s2)
           ∧ resources s2
             = resources
                 (snd (_ensure_helm_release default_settings "tenant-01234567"
                         "tenant-01234567" "tenant-01234567.yoursaas.com" "pro"
                         "ca_01234567" "ca_01234567" hex_b (Some "tenant_01234567")
                         fresh_world))).
Proof.
  destruct (resource_steps_idempotent default_settings)
    as (_ & N & D & H & _).
  split; [|split].
  - apply (N _ fresh_world). apply run_eq. vm_compute; reflexivity.
  - apply (D _ _ _ fresh_world). apply run_eq. vm_compute; reflexivity.
  - apply (H _ _ _ _ _ _ _ _ fresh_world); [vm_compute; reflexivity|].
    apply run_eq. vm_compute; reflexivity.
Defined.

(** ** The rows of a new tenant *)

Lemma next_id_fresh ids i : In i ids → (i < next_id ids)%nat.
Proof.
  unfold next_id. induction ids as [|j ids IH]; simpl; [done|].
  intros [->|H]; [lia|]. specialize (IH H). lia.
Qed.

Lemma update_fresh {A} (key : A → nat) (f : A → A) (l : list A) i :
  (∀ y, In y l → key y ≠ i) →
  map (λ y, if Nat.eqb (key y) i then f y else y) l = l.
Proof.
  intros H. induction l as [|y l IH]; simpl; [done|].
  rewrite IH by (intros; apply H; by right).
  destruct (Nat.eqb_spec (key y) i) as [E|]; [|done].
  exfalso. apply (H y); [by left | done].
Qed.

Lemma update_snoc {A} (key : A → nat) (f : A → A) (l : list A) x i :
  key x = i → i = next_id (map key l) →
  map (λ y, if Nat.eqb (key y) i then f y else y) (l ++ [x]) = l ++ [f x].
Proof.
  intros Hx Hi. rewrite map_app. simpl. rewrite Hx, Nat.eqb_refl.
  rewrite update_fresh; [done|].
  intros y Hy E.
  pose proof (next_id_fresh (map key l) (key y) (in_map key l y Hy)) as Hlt.
  rewrite E, Hi in Hlt. by apply Nat.lt_irrefl in Hlt.
Qed.

Lemma insert_tenant_Ok t st t' st' :
  insert_tenant t st = Ok (t', st') →
  existsb (λ u, Nat.eqb (u_id u) (t_user_id t)) (users st) = true
  ∧ existsb (λ y, String.eqb (t_namespace y) (t_namespace t)) (tenants st) = false
  ∧ existsb (λ y, String.eqb (t_domain y) (t_domain t)) (tenants st) = false
  ∧ t' = set_t_id (next_id (map t_id (tenants st))) t
  ∧ st' = set_tenants (tenants st ++ [t']) st.
Proof.
  unfold insert_tenant.
  destruct (existsb _ (users st)); simpl; [|discriminate].
  destruct (existsb _ (tenants st)); [discriminate|].
  destruct (existsb _ (tenants st)); [discriminate|].
  intros [= <- <-]. done.
Qed.

Lemma insert_subscription_Ok x st x' st' :
  insert_subscription x st = Ok (x', st') →
  existsb (λ t, Nat.eqb (t_id t) (s_tenant_id x)) (tenants st) = true
  ∧ existsb (λ y, Nat.eqb (s_tenant_id y) (s_tenant_id x)) (subscriptions st) = false
  ∧ existsb (λ y, String.eqb (s_stripe_subscription_id y)
                             (s_stripe_subscription_id x)) (subscriptions st) = false
  ∧ x' = set_s_id (next_id (map s_id (subscriptions st))) x
  ∧ st' = set_subscriptions (subscriptions st ++ [x']) st.
Proof.
  unfold insert_subscription.
  destruct (existsb _ (tenants st)); simpl; [|discriminate].
  destruct (existsb _ (subscriptions st)); [discriminate|].
  destruct (existsb _ (subscriptions st)); [discriminate|].
  intros [= <- <-]. done.
Qed.

Lemma insert_log_Ok l st l' st' :
  insert_log l st = Ok (l', st') →
  l' = set_l_id (next_id (map l_id (logs st))) l
  ∧ st' = set_logs (logs st ++ [l']) st.
Proof.
  unfold insert_log.
  destruct (existsb _ (tenants st)); simpl; [|discriminate].
  intros [= <- <-]. done.
Qed.

(** The state and the rows [create_records] returns with. *)
Lemma create_records_store cfg user_id plan sid cid eid s tenant log app s0 :
  create_records cfg user_id plan sid cid eid s = (Ok (tenant, log, app), s0) →
  ∃ x, new_rows (others s (db s)) sid cid eid tenant x log
       ∧ s0 = set_db (stored_by (others s (db s)) tenant x log)
                (set_uuid_pos (S (S (uuid_pos s))) s)
       ∧ t_status tenant = PROVISIONING
       ∧ l_status log = "started".
Proof.
  unfold create_records.
  unfold mbind, M_bind, uuid4_hex, utcnow, gets, modify, lift_result,
    commit_tenant, mret, M_ret; simpl.
  match goal with
  | |- context [insert_tenant ?t ?st] =>
      destruct (insert_tenant t st) as [[t' st1]|] eqn:Ht; [|discriminate]
  end.
  apply insert_tenant_Ok in Ht as (Hu & Hn & Hd & -> & ->).
  match goal with
  | |- context [insert_subscription ?t ?st] =>
      destruct (insert_subscription t st) as [[x' st2]|] eqn:Hx; [|discriminate]
  end.
  apply insert_subscription_Ok in Hx as (_ & Hx1 & Hx2 & -> & ->).
  match goal with
  | |- context [insert_log ?t ?st] =>
      destruct (insert_log t st) as [[l' st3]|] eqn:Hl; [|discriminate]
  end.
  apply insert_log_Ok in Hl as (-> & ->).
  intros [= <- <- <- <-].
  eexists. split; [|split; [|split; reflexivity]]; cycle 1.
  - unfold update_tenant, stored_by, set_db; simpl.
    match goal with
    | |- context [map (λ y, if (t_id y =? ?i)%nat then _ else _) (?l ++ [?t])] =>
        rewrite (update_snoc t_id (set_t_status PROVISIONING) l t i)
          by reflexivity
    end.
    reflexivity.
  - unfold new_rows. simpl. repeat split; try reflexivity; assumption.
Qed.

Lemma update_stored st sid cid eid t x l g f :
  new_rows st sid cid eid t x l →
  update_log (l_id l) f (update_tenant (t_id t) g (stored_by st t x l))
  = stored_by st (g t) x (f l).
Proof.
  intros (Ht & _ & Hl & _). unfold update_log, update_tenant, stored_by; simpl.
  rewrite (update_snoc t_id g (tenants st) t (t_id t)) by done.
  rewrite (update_snoc l_id f (logs st) l (l_id l)) by done.
  reflexivity.
Qed.

Lemma new_rows_closed st sid cid eid t x l g st' msg err at_ :
  new_rows st sid cid eid t x l →
  (g = set_t_status FAILED ∨ ∃ pw n, g = activate pw n) →
  new_rows st sid cid eid (g t) x (close_log st' msg err at_ l).
Proof.
  intros H [-> | (pw & n & ->)]; exact H.
Qed.

(** The store a new-path run returns with. *)
Lemma provision_tenant_new_store cfg user_id email plan sid cid eid s t err s' :
  already_handled eid (db s) = false →
  query_tenant_by_subscription sid (db s) = None →
  provision_tenant cfg user_id email plan sid cid eid s = (Ok (Some t, err), s') →
  ∃ x l, new_rows (others s (db s)) sid cid eid t x l
         ∧ db s' = stored_by (others s (db s)) t x l
         ∧ ((t_status t = ACTIVE ∧ err = None ∧ l_status l = "completed")
            ∨ (t_status t = FAILED ∧ is_Some err ∧ l_status l = "failed"
               ∧ l_error_details l = err)).
Proof.
  intros Hh Hq Hrun.
  destruct (provision_tenant_new_cases cfg user_id email plan sid cid eid s Hh Hq)
    as [(msg & H) | [(t0 & l0 & app & s0 & e & s3 & Hc & _ & Hs & H)
                    | (t0 & l0 & app & s0 & s3 & pw & s4 & Hc & _ & Hs & Hi & H)]];
    cbv zeta in H; rewrite Hrun in H; [discriminate | |].
  - injection H as -> -> ->.
    apply create_records_store in Hc as (x & Hrows & -> & Hst & Hl).
    pose proof (keeps_db_resource_steps cfg t0 plan app
                  (set_db (stored_by (others s (db s)) t0 x l0)
                     (set_uuid_pos (S (S (uuid_pos s))) s))) as [Hdb _].
    rewrite Hs in Hdb. simpl in Hdb.
    exists x, (close_failed (py_str e) (now s3) l0). split; [|split].
    + apply new_rows_closed; [done | by left].
    + simpl. rewrite Hdb. eapply update_stored; eauto.
    + right. repeat split; eauto.
  - injection H as -> -> ->.
    apply create_records_store in Hc as (x & Hrows & -> & Hst & Hl).
    pose proof (keeps_db_resource_steps cfg t0 plan app
                  (set_db (stored_by (others s (db s)) t0 x l0)
                     (set_uuid_pos (S (S (uuid_pos s))) s))) as [Hdb _].
    rewrite Hs in Hdb. simpl in Hdb.
    destruct (run_ca_installer_total cfg (t_namespace t0) (t_helm_release_name t0)
                app s3) as (pw' & s4' & Hi' & [Hdb4 _]).
    rewrite Hi in Hi'. injection Hi' as <- <-.
    exists x, (close_completed (t_helm_release_name t0) (now s4) l0).
    split; [|split].
    + apply new_rows_closed; [done | right; eauto].
    + simpl. rewrite Hdb4, Hdb. eapply update_stored; eauto.
    + left. done.
Qed.

(** ** The constraints of the store *)

Lemma existsb_nat_notin {A} (key : A → nat) (v : nat) (l : list A) :
  existsb (λ y, Nat.eqb (key y) v) l = false → ¬ In v (map key l).
Proof.
  intros H Hin. apply in_map_iff in Hin as (y & Hy & Hin).
  assert (existsb (λ y, Nat.eqb (key y) v) l = true); [|congruence].
  apply existsb_exists. exists y. split; [done|]. by apply Nat.eqb_eq.
Qed.

Lemma existsb_string_notin {A} (key : A → string) (v : string) (l : list A) :
  existsb (λ y, String.eqb (key y) v) l = false → ¬ In v (map key l).
Proof.
  intros H Hin. apply in_map_iff in Hin as (y & Hy & Hin).
  assert (existsb (λ y, String.eqb (key y) v) l = true); [|congruence].
  apply existsb_exists. exists y. split; [done|]. by apply String.eqb_eq.
Qed.

Lemma existsb_nat_in {A} (key : A → nat) (v : nat) (l : list A) :
  existsb (λ y, Nat.eqb (key y) v) l = true → In v (map key l).
Proof.
  intros H. apply existsb_exists in H as (y & Hy & E).
  apply Nat.eqb_eq in E. subst. by apply in_map.
Qed.

Lemma NoDup_snoc_fresh {A} (l : list A) (v : A) :
  NoDup l → ¬ In v l → NoDup (l ++ [v]).
Proof.
  intros H Hv. apply NoDup_app. split; [done|]. split.
  - intros y Hy Hy'. apply list_elem_of_singleton in Hy'. subst.
    apply Hv. by apply list_elem_of_In.
  - apply NoDup_singleton.
Qed.

Lemma next_id_notin ids : ¬ In (next_id ids) ids.
Proof. intros H. apply next_id_fresh in H. lia. Qed.

(** The rows of a new tenant keep the constraints. *)
Lemma store_ok_stored_by st sid cid eid t x l :
  store_ok st → new_rows st sid cid eid t x l → store_ok (stored_by st t x l).
Proof.
  intros (T1 & T2 & T3 & S1 & S2 & S3 & L1 & F1 & F2 & F3).
  intros (Ht & Hx & Hl & Hxt & Hlt & Hsid & _ & _ & _ & _ & Hu & Hn & Hd & Hs1 & Hs2).
  unfold store_ok, stored_by; simpl. rewrite !map_app; simpl.
  repeat split.
  - apply NoDup_snoc_fresh; [done|]. rewrite Ht. apply next_id_notin.
  - apply NoDup_snoc_fresh; [done|]. by apply existsb_string_notin.
  - apply NoDup_snoc_fresh; [done|]. by apply existsb_string_notin.
  - apply NoDup_snoc_fresh; [done|]. rewrite Hx. apply next_id_notin.
  - apply NoDup_snoc_fresh; [done|]. rewrite Hxt. by apply existsb_nat_notin.
  - apply NoDup_snoc_fresh; [done|]. rewrite Hsid. by apply existsb_string_notin.
  - apply NoDup_snoc_fresh; [done|]. rewrite Hl. apply next_id_notin.
  - intros y Hy. apply in_app_iff in Hy as [Hy|[<-|[]]]; [by apply F1|].
    by apply existsb_nat_in.
  - intros y Hy. apply in_app_iff. apply in_app_iff in Hy as [Hy|[<-|[]]].
    + left. by apply F2.
    + right. left. done.
  - intros y Hy. apply in_app_iff. apply in_app_iff in Hy as [Hy|[<-|[]]].
    + left. by apply F3.
    + right. left. done.
Qed.

(** A change of status keeps the constraints. *)
Lemma store_ok_update_status st i v :
  store_ok st → store_ok (update_tenant i (set_t_status v) st).
Proof.
  intros (T1 & T2 & T3 & S1 & S2 & S3 & L1 & F1 & F2 & F3).
  unfold store_ok, update_tenant; simpl.
  set (g := λ t, if Nat.eqb (t_id t) i then set_t_status v t else t).
  assert (∀ {B} (k : Tenant → B),
            (∀ t, k (set_t_status v t) = k t) →
            map k (map g (tenants st)) = map k (tenants st)) as Hk.
  { intros B k Hk. rewrite map_map. apply map_ext. intros t. unfold g.
    destruct (Nat.eqb (t_id t) i); [apply Hk | done]. }
  rewrite !Hk by done. repeat split; try done.
  intros t Ht. apply in_map_iff in Ht as (t0 & <- & Ht0).
  replace (t_user_id (g t0)) with (t_user_id t0); [by apply F1|].
  unfold g. by destruct (Nat.eqb (t_id t0) i).
Qed.

(** X1. Constraints of the store are an invariant of [provision_tenant]. *)
Theorem provision_tenant_keeps_constraints cfg user_id email plan sid cid eid s :
  store_ok (db s) →
  store_ok (others s (db s)) →
  store_ok (db (snd (provision_tenant cfg user_id email plan sid cid eid s))).
Proof.
  intros Hok Hoth.
  destruct (already_handled eid (db s)) eqn:Hh.
  { by rewrite provision_tenant_handled. }
  destruct (query_tenant_by_subscription sid (db s)) as [existing|] eqn:Hq.
  - destruct (decide (t_status existing = ACTIVE)) as [Ha|Ha].
    + by rewrite (provision_tenant_active _ _ _ _ _ _ _ _ existing).
    + rewrite (provision_tenant_resumes _ _ _ _ _ _ _ _ existing) by done.
      destruct (resume_provisioning_caught cfg existing plan s)
        as (err & s1 & -> & [Hdb _]).
      simpl. rewrite Hdb. by apply store_ok_update_status.
  - destruct (provision_tenant cfg user_id email plan sid cid eid s)
      as [[[[t|] err]|e] s'] eqn:Hrun.
    + destruct (provision_tenant_new_store _ _ _ _ _ _ _ _ _ _ _ Hh Hq Hrun)
        as (x & l & Hrows & Hdb & _).
      simpl. rewrite Hdb. eapply store_ok_stored_by; eauto.
    + exfalso.
      destruct (provision_tenant_new_cases cfg user_id email plan sid cid eid s Hh Hq)
        as [(msg & H) | [(t0 & l0 & app & s0 & e & s3 & _ & _ & _ & H)
                        | (t0 & l0 & app & s0 & s3 & pw & s4 & _ & _ & _ & _ & H)]];
        cbv zeta in H; rewrite Hrun in H; discriminate.
    + destruct (provision_tenant_new_cases cfg user_id email plan sid cid eid s Hh Hq)
        as [(msg & H) | [(t0 & l0 & app & s0 & e' & s3 & _ & _ & _ & H)
                        | (t0 & l0 & app & s0 & s3 & pw & s4 & _ & _ & _ & _ & H)]];
        cbv zeta in H; rewrite Hrun in H; try discriminate.
      injection H as -> ->. exact Hoth.
Qed.

(** The store of the example worlds satisfies the constraints. *)
Lemma store_ok_store_with t l :
  t_id t = 1%nat → t_user_id t = 1%nat → l_tenant_id l = 1%nat →
  store_ok (store_with t l).
Proof.
  intros Ht Hu Hl. unfold store_ok, store_with; simpl.
  repeat split; try apply NoDup_singleton.
  - intros y [<-|[]]. left. by rewrite Hu.
  - intros y [<-|[]]. left. by rewrite Ht.
  - intros y [<-|[]]. left. by rewrite Ht, Hl.
Qed.

Lemma provision_tenant_keeps_constraints_witness :
  store_ok (db (snd (provision_tenant default_settings 1 "alice@example.org" "pro"
                       "sub_1" "cus_1" (Some "evt_7") world_failed_tenant))).
Proof.
  apply (provision_tenant_keeps_constraints default_settings 1 "alice@example.org"
           "pro" "sub_1" "cus_1" (Some "evt_7") world_failed_tenant).
  - apply store_ok_store_with; reflexivity.
  - apply store_ok_store_with; reflexivity.
Defined.

(** ** A second call for a subscription *)

Lemma find_snoc {A} (P : A → bool) (l : list A) (t : A) :
  (∀ y, In y l → P y = false) → P t = true → find P (l ++ [t]) = Some t.
Proof.
  intros Hl Ht. induction l as [|y l IH]; simpl.
  - by rewrite Ht.
  - rewrite (Hl y) by (by left). apply IH. intros. apply Hl. by right.
Qed.

Lemma find_app_Some {A} (P : A → bool) (l : list A) (t : A) :
  P t = true → is_Some (find P (l ++ [t])).
Proof.
  intros Ht. induction l as [|y l IH]; simpl.
  - rewrite Ht. eauto.
  - destruct (P y); eauto.
Qed.

(** After a new-path run the tenant of the subscription is the new one. *)
Lemma query_stored_by st sid cid eid t x l :
  new_rows st sid cid eid t x l →
  query_tenant_by_subscription sid (stored_by st t x l) = Some t.
Proof.
  intros (Ht & _ & _ & Hxt & _ & Hsid & _ & _ & _ & _ & _ & _ & _ & _ & Hs2).
  unfold query_tenant_by_subscription, stored_by; simpl.
  apply find_snoc.
  - intros y Hy. unfold tenant_has_subscription; simpl.
    rewrite existsb_app; simpl. rewrite Hxt, Ht.
    replace (Nat.eqb (next_id (map t_id (tenants st))) (t_id y)) with false.
    2:{ symmetry. apply Nat.eqb_neq. intros E.
        apply (next_id_notin (map t_id (tenants st))). rewrite E. by apply in_map. }
    simpl. rewrite orb_false_r.
    apply not_true_is_false. intros H. apply existsb_exists in H as (z & Hz & E).
    apply andb_true_iff in E as [_ E].
    assert (existsb (λ y, String.eqb (s_stripe_subscription_id y) sid)
              (subscriptions st) = true); [|congruence].
    apply existsb_exists. eauto.
  - unfold tenant_has_subscription; simpl. rewrite existsb_app; simpl.
    rewrite Hxt, Nat.eqb_refl, Hsid, String.eqb_refl. simpl.
    by rewrite orb_true_r.
Qed.

Lemma already_handled_stored_by st sid cid eid t x l :
  new_rows st sid cid eid t x l → truthy eid = true →
  already_handled eid (stored_by st t x l) = true.
Proof.
  intros (_ & _ & _ & _ & _ & _ & _ & _ & He & _) Ht.
  destruct eid as [e|]; [|discriminate]. unfold already_handled.
  rewrite Ht. simpl. apply bool_decide_eq_true_2.
  unfold query_log_by_event, stored_by; simpl.
  apply find_app_Some. by apply bool_decide_eq_true_2.
Qed.

(** X2. Once [provision_tenant] has created the tenant of a subscription, a
    second call for the subscription returns that tenant, reports no error
    and changes nothing, whenever the first call ended without error or the
    two calls carry the same non-empty event id. *)
Theorem provision_tenant_second_call cfg user_id email plan sid cid eid s t err s'
    user_id2 email2 plan2 cid2 eid2 :
  already_handled eid (db s) = false →
  query_tenant_by_subscription sid (db s) = None →
  provision_tenant cfg user_id email plan sid cid eid s = (Ok (Some t, err), s') →
  err = None ∨ (truthy eid = true ∧ eid2 = eid) →
  provision_tenant cfg user_id2 email2 plan2 sid cid2 eid2 s'
  = (Ok (Some t, None), s').
Proof.
  intros Hh Hq Hrun Hc.
  destruct (provision_tenant_new_store _ _ _ _ _ _ _ _ _ _ _ Hh Hq Hrun)
    as (x & l & Hrows & Hdb & Hst).
  pose proof (query_stored_by _ _ _ _ _ _ _ Hrows) as Hq'. rewrite <- Hdb in Hq'.
  destruct Hc as [-> | [Ht ->]].
  - destruct Hst as [(Ha & _) | (_ & [? [=]] & _)].
    by apply provision_tenant_active.
  - rewrite <- Hq'. apply provision_tenant_handled.
    rewrite Hdb. by eapply already_handled_stored_by.
Qed.

Lemma provision_tenant_second_call_witness :
  provision_tenant default_settings 1 "alice@example.org" "museum" "sub_1" "cus_9"
    None
    (snd (provision_tenant default_settings 1 "alice@example.org" "pro" "sub_1"
            "cus_1" (Some "evt_1") fresh_world))
  = (Ok (Some (tenant_row ACTIVE (Some "s3cr3t") (Some 1000%nat)), None),
     snd (provision_tenant default_settings 1 "alice@example.org" "pro" "sub_1"
            "cus_1" (Some "evt_1") fresh_world)).
Proof.
  apply (provision_tenant_second_call default_settings 1 "alice@example.org" "pro"
           "sub_1" "cus_1" (Some "evt_1") fresh_world _ None).
  - vm_compute; reflexivity.
  - vm_compute; reflexivity.
  - apply run_eq. vm_compute; reflexivity.
  - left; reflexivity.
Defined.

(** ** What the resource steps establish *)

Lemma run_ca_installer_resources cfg ns tn app s :
  resources (snd (_run_ca_installer cfg ns tn app s)) = resources s.
Proof.
  rewrite run_ca_installer_unfold.
  destruct (kubectl_run s (get_pod_cmd ns tn)) as [r|e]; [|reflexivity].
  cbv zeta. destruct (String.eqb (PyStr.strip (stdout r)) ""); [reflexivity|].
  destruct (kubectl_run s (installer_cmd cfg ns _ app)) as [r2|e]; [|reflexivity].
  destruct (negb (returncode r2 =? 0)); [reflexivity|].
  destruct (find has_marker _); reflexivity.
Qed.

(** The namespace step touches the cluster only. *)
Lemma ensure_namespace_frame ns s :
  let s1 := snd (_ensure_namespace ns s) in
  mysql s1 = mysql s ∧ helm s1 = helm s ∧ db s1 = db s
  ∧ kubectl_run s1 = kubectl_run s.
Proof.
  rewrite ensure_namespace_eval. unfold ensure_namespace_run.
  destruct (k8s_read_fault (k8s s)) as [[]|];
    destruct (k8s_create_fault (k8s s)) as [[st ?|]|];
    try destruct (st =? 409); try destruct (decide _); simpl; done.
Qed.

Lemma ensure_namespace_healthy ns s :
  k8s_read_fault (k8s s) = None → k8s_create_fault (k8s s) = None →
  ∃ s1, _ensure_namespace ns s = (Ok (), s1) ∧ ns ∈ namespaces (k8s s1).
Proof.
  intros Hr Hc. rewrite ensure_namespace_eval. unfold ensure_namespace_run.
  rewrite Hr, Hc. destruct (decide (ns ∈ namespaces (k8s s))).
  - eexists. split; [reflexivity | done].
  - eexists. split; [reflexivity|]. simpl.
    apply elem_of_union_l. by apply elem_of_singleton.
Qed.

(** The database step touches the MySQL server only. *)
Lemma ensure_database_frame d u p s :
  let s1 := snd (_ensure_database d u p s) in
  k8s s1 = k8s s ∧ helm s1 = helm s ∧ db s1 = db s
  ∧ kubectl_run s1 = kubectl_run s.
Proof.
  rewrite ensure_database_eval. unfold ensure_database_run.
  destruct (sql_connect_fault (mysql s)); [done|].
  destruct (decide _); [done|].
  destruct (sql_create_fault (mysql s)); done.
Qed.

Lemma ensure_database_Ok d u p s s1 :
  _ensure_database d u p s = (Ok (), s1) → d ∈ schemata (mysql s1).
Proof.
  rewrite ensure_database_eval. unfold ensure_database_run.
  destruct (sql_connect_fault (mysql s)); [discriminate|].
  destruct (decide _) as [Hin|].
  - intros [= <-]. done.
  - destruct (sql_create_fault (mysql s)); [discriminate|].
    intros [= <-].
    destruct (mysql_database_created d u p
                (traced (SqlExecute ("CREATE DATABASE IF NOT EXISTS `" +:+ d +:+ "`;") [])
                   (traced SqlConnect (traced (select_schema_call d) (traced SqlConnect s)))))
      as [-> _].
    apply elem_of_union_l. by apply elem_of_singleton.
Qed.

Lemma ensure_database_healthy d u p s :
  sql_connect_fault (mysql s) = None → sql_create_fault (mysql s) = None →
  ∃ s1, _ensure_database d u p s = (Ok (), s1).
Proof.
  intros Hc Hf. rewrite ensure_database_eval. unfold ensure_database_run.
  rewrite Hc, Hf. destruct (decide _); eauto.
Qed.

Lemma release_listed_is_deployed r ns s :
  release_listed r ns (helm s) = true → deployed r ns s.
Proof.
  unfold release_listed, deployed. intros H.
  apply andb_true_iff in H as [Hm H]. apply negb_true_iff in Hm.
  destruct (releases (helm s) !! (ns, r)) as [rel|]; [|discriminate].
  apply negb_true_iff in H. eauto.
Qed.

(** When the release step returns, the release is deployed. *)
Lemma ensure_helm_release_Ok cfg r ns dom plan d u p app s s1 :
  one_line r →
  _ensure_helm_release cfg r ns dom plan d u p (Some app) s = (Ok (), s1) →
  deployed r ns s1.
Proof.
  intros Hr. unfold _ensure_helm_release.
  rewrite bind_unfold, release_exists_eval by done.
  destruct (release_listed r ns (helm s)) eqn:Hl.
  - intros [= <-]. by apply release_listed_is_deployed.
  - rewrite bind_unfold.
    destruct (install_tenant cfg r ns dom plan d u p app _) as [[[[] msg]|e] s2] eqn:Hi;
      simpl; try discriminate.
    intros [= <-]. by eapply install_tenant_true.
Qed.

(** What [resource_steps] establishes when it returns. *)
Lemma resource_steps_Ok cfg t plan app s s3 :
  one_line (t_helm_release_name t) →
  resource_steps cfg t plan app s = (Ok (), s3) →
  t_db_name t ∈ schemata (mysql s3)
  ∧ deployed (t_helm_release_name t) (t_namespace t) s3
  ∧ (k8s_read_fault (k8s s) = None → k8s_create_fault (k8s s) = None →
     t_namespace t ∈ namespaces (k8s s3)).
Proof.
  intros Hr. unfold resource_steps. intros H.
  apply bind_inv in H as [([] & s1 & H1 & H) | (e & _ & [=])].
  apply bind_inv in H as [([] & s2 & H2 & H) | (e & _ & [=])].
  pose proof (grows_ensure_helm_release cfg (t_helm_release_name t) (t_namespace t)
                (t_domain t) plan (t_db_name t) (t_db_user t) (t_db_password t)
                (Some app) s2) as G3.
  pose proof (grows_ensure_database (t_db_name t) (t_db_user t) (t_db_password t) s1)
    as G2.
  rewrite H in G3. rewrite H2 in G2. simpl in G2, G3.
  destruct G3 as (N3 & S3 & _). destruct G2 as (N2 & _).
  split; [|split].
  - apply S3. by eapply ensure_database_Ok.
  - by eapply ensure_helm_release_Ok.
  - intros Hf1 Hf2.
    destruct (ensure_namespace_healthy (t_namespace t) s Hf1 Hf2) as (s1' & E & Hin).
    rewrite H1 in E. injection E as <-. apply N3, N2, Hin.
Qed.

Lemma release_exists_total r ns s :
  ∃ b, release_exists r ns s = (Ok b, traced (Subprocess (list_cmd r ns)) s).
Proof.
  unfold release_exists, list_cmd, subprocess_run, helm_exec.
  run_monad.
  destruct (helm_missing (helm s)); simpl; eauto.
Qed.

Lemma run_upgrade_healthy cmd name ns s :
  helm_missing (helm s) = false → upgrade_fault (helm s) = None →
  (∀ k rel, releases (helm s) !! k = Some rel → pending rel = false) →
  ∃ r s1, run_upgrade cmd name ns s = (Ok r, s1).
Proof.
  intros Hm Hf Hp. unfold run_upgrade. rewrite Hm, Hf.
  destruct (releases (helm s) !! (ns, name)) as [rel|] eqn:E; [|eauto].
  rewrite (Hp _ _ E). eauto.
Qed.

Lemma ensure_helm_release_healthy cfg r ns dom plan d u p app s :
  helm_missing (helm s) = false → upgrade_fault (helm s) = None →
  (∀ k rel, releases (helm s) !! k = Some rel → pending rel = false) →
  ∃ s1, _ensure_helm_release cfg r ns dom plan d u p (Some app) s = (Ok (), s1).
Proof.
  intros Hm Hf Hp. unfold _ensure_helm_release. rewrite bind_unfold.
  destruct (release_exists_total r ns s) as [b ->].
  destruct b; [eauto|]. rewrite bind_unfold, install_tenant_unfold.
  destruct (run_upgrade_healthy (install_cmd cfg r ns dom plan d u p app) r ns
              (traced (Subprocess (list_cmd r ns)) s) Hm Hf Hp) as (res & s1 & ->).
  simpl. eauto.
Qed.

Lemma resource_steps_healthy cfg t plan app s :
  healthy s → ∃ s3, resource_steps cfg t plan app s = (Ok (), s3).
Proof.
  intros (K1 & K2 & M1 & M2 & H1 & H2 & H3). unfold resource_steps.
  destruct (ensure_namespace_healthy (t_namespace t) s K1 K2) as (s1 & E1 & _).
  pose proof (ensure_namespace_frame (t_namespace t) s) as F1.
  rewrite E1 in F1. simpl in F1. destruct F1 as (Fm & Fh & _).
  rewrite bind_unfold, E1.
  destruct (ensure_database_healthy (t_db_name t) (t_db_user t) (t_db_password t) s1)
    as (s2 & E2); [by rewrite Fm | by rewrite Fm |].
  pose proof (ensure_database_frame (t_db_name t) (t_db_user t) (t_db_password t) s1)
    as F2.
  rewrite E2 in F2. simpl in F2. destruct F2 as (_ & Fh2 & _).
  rewrite bind_unfold, E2.
  apply ensure_helm_release_healthy; rewrite Fh2, Fh; done.
Qed.

(** X3. A tenant that [provision_tenant] creates and returns without error is
    [ACTIVE], and what it stands for exists: its database is on the MySQL
    server, its release is deployed and listed by helm, and, when the
    cluster API answers, its namespace is in the cluster. *)
Theorem active_tenant_has_resources cfg user_id email plan sid cid eid s t s' :
  already_handled eid (db s) = false →
  query_tenant_by_subscription sid (db s) = None →
  provision_tenant cfg user_id email plan sid cid eid s = (Ok (Some t, None), s') →
  one_line (t_helm_release_name t) →
  t_status t = ACTIVE
  ∧ t_db_name t ∈ schemata (mysql s')
  ∧ deployed (t_helm_release_name t) (t_namespace t) s'
  ∧ (k8s_read_fault (k8s s) = None → k8s_create_fault (k8s s) = None →
     t_namespace t ∈ namespaces (k8s s')).
Proof.
  intros Hh Hq Hrun Hr.
  destruct (provision_tenant_new_cases cfg user_id email plan sid cid eid s Hh Hq)
    as [(msg & H) | [(t0 & l0 & app & s0 & e & s3 & Hc & _ & Hs & H)
                    | (t0 & l0 & app & s0 & s3 & pw & s4 & Hc & _ & Hs & Hi & H)]];
    cbv zeta in H; rewrite Hrun in H; try discriminate.
  injection H as -> ->.
  apply create_records_store in Hc as (x & _ & -> & _).
  pose proof (run_ca_installer_resources cfg (t_namespace t0)
                (t_helm_release_name t0) app s3) as Hres.
  rewrite Hi in Hres. simpl in Hres. injection Hres as Hk Hm Hhelm _.
  destruct (resource_steps_Ok cfg t0 plan app _ s3 Hr Hs) as (D & R & N).
  split; [reflexivity|]. simpl. rewrite Hm, Hk. split; [done|]. split; [|done].
  destruct R as (R1 & R2). unfold deployed. simpl. rewrite Hhelm. done.
Qed.

Lemma active_tenant_has_resources_witness :
  let s' := snd (provision_tenant default_settings 1 "alice@example.org" "pro"
                   "sub_1" "cus_1" (Some "evt_1") fresh_world) in
  let t := tenant_row ACTIVE (Some "s3cr3t") (Some 1000%nat) in
  t_status t = ACTIVE
  ∧ t_db_name t ∈ schemata (mysql s')
  ∧ deployed (t_helm_release_name t) (t_namespace t) s'
  ∧ (k8s_read_fault (k8s fresh_world) = None →
     k8s_create_fault (k8s fresh_world) = None →
     t_namespace t ∈ namespaces (k8s s')).
Proof.
  apply (active_tenant_has_resources default_settings 1 "alice@example.org" "pro"
           "sub_1" "cus_1" (Some "evt_1") fresh_world).
  - vm_compute; reflexivity.
  - vm_compute; reflexivity.
  - apply run_eq. vm_compute; reflexivity.
  - vm_compute; reflexivity.
Defined.

(** X4. With every collaborator healthy, the only way [provision_tenant] can
    fail for a new subscription is an INSERT refused by the store: otherwise
    it returns the tenant [ACTIVE] and no error, whatever kubectl answers to
    the installer. *)
Theorem healthy_world_provisions cfg user_id email plan sid cid eid s :
  healthy s →
  already_handled eid (db s) = false →
  query_tenant_by_subscription sid (db s) = None →
  (∃ msg, provision_tenant cfg user_id email plan sid cid eid s
          = (Raise (IntegrityError msg), rolled_back s))
  ∨ (∃ t s', provision_tenant cfg user_id email plan sid cid eid s
             = (Ok (Some t, None), s')
             ∧ t_status t = ACTIVE ∧ t_deployed_at t = Some (now s')
             ∧ query_tenant_by_subscription sid (db s') = Some t).
Proof.
  intros Hw Hh Hq.
  destruct (provision_tenant_new_cases cfg user_id email plan sid cid eid s Hh Hq)
    as [(msg & H) | [(t0 & l0 & app & s0 & e & s3 & Hc & _ & Hs & H)
                    | (t0 & l0 & app & s0 & s3 & pw & s4 & Hc & _ & Hs & Hi & H)]];
    cbv zeta in H.
  - left. eauto.
  - exfalso. apply create_records_store in Hc as (x & _ & -> & _).
    destruct (resource_steps_healthy cfg t0 plan app
                (set_db (stored_by (others s (db s)) t0 x l0)
                   (set_uuid_pos (S (S (uuid_pos s))) s))) as (s3' & E).
    { exact Hw. }
    rewrite Hs in E. discriminate.
  - right. do 2 eexists. split; [exact H|]. split; [reflexivity|].
    split; [reflexivity|].
    destruct (provision_tenant_new_store _ _ _ _ _ _ _ _ _ _ _ Hh Hq H)
      as (x & l & Hrows & Hdb & _).
    rewrite Hdb. by eapply query_stored_by.
Qed.

Lemma healthy_world_provisions_witness :
  (∃ msg, provision_tenant default_settings 1 "alice@example.org" "pro" "sub_1"
            "cus_1" None world_no_pod
          = (Raise (IntegrityError msg), rolled_back world_no_pod))
  ∨ (∃ t s', provision_tenant default_settings 1 "alice@example.org" "pro" "sub_1"
               "cus_1" None world_no_pod
             = (Ok (Some t, None), s')
             ∧ t_status t = ACTIVE ∧ t_deployed_at t = Some (now s')
             ∧ query_tenant_by_subscription "sub_1" (db s') = Some t).
Proof.
  apply healthy_world_provisions.
  - unfold healthy. repeat split; try reflexivity.
    intros k rel H. vm_compute in H. discriminate.
  - reflexivity.
  - reflexivity.
Defined.

(** ** The identity of a new tenant *)

Lemma create_records_identity cfg user_id plan sid cid eid s tenant log app s0 :
  create_records cfg user_id plan sid cid eid s = (Ok (tenant, log, app), s0) →
  let suffix := PyStr.prefix 8 (uuid_stream s (uuid_pos s)) in
  t_namespace tenant = KUBERNETES_NAMESPACE_PREFIX cfg +:+ "-" +:+ suffix
  ∧ t_helm_release_name tenant = t_namespace tenant
  ∧ t_domain tenant = t_namespace tenant +:+ "." +:+ BASE_DOMAIN cfg
  ∧ t_db_name tenant = "ca_" +:+ suffix
  ∧ t_db_user tenant = t_db_name tenant
  ∧ t_db_password tenant = uuid_stream s (S (uuid_pos s))
  ∧ t_user_id tenant = user_id ∧ t_plan tenant = plan
  ∧ t_ca_admin_username tenant = "administrator"
  ∧ app = "tenant_" +:+ suffix.
Proof.
  unfold create_records.
  unfold mbind, M_bind, uuid4_hex, utcnow, gets, modify, lift_result,
    commit_tenant, mret, M_ret; simpl.
  match goal with
  | |- context [insert_tenant ?t ?st] =>
      destruct (insert_tenant t st) as [[t' st1]|] eqn:Ht; [|discriminate]
  end.
  apply insert_tenant_Ok in Ht as (_ & _ & _ & -> & ->).
  match goal with
  | |- context [insert_subscription ?t ?st] =>
      destruct (insert_subscription t st) as [[x' st2]|]; [|discriminate]
  end.
  match goal with
  | |- context [insert_log ?t ?st] =>
      destruct (insert_log t st) as [[l' st3]|]; [|discriminate]
  end.
  intros [= <- <- <- <-]. simpl. done.
Qed.

Lemma provision_tenant_new_fields cfg user_id email plan sid cid eid s t err s' :
  already_handled eid (db s) = false →
  query_tenant_by_subscription sid (db s) = None →
  provision_tenant cfg user_id email plan sid cid eid s = (Ok (Some t, err), s') →
  let suffix := PyStr.prefix 8 (uuid_stream s (uuid_pos s)) in
  t_namespace t = KUBERNETES_NAMESPACE_PREFIX cfg +:+ "-" +:+ suffix
  ∧ t_helm_release_name t = t_namespace t
  ∧ t_domain t = t_namespace t +:+ "." +:+ BASE_DOMAIN cfg
  ∧ t_db_name t = "ca_" +:+ suffix
  ∧ t_db_user t = t_db_name t
  ∧ t_db_password t = uuid_stream s (S (uuid_pos s))
  ∧ t_user_id t = user_id ∧ t_plan t = plan
  ∧ t_ca_admin_username t = "administrator".
Proof.
  intros Hh Hq Hrun suffix.
  destruct (provision_tenant_new_cases cfg user_id email plan sid cid eid s Hh Hq)
    as [(msg & H) | [(t0 & l0 & app & s0 & e & s3 & Hc & _ & _ & H)
                    | (t0 & l0 & app & s0 & s3 & pw & s4 & Hc & _ & _ & _ & H)]];
    cbv zeta in H; rewrite Hrun in H; try discriminate;
    injection H as -> -> ->;
    apply create_records_identity in Hc; cbv zeta in Hc;
    destruct Hc as (? & ? & ? & ? & ? & ? & ? & ? & ? & _); simpl; done.
Qed.

(** X5. The identity of a tenant that [provision_tenant] creates comes from
    two draws of [uuid4]: the first eight characters of the first one are
    the suffix shared by the namespace, the release (named as the
    namespace), the domain under [BASE_DOMAIN] and the database name, which
    is also the database user; the second draw is the database password.
    The row carries the caller's user and plan. *)
Theorem new_tenant_identity cfg user_id email plan sid cid eid s t err s' :
  already_handled eid (db s) = false →
  query_tenant_by_subscription sid (db s) = None →
  provision_tenant cfg user_id email plan sid cid eid s = (Ok (Some t, err), s') →
  let suffix := PyStr.prefix 8 (uuid_stream s (uuid_pos s)) in
  t_namespace t = KUBERNETES_NAMESPACE_PREFIX cfg +:+ "-" +:+ suffix
  ∧ t_helm_release_name t = t_namespace t
  ∧ t_domain t = t_namespace t +:+ "." +:+ BASE_DOMAIN cfg
  ∧ t_db_name t = "ca_" +:+ suffix
  ∧ t_db_user t = t_db_name t
  ∧ t_db_password t = uuid_stream s (S (uuid_pos s))
  ∧ t_user_id t = user_id ∧ t_plan t = plan
  ∧ t_ca_admin_username t = "administrator"
  ∧ (length (PyStr.chars suffix) ≤ 8)%nat.
Proof.
  intros Hh Hq Hrun suffix.
  pose proof (provision_tenant_new_fields _ _ _ _ _ _ _ _ _ _ _ Hh Hq Hrun) as H.
  cbv zeta in H. fold suffix in H.
  destruct H as (? & ? & ? & ? & ? & ? & ? & ? & ?).
  repeat split; try done.
  unfold suffix, PyStr.prefix. rewrite chars_str, length_take. lia.
Qed.

Lemma new_tenant_identity_witness :
  let t := tenant_row ACTIVE (Some "s3cr3t") (Some 1000%nat) in
  let suffix := PyStr.prefix 8 (uuid_stream fresh_world (uuid_pos fresh_world)) in
  t_namespace t = KUBERNETES_NAMESPACE_PREFIX default_settings +:+ "-" +:+ suffix
  ∧ t_helm_release_name t = t_namespace t
  ∧ t_domain t = t_namespace t +:+ "." +:+ BASE_DOMAIN default_settings
  ∧ t_db_name t = "ca_" +:+ suffix
  ∧ t_db_user t = t_db_name t
  ∧ t_db_password t = uuid_stream fresh_world (S (uuid_pos fresh_world))
  ∧ t_user_id t = 1%nat ∧ t_plan t = "pro"
  ∧ t_ca_admin_username t = "administrator"
  ∧ (length (PyStr.chars suffix) ≤ 8)%nat.
Proof.
  apply (new_tenant_identity default_settings 1 "alice@example.org" "pro" "sub_1"
           "cus_1" (Some "evt_1") fresh_world _ None
           (snd (provision_tenant default_settings 1 "alice@example.org" "pro"
                   "sub_1" "cus_1" (Some "evt_1") fresh_world))).
  - vm_compute; reflexivity.
  - vm_compute; reflexivity.
  - apply run_eq. vm_compute; reflexivity.
Defined.

(** ** The installer's credential *)

Lemma split_go_words cur l :
  forallb (λ c, negb (PyStr.is_space c)) cur = true →
  Forall (λ tok, tok ≠ [] ∧ forallb (λ c, negb (PyStr.is_space c)) tok = true)
         (PyStr.split_go cur l).
Proof.
  revert cur. induction l as [|c l IH]; intros cur Hcur; simpl.
  - destruct cur as [|a cur]; [constructor|].
    constructor; [|constructor]. split.
    + intros E. apply (f_equal (@length _)) in E. rewrite length_rev in E.
      discriminate.
    + rewrite forallb_forall in *. intros y Hy. apply Hcur.
      by apply in_rev.
  - destruct (PyStr.is_space c) eqn:Ec.
    + destruct cur as [|a cur]; [by apply IH|].
      constructor; [|by apply IH]. split.
      * intros E. apply (f_equal (@length _)) in E. rewrite length_rev in E.
        discriminate.
      * rewrite forallb_forall in *. intros y Hy. apply Hcur. by apply in_rev.
    + apply IH. simpl. by rewrite Ec, Hcur.
Qed.

Lemma last_split_word line tok :
  last (PyStr.split line) = Some tok →
  tok ≠ "" ∧ forallb (λ c, negb (PyStr.is_space c)) (PyStr.chars tok) = true.
Proof.
  unfold PyStr.split. intros H. rewrite fmap_last in H.
  destruct (last (PyStr.split_go [] (PyStr.chars line))) as [w|] eqn:E;
    [|discriminate].
  injection H as <-.
  pose proof (split_go_words [] (PyStr.chars line) eq_refl) as Hall.
  rewrite Forall_forall in Hall.
  destruct (Hall w) as [Hne Hsp].
  { by eapply last_Some_elem_of. }
  split; [|by rewrite chars_str].
  intros E'. apply Hne. by rewrite <- (chars_str w), E'.
Qed.

Lemma run_ca_installer_word cfg ns tn app s tok s' :
  _run_ca_installer cfg ns tn app s = (Ok (Some tok), s') →
  tok ≠ "" ∧ forallb (λ c, negb (PyStr.is_space c)) (PyStr.chars tok) = true.
Proof.
  rewrite run_ca_installer_unfold.
  destruct (kubectl_run s (get_pod_cmd ns tn)) as [r|e]; [|discriminate].
  cbv zeta. destruct (String.eqb (PyStr.strip (stdout r)) ""); [discriminate|].
  destruct (kubectl_run s (installer_cmd cfg ns _ app)) as [r2|e]; [|discriminate].
  destruct (negb (returncode r2 =? 0)); [discriminate|].
  destruct (find has_marker _) as [line|]; [|discriminate].
  destruct (last (PyStr.split line)) eqn:E; [|discriminate].
  intros [= -> _]. by eapply last_split_word.
Qed.

(** X6. A tenant that [provision_tenant] creates and returns without error
    always carries an admin credential that is not empty: either the
    installer's token, which holds no whitespace, or the text
    [Installer not completed]. *)
Theorem active_tenant_credential cfg user_id email plan sid cid eid s t s' :
  already_handled eid (db s) = false →
  query_tenant_by_subscription sid (db s) = None →
  provision_tenant cfg user_id email plan sid cid eid s = (Ok (Some t, None), s') →
  ∃ c, t_ca_admin_password t = Some c ∧ c ≠ ""
       ∧ (c = "Installer not completed"
          ∨ forallb (λ a, negb (PyStr.is_space a)) (PyStr.chars c) = true).
Proof.
  intros Hh Hq Hrun.
  destruct (provision_tenant_new_cases cfg user_id email plan sid cid eid s Hh Hq)
    as [(msg & H) | [(t0 & l0 & app & s0 & e & s3 & _ & _ & _ & H)
                    | (t0 & l0 & app & s0 & s3 & pw & s4 & _ & _ & _ & Hi & H)]];
    cbv zeta in H; rewrite Hrun in H; try discriminate.
  injection H as -> ->. simpl.
  destruct pw as [tok|]; simpl.
  - apply run_ca_installer_word in Hi as [Hne Hsp].
    apply String.eqb_neq in Hne as Hb. rewrite Hb. eauto.
  - eexists. split; [reflexivity|]. split; [discriminate | by left].
Qed.

Lemma active_tenant_credential_witness :
  ∃ c, t_ca_admin_password (tenant_row ACTIVE (Some "s3cr3t") (Some 1000%nat))
       = Some c ∧ c ≠ ""
       ∧ (c = "Installer not completed"
          ∨ forallb (λ a, negb (PyStr.is_space a)) (PyStr.chars c) = true).
Proof.
  apply (active_tenant_credential default_settings 1 "alice@example.org" "pro"
           "sub_1" "cus_1" (Some "evt_1") fresh_world _
           (snd (provision_tenant default_settings 1 "alice@example.org" "pro"
                   "sub_1" "cus_1" (Some "evt_1") fresh_world))).
  - vm_compute; reflexivity.
  - vm_compute; reflexivity.
  - apply run_eq. vm_compute; reflexivity.
Defined.

(** ** The release manager client, once more *)

Lemma uninstall_tenant_eval name ns s :
  uninstall_tenant name ns s
  = let s0 := traced (Subprocess (uninstall_cmd name ns)) s in
    if helm_missing (helm s) then
      (Ok (false, "[Errno 2] No such file or directory: 'helm'"), s0)
    else match uninstall_fault (helm s) with
         | Some (rc, err) => (Ok (false, err), s0)
         | None =>
             match releases (helm s) !! (ns, name) with
             | Some _ => (Ok (true, "release " +:+ name +:+ " uninstalled"),
                          remove_release ns name s0)
             | None => (Ok (false, "Error: uninstall: Release not loaded: "
                                   +:+ name +:+ ": release: not found"), s0)
             end
         end.
Proof.
  unfold uninstall_tenant, uninstall_cmd, subprocess_run, helm_exec, helm_uninstall,
    traced.
  run_monad.
  destruct (helm_missing (helm s)); [reflexivity|]. simpl.
  destruct (uninstall_fault (helm s)) as [[rc err]|]; simpl; [reflexivity|].
  destruct (releases (helm s) !! (ns, name)); reflexivity.
Qed.

(** X7. [uninstall_tenant] never raises and makes one helm call.  When it
    answers [True] the release existed and is gone: helm no longer lists
    it, and a second uninstall answers [False].  When it answers [False]
    nothing was changed.  A release that does not exist is answered
    [False]: an uninstall is not repeatable. *)
Theorem uninstall_tenant_contract name ns s :
  ∃ b out s1,
    uninstall_tenant name ns s = (Ok (b, out), s1)
    ∧ trace s1 = trace s ++ [Subprocess ["helm"; "uninstall"; name; "--namespace"; ns]]
    ∧ (if b
       then is_Some (releases (helm s) !! (ns, name))
            ∧ releases (helm s1) !! (ns, name) = None
            ∧ release_listed name ns (helm s1) = false
            ∧ ∃ s2, uninstall_tenant name ns s1 = (Ok (false, "Error: uninstall: Release not loaded: "
                                   +:+ name +:+ ": release: not found"), s2)
       else resources s1 = resources s)
    ∧ (releases (helm s) !! (ns, name) = None → b = false).
Proof.
  rewrite uninstall_tenant_eval. cbv zeta.
  destruct (helm_missing (helm s)) eqn:Hm.
  { do 3 eexists. split; [reflexivity|]. split; [reflexivity|]. done. }
  destruct (uninstall_fault (helm s)) as [[rc err]|] eqn:Hf.
  { do 3 eexists. split; [reflexivity|]. split; [reflexivity|]. done. }
  destruct (releases (helm s) !! (ns, name)) as [rel|] eqn:Hl.
  - do 3 eexists. split; [reflexivity|]. split; [reflexivity|].
    split; [|discriminate].
    assert (releases (helm (remove_release ns name
               (traced (Subprocess (uninstall_cmd name ns)) s))) !! (ns, name) = None)
      as Hgone.
    { simpl. unfold forget_release. apply lookup_delete_eq. }
    split; [eauto|]. split; [done|]. split.
    + unfold release_listed. rewrite Hgone. apply andb_false_r.
    + rewrite uninstall_tenant_eval. cbv zeta.
      change (helm_missing (helm (remove_release ns name
                (traced (Subprocess (uninstall_cmd name ns)) s))))
        with (helm_missing (helm s)).
      change (uninstall_fault (helm (remove_release ns name
                (traced (Subprocess (uninstall_cmd name ns)) s))))
        with (uninstall_fault (helm s)).
      rewrite Hm, Hf, Hgone. eauto.
  - do 3 eexists. split; [reflexivity|]. split; [reflexivity|]. done.
Qed.

(** X8. On a helm that works, with the release not stuck in an operation,
    [install_tenant] answers [True] after a single helm call; the release is
    then deployed, [release_exists] answers [True] for it, and neither the
    MySQL server nor the store was touched. *)
Theorem install_tenant_deploys cfg name ns dom plan d u p app s :
  helm_missing (helm s) = false →
  upgrade_fault (helm s) = None →
  (∀ rel, releases (helm s) !! (ns, name) = Some rel → pending rel = false) →
  one_line name →
  ∃ out s1,
    install_tenant cfg name ns dom plan d u p app s = (Ok (true, out), s1)
    ∧ trace s1 = trace s ++ [Subprocess (install_cmd cfg name ns dom plan d u p app)]
    ∧ deployed name ns s1
    ∧ fst (release_exists name ns s1) = Ok true
    ∧ mysql s1 = mysql s ∧ db s1 = db s.
Proof.
  intros Hm Hf Hp Hr. rewrite install_tenant_unfold.
  destruct (run_upgrade (install_cmd cfg name ns dom plan d u p app) name ns s)
    as [[r|e] s1] eqn:Hu.
  - pose proof (run_upgrade_Ok _ _ _ _ _ _ Hu) as Hd.
    exists (stdout r), s1. split; [reflexivity|].
    assert (trace s1 = trace s ++ [Subprocess (install_cmd cfg name ns dom plan d u p app)]
            ∧ mysql s1 = mysql s ∧ db s1 = db s) as (Ht & Hmy & Hdb).
    { revert Hu. unfold run_upgrade. rewrite Hm, Hf.
      destruct (releases (helm s) !! (ns, name)) as [rel|] eqn:E.
      - rewrite (Hp _ eq_refl). intros [= _ <-]. done.
      - intros [= _ <-]. done. }
    repeat split; try done.
    + by destruct Hd.
    + by destruct Hd.
    + rewrite release_exists_eval by done. simpl.
      by rewrite release_listed_deployed.
  - exfalso. revert Hu. unfold run_upgrade. rewrite Hm, Hf.
    destruct (releases (helm s) !! (ns, name)) as [rel|] eqn:E.
    + by rewrite (Hp _ eq_refl).
    + done.
Qed.

Lemma install_tenant_deploys_witness :
  ∃ out s1,
    example_install fresh_world = (Ok (true, out), s1)
    ∧ trace s1 = trace fresh_world ++ [Subprocess example_install_cmd]
    ∧ deployed "tenant-01234567" "tenant-01234567" s1
    ∧ fst (release_exists "tenant-01234567" "tenant-01234567" s1) = Ok true
    ∧ mysql s1 = mysql fresh_world ∧ db s1 = db fresh_world.
Proof.
  apply (install_tenant_deploys default_settings "tenant-01234567" "tenant-01234567"
           "tenant-01234567.yoursaas.com" "pro" "ca_01234567" "ca_01234567" hex_b
           "tenant_01234567" fresh_world).
  - reflexivity.
  - reflexivity.
  - intros rel H. vm_compute in H. discriminate.
  - vm_compute; reflexivity.
Defined.

Lemma install_tenant_refused cfg name ns dom plan d u p app s rc err :
  helm_missing (helm s) = false →
  upgrade_fault (helm s) = Some (rc, err) →
  (∀ rel, releases (helm s) !! (ns, name) = Some rel → pending rel = false) →
  PyStr.contains lock_signature err = false →
  install_tenant cfg name ns dom plan d u p app s
  = (Ok (false, err),
     traced (Subprocess (install_cmd cfg name ns dom plan d u p app)) s).
Proof.
  intros Hm Hf Hp Hc. rewrite install_tenant_unfold. unfold run_upgrade.
  rewrite Hm, Hf.
  destruct (releases (helm s) !! (ns, name)) as [rel|] eqn:E.
  - rewrite (Hp _ eq_refl). by rewrite Hc.
  - by rewrite Hc.
Qed.

(** X9. When helm refuses the install with an error that is not the lock
    signature, [install_tenant] answers [(False, stderr)] after that single
    call: history and rollback are not consulted, nothing is retried, and
    no resource is changed. *)
Theorem install_tenant_plain_failure cfg name ns dom plan d u p app s rc err :
  helm_missing (helm s) = false →
  upgrade_fault (helm s) = Some (rc, err) →
  (∀ rel, releases (helm s) !! (ns, name) = Some rel → pending rel = false) →
  PyStr.contains lock_signature err = false →
  ∃ s1, install_tenant cfg name ns dom plan d u p app s = (Ok (false, err), s1)
        ∧ trace s1 = trace s ++ [Subprocess (install_cmd cfg name ns dom plan d u p app)]
        ∧ resources s1 = resources s.
Proof.
  intros Hm Hf Hp Hc. eexists. split; [by eapply install_tenant_refused|].
  split; reflexivity.
Qed.

Lemma install_tenant_plain_failure_witness :
  ∃ s1, example_install world_chart_fails = (Ok (false, timed_out), s1)
        ∧ trace s1 = trace world_chart_fails ++ [Subprocess example_install_cmd]
        ∧ resources s1 = resources world_chart_fails.
Proof.
  apply (install_tenant_plain_failure default_settings "tenant-01234567"
           "tenant-01234567" "tenant-01234567.yoursaas.com" "pro" "ca_01234567"
           "ca_01234567" hex_b "tenant_01234567" world_chart_fails 1%positive
           timed_out).
  - reflexivity.
  - reflexivity.
  - intros rel H. vm_compute in H. discriminate.
  - vm_compute; reflexivity.
Defined.

(** ** Revision numbers in and out of text *)

Lemma parse_digits_app ds : ∀ acc rest,
  ds ≠ [] → forallb is_digit ds = true →
  match rest with [] => true | c :: _ => negb (is_digit c) end = true →
  parse_digits acc (ds ++ rest) = Some (fold_left digit_step ds acc, rest).
Proof.
  induction ds as [|c ds IH]; intros acc rest Hne Hd Hrest; [done|].
  simpl in Hd. apply andb_true_iff in Hd as [Hc Hd].
  cbn [app parse_digits]. cbv zeta. unfold is_digit in Hc. rewrite Hc.
  destruct ds as [|c' ds].
  - cbn [app fold_left]. destruct rest as [|r rest]; [reflexivity|].
    cbn [parse_digits]. cbv zeta. unfold is_digit in Hrest.
    apply negb_true_iff in Hrest. by rewrite Hrest.
  - rewrite IH by done. reflexivity.
Qed.

Lemma pretty_N_char_digit x :
  (x < 10)%N →
  is_digit (pretty_N_char x) = true
  ∧ (PyStr.code (pretty_N_char x) - 48)%nat = N.to_nat x.
Proof.
  intros H.
  assert (x = 0 ∨ x = 1 ∨ x = 2 ∨ x = 3 ∨ x = 4 ∨ x = 5 ∨ x = 6 ∨ x = 7
          ∨ x = 8 ∨ x = 9)%N as Hx by lia.
  repeat destruct Hx as [->|Hx]; try subst x; by vm_compute.
Qed.

(** The digits [pretty_N_go] puts in front of its accumulator. *)
Lemma pretty_N_go_digits x : ∀ s,
  ∃ pre, PyStr.chars (pretty_N_go x s) = pre ++ PyStr.chars s
         ∧ forallb is_digit pre = true
         ∧ ((0 < x)%N → pre ≠ [])
         ∧ ∀ a, fold_left digit_step pre a
                = (a * 10 ^ length pre + N.to_nat x)%nat.
Proof.
  induction (N.lt_wf_0 x) as [x _ IH]; intros s.
  destruct (decide (0 < x)%N) as [Hx|Hx].
  - rewrite pretty_N_go_step by done.
    destruct (IH (x `div` 10)%N (N.div_lt x 10 Hx eq_refl)
                (String (pretty_N_char (x `mod` 10)) s))
      as (pre & Hpre & Hd & _ & Hv).
    destruct (pretty_N_char_digit (x `mod` 10)%N) as [Hc1 Hc2].
    { by apply N.mod_lt. }
    exists (pre ++ [pretty_N_char (x `mod` 10)]). split; [|split; [|split]].
    + rewrite Hpre. simpl. by rewrite <- app_assoc.
    + rewrite forallb_app, Hd. simpl. by rewrite Hc1.
    + intros _. by destruct pre.
    + intros a. rewrite fold_left_app, Hv. simpl. unfold digit_step at 1.
      rewrite Hc2, length_app. simpl.
      rewrite Nat.add_1_r, Nat.pow_succ_r'.
      pose proof (N.div_mod x 10 ltac:(done)) as Hdm.
      assert (N.to_nat x = N.to_nat (x `div` 10) * 10 + N.to_nat (x `mod` 10))%nat
        as -> by lia.
      lia.
  - assert (x = 0%N) as -> by lia. rewrite pretty_N_go_0.
    exists []. split; [done|]. split; [done|]. split; [lia|].
    intros a. simpl. lia.
Qed.

(** Reading back a number printed in decimal. *)
Lemma parse_digits_pretty (n : nat) rest :
  match rest with [] => true | c :: _ => negb (is_digit c) end = true →
  parse_digits 0 (PyStr.chars (pretty n) ++ rest) = Some (n, rest).
Proof.
  intros Hrest. unfold pretty, pretty_nat, pretty, pretty_N.
  destruct (decide (N.of_nat n = 0%N)) as [E|E].
  - assert (n = 0%nat) as -> by lia.
    apply (parse_digits_app ["0"%char] 0 rest); done.
  - destruct (pretty_N_go_digits (N.of_nat n) "") as (pre & Hpre & Hd & Hne & Hv).
    rewrite Hpre. simpl. rewrite app_nil_r.
    rewrite parse_digits_app; [|apply Hne; lia|done|done].
    rewrite Hv. f_equal. f_equal. lia.
Qed.

Lemma parse_nat_pretty (n : nat) : parse_nat (pretty n) = Some n.
Proof.
  unfold parse_nat.
  pose proof (parse_digits_pretty n [] eq_refl) as H.
  rewrite app_nil_r in H. by rewrite H.
Qed.

Lemma json_last_revision_history n s :
  json_last_revision (history_json n) s = (Ok n, s).
Proof.
  unfold json_last_revision, history_json.
  rewrite !chars_app. simpl. rewrite drop_0.
  rewrite (parse_digits_pretty n ["}"; "]"]%char) by reflexivity.
  reflexivity.
Qed.

Lemma subprocess_run_history name ns s rel :
  helm_missing (helm s) = false → history_fault (helm s) = None →
  releases (helm s) !! (ns, name) = Some rel →
  subprocess_run (history_cmd name ns) true s
  = (Ok (completed 0 (history_json (revision rel)) ""),
     traced (Subprocess (history_cmd name ns)) s).
Proof.
  intros Hm Hf Hl. unfold subprocess_run, history_cmd, helm_exec, helm_history.
  run_monad. rewrite Hm. simpl. rewrite Hf, Hl. reflexivity.
Qed.

Lemma subprocess_run_rollback name ns s rel :
  helm_missing (helm s) = false → rollback_fault (helm s) = None →
  releases (helm s) !! (ns, name) = Some rel → (1 ≤ revision rel)%nat →
  subprocess_run (rollback_cmd name ns (revision rel)) true s
  = (Ok (completed 0 "Rollback was a success! Happy Helming!" ""),
     deploy_release ns name
       (traced (Subprocess (rollback_cmd name ns (revision rel))) s)).
Proof.
  intros Hm Hf Hl Hr. unfold subprocess_run, rollback_cmd, helm_exec, helm_rollback.
  run_monad. rewrite Hm. simpl. rewrite Hf, Hl, parse_nat_pretty.
  destruct (revision rel) as [|k]; [lia|].
  rewrite Nat.leb_refl. reflexivity.
Qed.

(** X10. A release that a crashed operation left pending is recovered by
    [install_tenant] whenever helm itself works: the install is refused
    with the lock signature, the latest revision is read from the history
    and rolled back to, and the retried install succeeds.  After these four
    helm calls the release is deployed two revisions later, and
    [install_tenant] answers [True]. *)
Theorem stale_lock_is_recovered cfg name ns dom plan d u p app s rel :
  helm_missing (helm s) = false →
  upgrade_fault (helm s) = None →
  history_fault (helm s) = None →
  rollback_fault (helm s) = None →
  releases (helm s) !! (ns, name) = Some rel →
  pending rel = true →
  (1 ≤ revision rel)%nat →
  ∃ out s1,
    install_tenant cfg name ns dom plan d u p app s = (Ok (true, out), s1)
    ∧ releases (helm s1) !! (ns, name)
      = Some {| revision := S (S (revision rel)); pending := false |}
    ∧ trace s1
      = trace s ++ [Subprocess (install_cmd cfg name ns dom plan d u p app);
                    Subprocess (history_cmd name ns);
                    Subprocess (rollback_cmd name ns (revision rel));
                    Subprocess (install_cmd cfg name ns dom plan d u p app)].
Proof.
  intros Hm Hu Hh Hr Hl Hp Hrev.
  rewrite install_tenant_unfold. unfold run_upgrade at 1.
  rewrite Hm, Hl, Hp.
  change (PyStr.contains lock_signature
            ("Error: UPGRADE FAILED: " +:+ lock_signature)) with true.
  cbv iota. unfold lock_recovery.
  set (cmd := install_cmd cfg name ns dom plan d u p app).
  set (s0 := traced (Subprocess cmd) s).
  rewrite bind_unfold.
  fold (history_cmd name ns).
  rewrite (subprocess_run_history name ns s0 rel) by done.
  cbv iota beta. rewrite bind_unfold. simpl stdout.
  rewrite json_last_revision_history. cbv iota beta.
  rewrite bind_unfold.
  fold (rollback_cmd name ns (revision rel)).
  rewrite (subprocess_run_rollback name ns _ rel) by done.
  cbv iota beta. rewrite bind_unfold.
  unfold cmd. rewrite subprocess_run_upgrade. fold cmd.
  unfold run_upgrade.
  set (s2 := deploy_release ns name
               (traced (Subprocess (rollback_cmd name ns (revision rel)))
                  (traced (Subprocess (history_cmd name ns)) s0))).
  assert (helm_missing (helm s2) = false) as -> by exact Hm.
  assert (upgrade_fault (helm s2) = None) as Hu2 by exact Hu.
  assert (releases (helm s2) !! (ns, name)
          = Some {| revision := S (revision rel); pending := false |}) as Hl2.
  { unfold s2. simpl. unfold next_revision. rewrite Hl. apply lookup_insert_eq. }
  rewrite Hl2, Hu2. cbv iota. simpl pending. cbv iota.
  do 2 eexists. split; [reflexivity|]. split.
  - change (releases (helm (deploy_release ns name (traced (Subprocess cmd) s2))))
      with (next_revision ns name (releases (helm s2))).
    unfold next_revision. rewrite Hl2. apply lookup_insert_eq.
  - simpl. rewrite <- !app_assoc. reflexivity.
Qed.

Lemma stale_lock_is_recovered_witness :
  ∃ out s1,
    install_tenant default_settings "tenant-01234567" "tenant-01234567"
      "tenant-01234567.yoursaas.com" "pro" "ca_01234567" "ca_01234567" hex_b
      "tenant_01234567" (world_stale_lock None)
    = (Ok (true, out), s1)
    ∧ releases (helm s1) !! ("tenant-01234567", "tenant-01234567")
      = Some {| revision := 5; pending := false |}
    ∧ trace s1
      = trace (world_stale_lock None)
        ++ [Subprocess example_install_cmd;
            Subprocess (history_cmd "tenant-01234567" "tenant-01234567");
            Subprocess (rollback_cmd "tenant-01234567" "tenant-01234567" 3);
            Subprocess example_install_cmd].
Proof.
  apply (stale_lock_is_recovered default_settings "tenant-01234567"
           "tenant-01234567" "tenant-01234567.yoursaas.com" "pro" "ca_01234567"
           "ca_01234567" hex_b "tenant_01234567" (world_stale_lock None)
           {| revision := 3; pending := true |}); try reflexivity.
  simpl. lia.
Defined.

(** ** A chart that cannot be installed *)

Lemma release_exists_absent r ns s :
  helm_missing (helm s) = false →
  releases (helm s) !! (ns, r) = None →
  release_exists r ns s = (Ok false, traced (Subprocess (list_cmd r ns)) s).
Proof.
  intros Hm Hl. unfold release_exists, list_cmd, subprocess_run, helm_exec.
  run_monad. rewrite Hm. simpl.
  unfold helm_list. rewrite name_of_filter_anchored, Hl. reflexivity.
Qed.

(** The resource steps when the namespace and the database can be built and
    helm refuses the install. *)
Lemma resource_steps_chart_failure cfg t plan app s rc err :
  k8s_read_fault (k8s s) = None → k8s_create_fault (k8s s) = None →
  sql_connect_fault (mysql s) = None → sql_create_fault (mysql s) = None →
  helm_missing (helm s) = false →
  upgrade_fault (helm s) = Some (rc, err) →
  releases (helm s) !! (t_namespace t, t_helm_release_name t) = None →
  PyStr.contains lock_signature err = false →
  ∃ s3, resource_steps cfg t plan app s
        = (Raise (Exception ("Helm install failed: " +:+ err)), s3)
        ∧ t_namespace t ∈ namespaces (k8s s3)
        ∧ t_db_name t ∈ schemata (mysql s3)
        ∧ helm s3 = helm s.
Proof.
  intros K1 K2 M1 M2 H1 H2 H3 H4. unfold resource_steps.
  destruct (ensure_namespace_healthy (t_namespace t) s K1 K2) as (s1 & E1 & Hns).
  pose proof (ensure_namespace_frame (t_namespace t) s) as F1.
  rewrite E1 in F1. simpl in F1. destruct F1 as (Fm & Fh & _).
  rewrite bind_unfold, E1.
  destruct (ensure_database_healthy (t_db_name t) (t_db_user t) (t_db_password t) s1)
    as (s2 & E2); [by rewrite Fm | by rewrite Fm |].
  pose proof (ensure_database_frame (t_db_name t) (t_db_user t) (t_db_password t) s1)
    as F2.
  rewrite E2 in F2. simpl in F2. destruct F2 as (Fk & Fh2 & _).
  pose proof (ensure_database_Ok _ _ _ _ _ E2) as Hdb.
  rewrite bind_unfold, E2.
  unfold _ensure_helm_release. rewrite bind_unfold.
  rewrite release_exists_absent by (rewrite Fh2, Fh; done).
  rewrite bind_unfold.
  erewrite install_tenant_refused; try done.
  - simpl. eexists. split; [reflexivity|]. simpl. rewrite Fk, Fh2, Fh. done.
  - simpl. rewrite Fh2, Fh. exact H1.
  - simpl. rewrite Fh2, Fh. exact H2.
  - simpl. rewrite Fh2, Fh, H3. discriminate.
Qed.

(** X11. When the namespace and the database can be built and helm refuses
    the chart with an error that is not the lock signature, a new tenant
    ends [FAILED]; the caller and the log row get the text
    [Helm install failed: <stderr>]; and the namespace and the database that
    were created stay in place. *)
Theorem chart_failure_is_reported cfg user_id email plan sid cid eid s rc err :
  let ns := KUBERNETES_NAMESPACE_PREFIX cfg +:+ "-"
            +:+ PyStr.prefix 8 (uuid_stream s (uuid_pos s)) in
  k8s_read_fault (k8s s) = None → k8s_create_fault (k8s s) = None →
  sql_connect_fault (mysql s) = None → sql_create_fault (mysql s) = None →
  helm_missing (helm s) = false →
  upgrade_fault (helm s) = Some (rc, err) →
  releases (helm s) !! (ns, ns) = None →
  PyStr.contains lock_signature err = false →
  already_handled eid (db s) = false →
  query_tenant_by_subscription sid (db s) = None →
  (∃ msg, provision_tenant cfg user_id email plan sid cid eid s
          = (Raise (IntegrityError msg), rolled_back s))
  ∨ (∃ t s' l,
       provision_tenant cfg user_id email plan sid cid eid s
       = (Ok (Some t, Some ("Helm install failed: " +:+ err)), s')
       ∧ t_status t = FAILED
       ∧ In l (logs (db s')) ∧ l_stripe_event_id l = eid ∧ l_status l = "failed"
       ∧ l_error_details l = Some ("Helm install failed: " +:+ err)
       ∧ t_namespace t ∈ namespaces (k8s s')
       ∧ t_db_name t ∈ schemata (mysql s')
       ∧ releases (helm s') = releases (helm s)).
Proof.
  intros ns K1 K2 M1 M2 H1 H2 H3 H4 Hh Hq.
  destruct (provision_tenant_new_cases cfg user_id email plan sid cid eid s Hh Hq)
    as [(msg & H) | [(t0 & l0 & app & s0 & e & s3 & Hc & _ & Hs & H)
                    | (t0 & l0 & app & s0 & s3 & pw & s4 & Hc & _ & Hs & Hi & H)]];
    cbv zeta in H; [left; eauto | |].
  - right.
    pose proof (create_records_identity _ _ _ _ _ _ _ _ _ _ _ Hc) as Hid.
    cbv zeta in Hid. destruct Hid as (Hns & Hrel & _).
    apply create_records_store in Hc as (x & _ & -> & _).
    destruct (resource_steps_chart_failure cfg t0 plan app
                (set_db (stored_by (others s (db s)) t0 x l0)
                   (set_uuid_pos (S (S (uuid_pos s))) s)) rc err)
      as (s3' & E & Hn & Hd & Hhelm); try done.
    { rewrite Hrel, Hns. exact H3. }
    rewrite Hs in E. injection E as -> <-.
    destruct (provision_tenant_new_store _ _ _ _ _ _ _ _ _ _ _ Hh Hq H)
      as (x' & l & Hrows & Hdb & [(? & [=] & _) | (_ & _ & Hl1 & Hl2)]).
    exists (set_t_status FAILED t0). eexists. exists l. split; [exact H|].
    split; [reflexivity|]. rewrite Hdb. split.
    { simpl. apply in_app_iff. right. by left. }
    destruct Hrows as (_ & _ & _ & _ & _ & _ & _ & _ & He & _).
    repeat split; try done.
    simpl. by rewrite Hhelm.
  - exfalso.
    pose proof (create_records_identity _ _ _ _ _ _ _ _ _ _ _ Hc) as Hid.
    cbv zeta in Hid. destruct Hid as (Hns & Hrel & _).
    apply create_records_store in Hc as (x & _ & -> & _).
    destruct (resource_steps_chart_failure cfg t0 plan app
                (set_db (stored_by (others s (db s)) t0 x l0)
                   (set_uuid_pos (S (S (uuid_pos s))) s)) rc err)
      as (s3' & E & _); try done.
    { rewrite Hrel, Hns. exact H3. }
    rewrite Hs in E. discriminate.
Qed.

Lemma chart_failure_is_reported_witness :
  (∃ msg, provision_tenant default_settings 1 "alice@example.org" "pro" "sub_1"
            "cus_1" (Some "evt_1") world_chart_fails
          = (Raise (IntegrityError msg), rolled_back world_chart_fails))
  ∨ (∃ t s' l,
       provision_tenant default_settings 1 "alice@example.org" "pro" "sub_1"
         "cus_1" (Some "evt_1") world_chart_fails
       = (Ok (Some t, Some ("Helm install failed: " +:+ timed_out)), s')
       ∧ t_status t = FAILED
       ∧ In l (logs (db s')) ∧ l_stripe_event_id l = Some "evt_1"
       ∧ l_status l = "failed"
       ∧ l_error_details l = Some ("Helm install failed: " +:+ timed_out)
       ∧ t_namespace t ∈ namespaces (k8s s')
       ∧ t_db_name t ∈ schemata (mysql s')
       ∧ releases (helm s') = releases (helm world_chart_fails)).
Proof.
  apply (chart_failure_is_reported default_settings 1 "alice@example.org" "pro"
           "sub_1" "cus_1" (Some "evt_1") world_chart_fails 1%positive timed_out);
    vm_compute; reflexivity.
Defined.

(** ** The namespace and database helpers *)

(** X12. When the cluster API answers, [_ensure_namespace] succeeds: the
    namespace is in the cluster afterwards, nothing else was added, and
    [namespace_exists] then answers [True]. *)
Theorem ensure_namespace_establishes ns s :
  k8s_read_fault (k8s s) = None → k8s_create_fault (k8s s) = None →
  ∃ s1, _ensure_namespace ns s = (Ok (), s1)
        ∧ namespaces (k8s s1) = {[ns]} ∪ namespaces (k8s s)
        ∧ fst (namespace_exists ns s1) = Ok true.
Proof.
  intros Hr Hc. rewrite ensure_namespace_eval. unfold ensure_namespace_run.
  rewrite Hr, Hc. destruct (decide (ns ∈ namespaces (k8s s))) as [Hin|Hin].
  - eexists. split; [reflexivity|]. split.
    + simpl. symmetry. apply subseteq_union_1_L. by apply singleton_subseteq_l.
    + rewrite namespace_exists_eval. simpl. rewrite Hr. simpl.
      by rewrite bool_decide_eq_true_2.
  - eexists. split; [reflexivity|]. split; [reflexivity|].
    rewrite namespace_exists_eval. simpl. rewrite Hr. simpl.
    rewrite bool_decide_eq_true_2; [done|].
    apply elem_of_union_l. by apply elem_of_singleton.
Qed.

Lemma ensure_namespace_establishes_witness :
  ∃ s1, _ensure_namespace "tenant-01234567" fresh_world = (Ok (), s1)
        ∧ namespaces (k8s s1) = {["tenant-01234567"]} ∪ namespaces (k8s fresh_world)
        ∧ fst (namespace_exists "tenant-01234567" s1) = Ok true.
Proof.
  apply ensure_namespace_establishes; reflexivity.
Defined.

Lemma create_database_eval d u p s :
  _create_database d u p s
  = let s0 := traced SqlConnect s in
    let s1 := traced (SqlExecute ("CREATE DATABASE IF NOT EXISTS `" +:+ d +:+ "`;") [])
                     s0 in
    match sql_connect_fault (mysql s) with
    | Some _ => (Ok false, s0)
    | None =>
        match sql_create_fault (mysql s) with
        | Some _ => (Ok false, s1)
        | None => (Ok true, database_created d u p s1)
        end
    end.
Proof.
  unfold _create_database, pymysql_connect, sql_create_database,
    sql_create_user, sql_grant_all, sql_flush_privileges, database_created.
  run_monad.
  destruct (sql_connect_fault (mysql s)) as [msg|]; simpl; [reflexivity|].
  destruct (sql_create_fault (mysql s)) as [msg|]; [reflexivity|].
  unfold traced, add_grant, add_principal, add_schema. simpl. reflexivity.
Qed.


(** ** The database and release checks *)


(** X15. [release_exists] never raises and makes one helm call.  For a
    release whose name fits on a line it answers [True] exactly when helm
    runs and the release is there and not stuck in an operation: a release
    that is pending counts as missing, as does any release when helm cannot
    be run. *)
Theorem release_exists_contract r ns s :
  one_line r →
  ∃ b, release_exists r ns s = (Ok b, traced (Subprocess (list_cmd r ns)) s)
       ∧ (b = true ↔ deployed r ns s).
Proof.
  intros Hr. rewrite release_exists_eval by done. eexists. split; [reflexivity|].
  split; [apply release_listed_is_deployed | apply release_listed_deployed].
Qed.

Lemma release_exists_contract_witness :
  ∃ b, release_exists "tenant-01234567" "tenant-01234567" (world_stale_lock None)
       = (Ok b, traced (Subprocess (list_cmd "tenant-01234567" "tenant-01234567"))
                  (world_stale_lock None))
       ∧ (b = true ↔ deployed "tenant-01234567" "tenant-01234567"
                        (world_stale_lock None)).
Proof.
  apply release_exists_contract. vm_compute; reflexivity.
Defined.

(** ** Pods of a namespace *)

Lemma count_phase_cons ph p items :
  count_phase ph (p :: items)
  = ((if decide (phase p = Some ph) then 1 else 0) + count_phase ph items)%nat.
Proof.
  unfold count_phase. rewrite filter_cons. by destruct (decide _).
Qed.

Lemma count_phases_le items :
  (count_phase "Running" items + count_phase "Pending" items
   + count_phase "Failed" items ≤ length items)%nat.
Proof.
  induction items as [|p items IH]; [done|].
  rewrite !count_phase_cons. simpl length.
  repeat destruct (decide _); try lia; congruence.
Qed.

Lemma count_phases_eq items :
  (count_phase "Running" items + count_phase "Pending" items
   + count_phase "Failed" items = length items)%nat
  ↔ Forall known_phase items.
Proof.
  induction items as [|p items IH]; [by split|].
  pose proof (count_phases_le items) as Hle.
  rewrite !count_phase_cons, Forall_cons. simpl length. unfold known_phase at 1.
  repeat destruct (decide _); try congruence.
  - split; [intros H; split; [by left | apply IH; lia] | intros [_ H%IH]; lia].
  - split; [intros H; split; [by right; left | apply IH; lia] | intros [_ H%IH]; lia].
  - split; [intros H; split; [by right; right | apply IH; lia] | intros [_ H%IH]; lia].
  - split; [lia | intros [[?|[?|?]] _]; congruence].
Qed.

(** X16. [get_pod_status] answers the empty dictionary exactly on an
    [ApiException]; otherwise the dictionary has the four counters, [total]
    is the number of pods, and the three phase counters never add up to
    more than [total]; they add up to [total] exactly when every pod is
    [Running], [Pending] or [Failed] (a pod that is [Succeeded] or
    [Unknown] is counted in [total] only). *)
Theorem get_pod_status_counts api ns :
  match api ns with
  | Ok items =>
      ∃ d r p f,
        get_pod_status api ns = Ok d
        ∧ dom d = {["total"; "running"; "pending"; "failed"]}
        ∧ d !! "total" = Some (length items)
        ∧ d !! "running" = Some r ∧ d !! "pending" = Some p
        ∧ d !! "failed" = Some f
        ∧ (r + p + f ≤ length items)%nat
        ∧ ((r + p + f)%nat = length items ↔ Forall known_phase items)
  | Raise (ApiException _ _) => get_pod_status api ns = Ok ∅
  | Raise e => get_pod_status api ns = Raise e
  end.
Proof.
  unfold get_pod_status. destruct (api ns) as [items|e].
  - do 4 eexists. split; [reflexivity|]. split.
    { rewrite !dom_insert_L, dom_empty_L. set_solver. }
    split; [reflexivity|]. split; [reflexivity|]. split; [reflexivity|].
    split; [reflexivity|]. split; [apply count_phases_le | apply count_phases_eq].
  - destruct e; reflexivity.
Qed.

(** ** Reading tenants *)


Lemma find_id_snoc (l : list Tenant) (t : Tenant) :
  t_id t = next_id (map t_id l) →
  find (λ y, Nat.eqb (t_id y) (t_id t)) (l ++ [t]) = Some t.
Proof.
  intros Ht. apply find_snoc; [|apply Nat.eqb_refl].
  intros y Hy. apply Nat.eqb_neq. intros E.
  apply (next_id_notin (map t_id l)). rewrite <- Ht, <- E. by apply in_map.
Qed.

Lemma find_namespace_snoc (l : list Tenant) (t : Tenant) :
  existsb (λ y, String.eqb (t_namespace y) (t_namespace t)) l = false →
  find (λ y, String.eqb (t_namespace y) (t_namespace t)) (l ++ [t]) = Some t.
Proof.
  intros Hn. apply find_snoc; [|apply String.eqb_refl].
  intros y Hy. apply not_true_is_false. intros E.
  assert (existsb (λ y, String.eqb (t_namespace y) (t_namespace t)) l = true);
    [|congruence].
  apply existsb_exists. eauto.
Qed.

(** X18. The tenant that [provision_tenant] creates and returns, [ACTIVE] or
    [FAILED], is the one [get_tenant] then reads by its id and
    [get_tenant_by_namespace] by its namespace. *)
Theorem created_tenant_is_readable cfg user_id email plan sid cid eid s t err s' :
  already_handled eid (db s) = false →
  query_tenant_by_subscription sid (db s) = None →
  provision_tenant cfg user_id email plan sid cid eid s = (Ok (Some t, err), s') →
  get_tenant (t_id t) s' = (Ok t, s')
  ∧ get_tenant_by_namespace (t_namespace t) s' = (Ok t, s').
Proof.
  intros Hh Hq Hrun.
  destruct (provision_tenant_new_store _ _ _ _ _ _ _ _ _ _ _ Hh Hq Hrun)
    as (x & l & Hrows & Hdb & _).
  destruct Hrows as (Ht & _ & _ & _ & _ & _ & _ & _ & _ & _ & _ & Hn & _).
  unfold get_tenant, get_tenant_by_namespace, query_tenant_by_id,
    query_tenant_by_namespace.
  rewrite !bind_gets, Hdb. simpl.
  rewrite find_id_snoc by done. rewrite find_namespace_snoc by done. done.
Qed.

Lemma created_tenant_is_readable_witness :
  let s' := snd (provision_tenant default_settings 1 "alice@example.org" "pro"
                   "sub_1" "cus_1" (Some "evt_1") world_chart_fails) in
  let t := tenant_row FAILED None None in
  get_tenant (t_id t) s' = (Ok t, s')
  ∧ get_tenant_by_namespace (t_namespace t) s' = (Ok t, s').
Proof.
  apply (created_tenant_is_readable default_settings 1 "alice@example.org" "pro"
           "sub_1" "cus_1" (Some "evt_1") world_chart_fails _
           (Some ("Helm install failed: " +:+ timed_out))).
  - vm_compute; reflexivity.
  - vm_compute; reflexivity.
  - apply run_eq. vm_compute; reflexivity.
Defined.

(** ** The provisioning endpoint *)


(** ** The Stripe webhook *)

Lemma getattr_lifecycle_raises name s :
  getattr_lifecycle name s = (Raise (no_attribute name), s).
Proof. reflexivity. Qed.

Lemma handle_subscription_deleted_eval event s :
  _handle_subscription_deleted event s
  = match o_id (e_object event) with
    | None => (Raise (LibraryError "KeyError" "'id'"), s)
    | Some sid =>
        match query_subscription sid (db s) with
        | None => (Ok (), s)
        | Some _ => (Raise (no_attribute "suspend_tenant"), s)
        end
    end.
Proof.
  unfold _handle_subscription_deleted, getitem.
  destruct (o_id (e_object event)) as [sid|]; [|reflexivity].
  run_monad. destruct (query_subscription sid (db s)); reflexivity.
Qed.

Lemma handle_payment_failed_eval event s :
  _handle_payment_failed event s = (Ok (), s).
Proof.
  unfold _handle_payment_failed.
  destruct (o_subscription (e_object event)) as [sid|]; [|reflexivity].
  destruct (String.eqb sid ""); [reflexivity|].
  run_monad. destruct (query_subscription sid (db s)); reflexivity.
Qed.

Lemma handle_payment_succeeded_eval event s :
  ∃ r, _handle_payment_succeeded event s = (r, s).
Proof.
  unfold _handle_payment_succeeded.
  destruct (o_subscription (e_object event)) as [sid|]; [|by eexists].
  destruct (String.eqb sid ""); [by eexists|].
  run_monad. destruct (query_subscription sid (db s)) as [x|]; [|by eexists].
  destruct (query_tenant_by_id (s_tenant_id x) (db s)) as [t|]; [|by eexists].
  destruct (negb _); by eexists.
Qed.

(** What [handle_webhook] does once the event is verified. *)
Lemma handle_webhook_verified cfg ce rp request event s :
  truthy (r_stripe_signature request) = true →
  ce (r_body request) (default "" (r_stripe_signature request)) = Ok event →
  handle_webhook cfg ce rp request s
  = match handlers cfg rp (e_type event) with
    | Some handler =>
        match handler event s with
        | (Ok _, s') => (Ok {["status" := "success"]}, s')
        | (Raise e, s') => (Raise (HTTPException 500 (py_str e)), s')
        end
    | None => (Ok {["status" := "success"]}, s)
    end.
Proof.
  intros Hsig Hce. unfold handle_webhook. rewrite Hsig. simpl.
  rewrite bind_unfold. unfold try_except at 1, lift_result at 1. rewrite Hce.
  cbv iota beta zeta.
  destruct (handlers cfg rp (e_type event)) as [h|]; [|reflexivity].
  rewrite bind_unfold. unfold try_except.
  destruct (h event s) as [[[]|e] s']; reflexivity.
Qed.


(** X21. Of the events [handle_webhook] receives, only
    [checkout.session.completed] and [customer.subscription.updated] can
    change anything.  A cancellation ([customer.subscription.deleted]) of a
    subscription the store knows is answered 500 and never recorded: the
    status [canceled] is not written.  A failed payment and an event of a
    type without handler are answered success. *)
Theorem only_two_events_write cfg ce rp request event s :
  truthy (r_stripe_signature request) = true →
  ce (r_body request) (default "" (r_stripe_signature request)) = Ok event →
  e_type event ≠ "checkout.session.completed" →
  e_type event ≠ "customer.subscription.updated" →
  snd (handle_webhook cfg ce rp request s) = s
  ∧ (e_type event = "customer.subscription.deleted" →
     ∀ sid, o_id (e_object event) = Some sid →
            is_Some (query_subscription sid (db s)) →
            fst (handle_webhook cfg ce rp request s)
            = Raise (HTTPException 500
                       "'TenantProvisioner' object has no attribute 'suspend_tenant'"))
  ∧ (e_type event ≠ "customer.subscription.deleted" →
     e_type event ≠ "invoice.payment_succeeded" →
     fst (handle_webhook cfg ce rp request s) = Ok {["status" := "success"]}).
Proof.
  intros Hsig Hce H1 H2.
  rewrite (handle_webhook_verified _ _ _ _ event) by done.
  unfold handlers.
  apply String.eqb_neq in H1, H2. rewrite H1, H2.
  destruct (String.eqb (e_type event) "customer.subscription.deleted") eqn:E3.
  { apply String.eqb_eq in E3. rewrite handle_subscription_deleted_eval.
    split; [|split].
    - destruct (o_id (e_object event)) as [sid|]; [|done].
      by destruct (query_subscription sid (db s)).
    - intros _ sid Hid [x Hx]. by rewrite Hid, Hx.
    - done. }
  destruct (String.eqb (e_type event) "invoice.payment_failed") eqn:E4.
  { rewrite handle_payment_failed_eval. split; [done|]. split; [|done].
    intros E. rewrite E in E3. discriminate. }
  destruct (String.eqb (e_type event) "invoice.payment_succeeded") eqn:E5.
  { apply String.eqb_eq in E5.
    destruct (handle_payment_succeeded_eval event s) as [r ->].
    split; [by destruct r as [[]|]|]. split; [|done].
    intros E. rewrite E in E3. discriminate. }
  split; [done|]. split; [|done].
  intros E. rewrite E in E3. discriminate.
Qed.

Lemma find_update_status sid x status l :
  find (λ y, String.eqb (s_stripe_subscription_id y) sid) l = Some x →
  find (λ y, String.eqb (s_stripe_subscription_id y) sid)
       (map (λ y, if Nat.eqb (s_id y) (s_id x) then set_s_status status y else y) l)
  = Some (set_s_status status x).
Proof.
  induction l as [|y l IH]; simpl; [discriminate|].
  destruct (String.eqb (s_stripe_subscription_id y) sid) eqn:E.
  - intros [= ->]. rewrite Nat.eqb_refl. simpl. by rewrite E.
  - intros H. destruct (Nat.eqb (s_id y) (s_id x)); simpl; rewrite E; by apply IH.
Qed.

(** X22. [_handle_subscription_updated] leaves the store alone for a
    subscription it does not know.  For one it knows, the new status is
    committed first, so it is stored in every case and no tenant row is
    touched; the handler then returns only for a status other than
    [past_due], [unpaid] and [active]: for those three it raises
    [AttributeError], the provisioner having no [suspend_tenant] and no
    [resume_tenant]. *)
Theorem subscription_update_is_stored event sid status s :
  o_id (e_object event) = Some sid →
  o_status (e_object event) = Some status →
  match query_subscription sid (db s) with
  | None => _handle_subscription_updated event s = (Ok (), s)
  | Some x =>
      ∃ r s',
        _handle_subscription_updated event s = (r, s')
        ∧ s' = set_db (update_subscription (s_id x) (set_s_status status) (db s)) s
        ∧ query_subscription sid (db s') = Some (set_s_status status x)
        ∧ tenants (db s') = tenants (db s)
        ∧ r = (if String.eqb status "past_due" || String.eqb status "unpaid"
               then Raise (no_attribute "suspend_tenant")
               else if String.eqb status "active"
               then Raise (no_attribute "resume_tenant")
               else Ok ())
  end.
Proof.
  intros Hid Hst. unfold _handle_subscription_updated, getitem.
  rewrite Hid, Hst. run_monad.
  destruct (query_subscription sid (db s)) as [x|] eqn:Hq; [|reflexivity].
  unfold commit_subscription. run_monad.
  exists (if String.eqb status "past_due" || String.eqb status "unpaid"
          then Raise (no_attribute "suspend_tenant")
          else if String.eqb status "active"
          then Raise (no_attribute "resume_tenant")
          else Ok ()),
    (set_db (update_subscription (s_id x) (set_s_status status) (db s)) s).
  split; [|split; [reflexivity|split; [|split; reflexivity]]].
  - destruct (String.eqb status "past_due" || String.eqb status "unpaid");
      [reflexivity|].
    destruct (String.eqb status "active"); reflexivity.
  - unfold query_subscription in *. simpl. by apply find_update_status.
Qed.

Lemma new_path_returns_tenant cfg user_id email plan sid cid eid s tenant error s1 :
  already_handled eid (db s) = false →
  query_tenant_by_subscription sid (db s) = None →
  provision_tenant cfg user_id email plan sid cid eid s = (Ok (tenant, error), s1) →
  ∃ t, tenant = Some t.
Proof.
  intros Hh Hq Hrun.
  destruct (provision_tenant_new_cases cfg user_id email plan sid cid eid s Hh Hq)
    as [(msg & H) | [(t0 & l0 & app & s0 & e & s3 & _ & _ & _ & H)
                    | (t0 & l0 & app & s0 & s3 & pw & s4 & _ & _ & _ & _ & H)]];
    cbv zeta in H; rewrite Hrun in H; try discriminate;
    injection H as -> _ _; eauto.
Qed.


Lemma only_two_events_write_witness :
  let event := subscription_event "customer.subscription.deleted" "canceled" in
  let run := handle_webhook default_settings (delivers event) pro_price
               signed_request world_active_tenant in
  snd run = world_active_tenant
  ∧ (e_type event = "customer.subscription.deleted" →
     ∀ sid, o_id (e_object event) = Some sid →
            is_Some (query_subscription sid (db world_active_tenant)) →
            fst run
            = Raise (HTTPException 500
                       "'TenantProvisioner' object has no attribute 'suspend_tenant'"))
  ∧ (e_type event ≠ "customer.subscription.deleted" →
     e_type event ≠ "invoice.payment_succeeded" →
     fst run = Ok {["status" := "success"]}).
Proof.
  apply (only_two_events_write default_settings
           (delivers (subscription_event "customer.subscription.deleted" "canceled"))
           pro_price signed_request
           (subscription_event "customer.subscription.deleted" "canceled")
           world_active_tenant).
  - reflexivity.
  - reflexivity.
  - vm_compute. discriminate.
  - vm_compute. discriminate.
Defined.

Lemma subscription_update_is_stored_witness :
  match query_subscription "sub_1" (db world_active_tenant) with
  | None => _handle_subscription_updated
              (subscription_event "customer.subscription.updated" "past_due")
              world_active_tenant
            = (Ok (), world_active_tenant)
  | Some x =>
      ∃ r s',
        _handle_subscription_updated
          (subscription_event "customer.subscription.updated" "past_due")
          world_active_tenant = (r, s')
        ∧ s' = set_db (update_subscription (s_id x) (set_s_status "past_due")
                         (db world_active_tenant)) world_active_tenant
        ∧ query_subscription "sub_1" (db s') = Some (set_s_status "past_due" x)
        ∧ tenants (db s') = tenants (db world_active_tenant)
        ∧ r = (if String.eqb "past_due" "past_due" || String.eqb "past_due" "unpaid"
               then Raise (no_attribute "suspend_tenant")
               else if String.eqb "past_due" "active"
               then Raise (no_attribute "resume_tenant")
               else Ok ())
  end.
Proof.
  apply (subscription_update_is_stored
           (subscription_event "customer.subscription.updated" "past_due")
           "sub_1" "past_due" world_active_tenant); reflexivity.
Defined.

